(** * Trimble TSIP driver (drivers/driver_tsip.c): a shallow embedding

    The development follows the C file top-down: the byte accessors the
    driver takes from bits.h, the session record with the fields the driver
    touches, the wire codec ([tsip1_checksum], [tsip_write1]), the TSIPv1
    query scheduler ([tsipv1_query]), the two satellite-type remaps, the
    decoders for packets x5d, x6c, x6d and x8f-20, and the two dispatchers
    ([tsipv1_parse], [tsip_parse_input]).

    Conventions.
    - A C [char]/[unsigned char] is a [Z] in [0, 256); buffers are [list Z]
      and every read goes through [getub], which reduces modulo 256.
    - A C [double] is a binary64 primitive float; a [float] on the wire is
      its binary32 bit pattern, widened exactly by [getbef32].
    - [gps_mask_t] is a [Z] used as a bit set ([Z.lor], [Z.testbit]).
    - Calls to the logger are recorded in [errout] of the context: level,
      format string (without the trailing newline) and the integer
      arguments. *)

From Stdlib Require Import ZArith Bool Lia String Floats Uint63.
From stdpp Require Import base list.

Local Open Scope string_scope.
Local Open Scope Z_scope.

(** ** Byte accessors (bits.h) *)

Definition getub (buf : list Z) (off : Z) : Z :=
  default 0 (buf !! Z.to_nat off) mod 256.

Definition getsb (buf : list Z) (off : Z) : Z :=
  let u := getub buf off in if 128 <=? u then u - 256 else u.

Definition getbeu16 (buf : list Z) (off : Z) : Z :=
  Z.lor (Z.shiftl (getub buf off) 8) (getub buf (off + 1)).

Definition getbes16 (buf : list Z) (off : Z) : Z :=
  let u := getbeu16 buf off in if 32768 <=? u then u - 65536 else u.

Definition getbeu32 (buf : list Z) (off : Z) : Z :=
  Z.lor (Z.shiftl (getub buf off) 24)
    (Z.lor (Z.shiftl (getub buf (off + 1)) 16)
       (Z.lor (Z.shiftl (getub buf (off + 2)) 8) (getub buf (off + 3)))).

Definition getbes32 (buf : list Z) (off : Z) : Z :=
  let u := getbeu32 buf off in if 2147483648 <=? u then u - 4294967296 else u.

Definition putbe16 (buf : list Z) (off : Z) (val : Z) : list Z :=
  <[Z.to_nat (off + 1) := Z.land val 255]>
    (<[Z.to_nat off := Z.land (Z.shiftr val 8) 255]> buf).

Definition putbe32 (buf : list Z) (off : Z) (val : Z) : list Z :=
  <[Z.to_nat (off + 3) := Z.land val 255]>
    (<[Z.to_nat (off + 2) := Z.land (Z.shiftr val 8) 255]>
       (<[Z.to_nat (off + 1) := Z.land (Z.shiftr val 16) 255]>
          (<[Z.to_nat off := Z.land (Z.shiftr val 24) 255]> buf))).

(** ** Doubles *)

(** [(double)z] for an integer of at most 63 bits. *)
Definition double_of_Z (z : Z) : float :=
  match z with
  | Z0 => 0%float
  | Zpos _ => PrimFloat.of_uint63 (Uint63.of_Z z)
  | Zneg _ => (- PrimFloat.of_uint63 (Uint63.of_Z (- z)))%float
  end.

(** The value of a binary32 bit pattern, as a double (the widening is
    exact). *)
Definition float32_of_bits (w : Z) : float :=
  let sign := Z.testbit w 31 in
  let e := Z.land (Z.shiftr w 23) 255 in
  let m := Z.land w 8388607 in
  let mag :=
    if e =? 255 then (if m =? 0 then infinity else nan)
    else if e =? 0 then Z.ldexp (double_of_Z m) (-149)
    else Z.ldexp (double_of_Z (m + 8388608)) (e - 150) in
  if sign then (- mag)%float else mag.

Definition getbef32 (buf : list Z) (off : Z) : float :=
  float32_of_bits (getbeu32 buf off).

(** [IN(min, x, max)] of gpsd.h. *)
Definition IN (min x max : float) : bool :=
  PrimFloat.leb min x && PrimFloat.leb x max.

(** ** Constants *)

Definition TSIP_CHANNELS : Z := 64.

Definition SEMI_2_DEG : float := (180.0 / double_of_Z 2147483647)%float.

(** gps.h is not part of this file; the values below are those of gpsd's
    gps.h. *)
Definition RAD_2_DEG : float := 57.2957795130823208767981548141051703%float.

Definition GNSSID_GPS : Z := 0.
Definition GNSSID_SBAS : Z := 1.
Definition GNSSID_GAL : Z := 2.
Definition GNSSID_BD : Z := 3.
Definition GNSSID_IMES : Z := 4.
Definition GNSSID_QZSS : Z := 5.
Definition GNSSID_GLO : Z := 6.
Definition GNSSID_IRNSS : Z := 7.

Definition STATUS_UNK : Z := 0.
Definition STATUS_GPS : Z := 1.
Definition STATUS_DGPS : Z := 2.
Definition STATUS_DR : Z := 5.
Definition STATUS_TIME : Z := 7.

Definition MODE_NO_FIX : Z := 1.
Definition MODE_2D : Z := 2.
Definition MODE_3D : Z := 3.

Definition SAT_HEALTH_OK : Z := 1.
Definition SAT_HEALTH_BAD : Z := 2.

Definition LEAP_SECOND_VALID : Z := 0x01.

(** Packet types of the lexer: only [TSIP_PACKET] is told apart. *)
Inductive packet_type : Type :=
  | TSIP_PACKET
  | OTHER_PACKET (n : Z).

(** Log levels used by the driver. *)
Inductive log_level : Type :=
  | LOG_WARN | LOG_INF | LOG_PROG | LOG_IO | LOG_DATA | LOG_WARNING.

(** Bits of [gps_mask_t]: each flag is one bit, and only that is used
    below. *)
Definition TIME_SET : Z := Z.shiftl 1 2.
Definition LATLON_SET : Z := Z.shiftl 1 4.
Definition ALTITUDE_SET : Z := Z.shiftl 1 5.
Definition STATUS_SET : Z := Z.shiftl 1 9.
Definition MODE_SET : Z := Z.shiftl 1 10.
Definition DOP_SET : Z := Z.shiftl 1 11.
Definition SATELLITE_SET : Z := Z.shiftl 1 15.
Definition VNED_SET : Z := Z.shiftl 1 41.
Definition USED_IS : Z := Z.shiftl 1 47.
Definition CLEAR_IS : Z := Z.shiftl 1 49.
Definition NTPTIME_IS : Z := Z.shiftl 1 52.

Definition mask_has (mask flag : Z) : bool := negb (Z.land mask flag =? 0).

(** ** Session state *)

Record log_entry : Type := mk_log_entry {
  log_lvl : log_level;
  log_fmt : string;
  log_args : list Z }.

Record timespec_t : Type := mk_timespec { tv_sec : Z; tv_nsec : Z }.

(** [TS_EQ] of timespec.h. *)
Definition TS_EQ (a b : timespec_t) : bool :=
  (tv_sec a =? tv_sec b) && (tv_nsec a =? tv_nsec b).

(** [MSTOTS] of timespec.h: milliseconds to a normalized timespec. *)
Definition MSTOTS (ms : Z) : timespec_t :=
  mk_timespec (ms / 1000) ((ms mod 1000) * 1000000).

Record satellite_t : Type := mk_satellite {
  PRN : Z;
  ss : float;
  elevation : float;
  azimuth : float;
  used : bool;
  gnssid : Z;
  svid : Z;
  health : Z }.

Record dop_t : Type := mk_dop {
  pdop : float; hdop : float; vdop : float; tdop : float }.

Record gps_fix_t : Type := mk_fix {
  time : timespec_t;
  mode : Z;
  status : Z;
  latitude : float;
  longitude : float;
  altHAE : float;
  velN : float;
  velE : float;
  velD : float }.

Record gps_data_t : Type := mk_gpsdata {
  satellites_visible : Z;
  satellites_used : Z;
  skyview : list satellite_t;
  skyview_time : timespec_t;
  dop : dop_t }.

Record gps_context_t : Type := mk_context {
  readonly : bool;
  passive : bool;
  leap_seconds : Z;
  valid : Z;
  gps_week : Z;
  errout : list log_entry }.

(** [session->driver.tsip] *)
Record tsip_t : Type := mk_tsip {
  last_tow : timespec_t;
  last_chan_seen : Z;
  sats_used : list Z;
  last_41 : Z;
  last_6d : Z;
  last_48 : Z;
  last_5c : Z;
  last_46 : Z;
  req_compact : Z;
  superpkt : Z }.

Record lexer_t : Type := mk_lexer {
  type : packet_type;
  outbuffer : list Z;
  outbuflen : Z }.

(** [struct gps_device_t]; [wire] lists the buffers handed to
    [gpsd_write], oldest first. [msgbuf] and [driver.tsip.sats_used] are
    arrays of fixed size ([sizeof_msgbuf] bytes and [MAXCHANNELS] entries,
    both of gpsd.h); [overrun] is set by a store past the end of one of
    them, after which C does not say what the session holds. *)
Record gps_device_t : Type := mk_device {
  context : gps_context_t;
  gpsdata : gps_data_t;
  newdata : gps_fix_t;
  lastfix : gps_fix_t;
  oldfix : gps_fix_t;
  driver_tsip : tsip_t;
  lexer : lexer_t;
  queue : Z;
  msgbuf : list Z;
  msgbuflen : Z;
  wire : list (list Z);
  overrun : bool }.

(** Field updates. *)
Definition with_context (f : gps_context_t -> gps_context_t)
    (s : gps_device_t) : gps_device_t :=
  mk_device (f (context s)) (gpsdata s) (newdata s) (lastfix s) (oldfix s)
    (driver_tsip s) (lexer s) (queue s) (msgbuf s) (msgbuflen s) (wire s)
    (overrun s).

Definition with_gpsdata (f : gps_data_t -> gps_data_t)
    (s : gps_device_t) : gps_device_t :=
  mk_device (context s) (f (gpsdata s)) (newdata s) (lastfix s) (oldfix s)
    (driver_tsip s) (lexer s) (queue s) (msgbuf s) (msgbuflen s) (wire s)
    (overrun s).

Definition with_newdata (f : gps_fix_t -> gps_fix_t)
    (s : gps_device_t) : gps_device_t :=
  mk_device (context s) (gpsdata s) (f (newdata s)) (lastfix s) (oldfix s)
    (driver_tsip s) (lexer s) (queue s) (msgbuf s) (msgbuflen s) (wire s)
    (overrun s).

Definition with_tsip (f : tsip_t -> tsip_t)
    (s : gps_device_t) : gps_device_t :=
  mk_device (context s) (gpsdata s) (newdata s) (lastfix s) (oldfix s)
    (f (driver_tsip s)) (lexer s) (queue s) (msgbuf s) (msgbuflen s) (wire s)
    (overrun s).

Definition set_queue (q : Z) (s : gps_device_t) : gps_device_t :=
  mk_device (context s) (gpsdata s) (newdata s) (lastfix s) (oldfix s)
    (driver_tsip s) (lexer s) q (msgbuf s) (msgbuflen s) (wire s) (overrun s).

Definition set_msgbuf (b : list Z) (n : Z) (s : gps_device_t) : gps_device_t :=
  mk_device (context s) (gpsdata s) (newdata s) (lastfix s) (oldfix s)
    (driver_tsip s) (lexer s) (queue s) b n (wire s) (overrun s).

Definition set_wire (w : list (list Z)) (s : gps_device_t) : gps_device_t :=
  mk_device (context s) (gpsdata s) (newdata s) (lastfix s) (oldfix s)
    (driver_tsip s) (lexer s) (queue s) (msgbuf s) (msgbuflen s) w
    (overrun s).

Definition set_overrun (b : bool) (s : gps_device_t) : gps_device_t :=
  mk_device (context s) (gpsdata s) (newdata s) (lastfix s) (oldfix s)
    (driver_tsip s) (lexer s) (queue s) (msgbuf s) (msgbuflen s) (wire s) b.

Definition set_errout (l : list log_entry) (c : gps_context_t)
    : gps_context_t :=
  mk_context (readonly c) (passive c) (leap_seconds c) (valid c)
    (gps_week c) l.

Definition set_leap_seconds (ls : Z) (c : gps_context_t) : gps_context_t :=
  mk_context (readonly c) (passive c) ls (valid c) (gps_week c) (errout c).

Definition set_valid (v : Z) (c : gps_context_t) : gps_context_t :=
  mk_context (readonly c) (passive c) (leap_seconds c) v (gps_week c)
    (errout c).

(** [GPSD_LOG(lvl, &session->context->errout, fmt, args...)] *)
Definition GPSD_LOG (lvl : log_level) (fmt : string) (args : list Z)
    (session : gps_device_t) : gps_device_t :=
  with_context
    (fun c => set_errout (errout c ++ [mk_log_entry lvl fmt args]) c) session.

(** ** Decoders that are kept abstract

    The dispatchers route to the decoders below; what these do with the
    session is not needed for the dispatch properties, so they are taken
    from the environment, one function per family. *)

(** Decoders reached from [tsipv1_parse]. *)
Inductive v1_decoder : Type :=
  | X90_00 | X90_01 | X91_00 | X91_01 | X91_02 | X91_03 | X91_04 | X91_05
  | X92_01 | X93_00 | XA0_00 | XA1_00 | XA1_02 | XA1_11 | XA2_00 | XA3_00
  | XA3_11 | XA3_21 | XD0_00 | XD0_01.

(** Decoders reached from [tsip_parse_input], [decode_x1c] and
    [decode_x8f]. *)
Inductive tsip_decoder : Type :=
  | X13 | X1C_81 | X1C_83 | X41 | X42 | X43 | X45 | X46 | X47 | X4A | X4B
  | X4C | X54 | X55 | X56 | X57 | X5A | X5C | X82 | X83 | X84 | XBB
  | X8F_15 | X8F_23 | X8F_42 | X8F_A5 | X8F_A6 | X8F_A7 | X8F_A9 | X8F_AB
  | X8F_AC.

(** ** What the driver takes from the rest of gpsd

    None of the first five is defined in driver_tsip.c.
    - [sizeof_msgbuf]: [sizeof(session->msgbuf)].
    - [MAXCHANNELS]: the size of the skyview and sats_used arrays (gps.h).
    - [gpsd_write_ret]: the value [gpsd_write] returns for a session and
      the buffer and length it is given.
    - [gpsd_gpstime_resolv]: resolves (week, time of week) to a time; it
      reads and updates the context only.
    - [DTOTS]: seconds as a double to a timespec (timespec.h).
    - [decode_v1 d session buf len]: the TSIPv1 decoder [d]; mask and
      session.
    - [decode_tsip d session buf len now]: the decoder [d] of the older
      protocol; mask, the value it stores through [pbad_len] (read for x47
      only) and session. *)
Record driver_env : Type := mk_env {
  sizeof_msgbuf : Z;
  MAXCHANNELS : Z;
  gpsd_write_ret : gps_device_t -> list Z -> Z -> Z;
  gpsd_gpstime_resolv :
    gps_context_t -> Z -> timespec_t -> timespec_t * gps_context_t;
  DTOTS : float -> timespec_t;
  decode_v1 : v1_decoder -> gps_device_t -> list Z -> Z -> Z * gps_device_t;
  decode_tsip :
    tsip_decoder -> gps_device_t -> list Z -> Z -> Z ->
    Z * Z * gps_device_t }.

(** ** Wire codec *)

(** [tsip1_checksum]: the loop over [index], [checksum ^= buf[index]]. *)
Fixpoint tsip1_checksum_loop (buf : list Z) (index : Z) (n : nat)
    (checksum : Z) : Z :=
  match n with
  | O => checksum
  | S n' =>
      tsip1_checksum_loop buf (index + 1) n'
        (Z.lxor checksum (getub buf index))
  end.

Definition tsip1_checksum (buf : list Z) (len : Z) : Z :=
  tsip1_checksum_loop buf 0 (Z.to_nat len) 0.

(** The copy loop of [tsip_write1]: the bytes stored through [ep], every
    DLE (0x10) of the payload doubled. *)
Fixpoint tsip_write1_copy (buf : list Z) (cp : Z) (olen : nat) : list Z :=
  match olen with
  | O => []
  | S n =>
      (if getub buf cp =? 0x10 then [0x10] else [])
        ++ getub buf cp :: tsip_write1_copy buf (cp + 1) n
  end.

(** [gpsd_write]: the buffer goes out on the wire, the return value is
    the environment's. *)
Definition gpsd_write (E : driver_env) (session : gps_device_t)
    (buf : list Z) (len : Z) : Z * gps_device_t :=
  (gpsd_write_ret E session buf len,
   set_wire (wire session ++ [take (Z.to_nat len) buf]) session).

(** [tsip_write1(session, buf, len)]; [buf] is [None] for a NULL pointer.
    [msgbuf] keeps the frame built, [msgbuflen] bytes of it. The copy loop
    stores through [ep] without a bound: a frame of more than
    [sizeof(session->msgbuf)] bytes goes past the end of the array. *)
Definition tsip_write1 (E : driver_env) (session : gps_device_t)
    (buf : option (list Z)) (len : Z) : Z * gps_device_t :=
  if readonly (context session) then (0, session)
  else
    match buf with
    | None => (-1, session)
    | Some b =>
        if (len =? 0) || (sizeof_msgbuf E / 2 <? len) then (-1, session)
        else
          let frame :=
            0x10 :: tsip_write1_copy b 0 (Z.to_nat len) ++ [0x10; 0x03] in
          let session := set_msgbuf frame (Z.of_nat (length frame)) session in
          let session :=
            if sizeof_msgbuf E <? msgbuflen session then
              set_overrun true session
            else session in
          let session :=
            GPSD_LOG LOG_PROG "TSIP: tsip_write1(0x%s)"
              (take (Z.to_nat len) (drop 1 (msgbuf session))) session in
          let '(n, session) :=
            gpsd_write E session (msgbuf session) (msgbuflen session) in
          if negb (n =? msgbuflen session) then (-1, session)
          else (0, session)
    end.

(** ** TSIPv1 query scheduler *)

(** [char snd_buf[24]], before anything is stored in it. *)
Definition snd_buf0 : list Z := replicate 24 0.

(** A query frame of [tsipv1_query] with no data byte:
    id, sub id, length 2, mode 0, checksum over the five bytes. *)
Definition tsipv1_query_frame (id sub_id : Z) : list Z :=
  let snd_buf := <[0%nat := id]> snd_buf0 in
  let snd_buf := <[1%nat := sub_id]> snd_buf in
  let snd_buf := putbe16 snd_buf 2 2 in
  let snd_buf := <[4%nat := 0]> snd_buf in
  <[5%nat := tsip1_checksum snd_buf 5]> snd_buf.

(** A query frame with one data byte: length 3, checksum over six bytes. *)
Definition tsipv1_query_frame1 (id sub_id data : Z) : list Z :=
  let snd_buf := <[0%nat := id]> snd_buf0 in
  let snd_buf := <[1%nat := sub_id]> snd_buf in
  let snd_buf := putbe16 snd_buf 2 3 in
  let snd_buf := <[4%nat := 0]> snd_buf in
  let snd_buf := <[5%nat := data]> snd_buf in
  <[6%nat := tsip1_checksum snd_buf 6]> snd_buf.

(** The set frame x91-05 sent when the session is not passive. *)
Definition tsipv1_set_periodic_frame : list Z :=
  let snd_buf := <[0%nat := 0x91]> snd_buf0 in
  let snd_buf := <[1%nat := 0x05]> snd_buf in
  let snd_buf := putbe16 snd_buf 2 19 in
  let snd_buf := <[4%nat := 0x01]> snd_buf in
  let snd_buf := <[5%nat := 0xff]> snd_buf in
  let snd_buf := putbe32 snd_buf 6 0xaaaaa in
  let snd_buf := putbe32 snd_buf 10 0 in
  let snd_buf := putbe32 snd_buf 14 0 in
  let snd_buf := putbe32 snd_buf 18 0 in
  <[22%nat := tsip1_checksum snd_buf 22]> snd_buf.

(** The [switch (session->queue / 4)] of [tsipv1_query]: the buffer and
    the length passed to [tsip_write1], if any. *)
Definition tsipv1_query_select (passive : bool) (item : Z)
    : option (list Z * Z) :=
  match item with
  | 1 => Some (tsipv1_query_frame 0x90 0x00, 6)
  | 2 => Some (tsipv1_query_frame 0x90 0x01, 6)
  | 3 => Some (tsipv1_query_frame1 0x91 0x00 0, 7)
  | 4 => Some (tsipv1_query_frame 0x91 0x01, 6)
  | 5 => Some (tsipv1_query_frame 0x91 0x03, 6)
  | 6 => Some (tsipv1_query_frame 0x91 0x04, 6)
  | 7 =>
      if passive then Some (tsipv1_query_frame1 0x91 0x05 0xff, 7)
      else Some (tsipv1_set_periodic_frame, 23)
  | 8 => Some (tsipv1_query_frame 0x93 0x00, 6)
  | _ => None
  end.

(** [tsipv1_query(session)] *)
Definition tsipv1_query (E : driver_env) (session : gps_device_t)
    : gps_device_t :=
  let session := set_queue (queue session + 1) session in
  let session := set_queue (Z.land (queue session) 0x0ffff) session in
  if negb (queue session mod 4 =? 0) then session
  else
    match tsipv1_query_select (passive (context session))
            (queue session / 4) with
    | Some (snd_buf, len) => snd (tsip_write1 E session (Some snd_buf) len)
    | None => session
    end.

(** ** Satellite type remaps *)

(** A value stored into an [unsigned char]. *)
Definition to_uchar (z : Z) : Z := z mod 256.

(** [tsip_gnssid(svtype, prn, &svid)]: the pair (gnssid, svid). *)
Definition tsip_gnssid (svtype prn : Z) : Z * Z :=
  match svtype with
  | 0 =>
      if (0 <? prn) && (prn <? 33) then (GNSSID_GPS, to_uchar prn)
      else if (32 <? prn) && (prn <? 55) then
        (GNSSID_SBAS, to_uchar (prn + 87))
      else if (64 <? prn) && (prn <? 97) then
        (GNSSID_GLO, to_uchar (prn - 64))
      else if (96 <? prn) && (prn <? 134) then
        (GNSSID_GAL, to_uchar (prn - 96))
      else if (119 <? prn) && (prn <? 139) then
        (GNSSID_SBAS, to_uchar (prn + 87))
      else if prn =? 183 then (GNSSID_QZSS, 1)
      else if (192 <=? prn) && (prn <=? 193) then
        (GNSSID_QZSS, to_uchar (prn - 190))
      else if prn =? 200 then (GNSSID_QZSS, 4)
      else if (200 <? prn) && (prn <? 238) then
        (GNSSID_BD, to_uchar (prn - 200))
      else (0, 0)
  | 1 => (GNSSID_GLO, to_uchar (prn - 64))
  | 2 => (GNSSID_BD, to_uchar (prn - 200))
  | 3 => (GNSSID_GAL, to_uchar (prn - 96))
  | 5 =>
      (GNSSID_QZSS,
       match prn with
       | 183 => 1
       | 192 => 2
       | 193 => 3
       | 200 => 4
       | _ => to_uchar prn
       end)
  | _ => (0, 0)
  end.

(** [tsipv1_svtype(svtype, &sigid)]: the pair (gnssid, sigid). *)
Definition tsipv1_svtype (svtype : Z) : Z * Z :=
  match svtype with
  | 1 => (GNSSID_GPS, 0)
  | 2 => (GNSSID_GPS, 3)
  | 3 => (GNSSID_GPS, 6)
  | 5 => (GNSSID_GLO, 0)
  | 6 => (GNSSID_GLO, 2)
  | 9 => (GNSSID_SBAS, 0)
  | 13 => (GNSSID_BD, 0)
  | 14 => (GNSSID_BD, 2)
  | 15 => (GNSSID_BD, 3)
  | 17 => (GNSSID_GAL, 0)
  | 18 => (GNSSID_GAL, 3)
  | 19 => (GNSSID_GAL, 5)
  | 20 => (GNSSID_GAL, 8)
  | 22 => (GNSSID_QZSS, 0)
  | 23 => (GNSSID_QZSS, 4)
  | 24 => (GNSSID_QZSS, 8)
  | 26 => (GNSSID_IRNSS, 8)
  | _ => (0xff, 0xff)
  end.

(** ** Field updates used by the decoders *)

Definition set_satellites_visible (n : Z) (g : gps_data_t) : gps_data_t :=
  mk_gpsdata n (satellites_used g) (skyview g) (skyview_time g) (dop g).

Definition set_satellites_used (n : Z) (g : gps_data_t) : gps_data_t :=
  mk_gpsdata (satellites_visible g) n (skyview g) (skyview_time g) (dop g).

Definition set_skyview (l : list satellite_t) (g : gps_data_t) : gps_data_t :=
  mk_gpsdata (satellites_visible g) (satellites_used g) l (skyview_time g)
    (dop g).

Definition set_skyview_time (t : timespec_t) (g : gps_data_t) : gps_data_t :=
  mk_gpsdata (satellites_visible g) (satellites_used g) (skyview g) t (dop g).

Definition with_dop (f : dop_t -> dop_t) (g : gps_data_t) : gps_data_t :=
  mk_gpsdata (satellites_visible g) (satellites_used g) (skyview g)
    (skyview_time g) (f (dop g)).

Definition set_pdop (x : float) (d : dop_t) : dop_t :=
  mk_dop x (hdop d) (vdop d) (tdop d).
Definition set_hdop (x : float) (d : dop_t) : dop_t :=
  mk_dop (pdop d) x (vdop d) (tdop d).
Definition set_vdop (x : float) (d : dop_t) : dop_t :=
  mk_dop (pdop d) (hdop d) x (tdop d).
Definition set_tdop (x : float) (d : dop_t) : dop_t :=
  mk_dop (pdop d) (hdop d) (vdop d) x.

Definition set_time (t : timespec_t) (f : gps_fix_t) : gps_fix_t :=
  mk_fix t (mode f) (status f) (latitude f) (longitude f) (altHAE f)
    (velN f) (velE f) (velD f).
Definition set_mode (m : Z) (f : gps_fix_t) : gps_fix_t :=
  mk_fix (time f) m (status f) (latitude f) (longitude f) (altHAE f)
    (velN f) (velE f) (velD f).
Definition set_status (st : Z) (f : gps_fix_t) : gps_fix_t :=
  mk_fix (time f) (mode f) st (latitude f) (longitude f) (altHAE f)
    (velN f) (velE f) (velD f).
Definition set_latitude (x : float) (f : gps_fix_t) : gps_fix_t :=
  mk_fix (time f) (mode f) (status f) x (longitude f) (altHAE f)
    (velN f) (velE f) (velD f).
Definition set_longitude (x : float) (f : gps_fix_t) : gps_fix_t :=
  mk_fix (time f) (mode f) (status f) (latitude f) x (altHAE f)
    (velN f) (velE f) (velD f).
Definition set_altHAE (x : float) (f : gps_fix_t) : gps_fix_t :=
  mk_fix (time f) (mode f) (status f) (latitude f) (longitude f) x
    (velN f) (velE f) (velD f).
Definition set_velN (x : float) (f : gps_fix_t) : gps_fix_t :=
  mk_fix (time f) (mode f) (status f) (latitude f) (longitude f) (altHAE f)
    x (velE f) (velD f).
Definition set_velE (x : float) (f : gps_fix_t) : gps_fix_t :=
  mk_fix (time f) (mode f) (status f) (latitude f) (longitude f) (altHAE f)
    (velN f) x (velD f).
Definition set_velD (x : float) (f : gps_fix_t) : gps_fix_t :=
  mk_fix (time f) (mode f) (status f) (latitude f) (longitude f) (altHAE f)
    (velN f) (velE f) x.

Definition set_last_tow (t : timespec_t) (d : tsip_t) : tsip_t :=
  mk_tsip t (last_chan_seen d) (sats_used d) (last_41 d) (last_6d d)
    (last_48 d) (last_5c d) (last_46 d) (req_compact d) (superpkt d).
Definition set_last_chan_seen (i : Z) (d : tsip_t) : tsip_t :=
  mk_tsip (last_tow d) i (sats_used d) (last_41 d) (last_6d d)
    (last_48 d) (last_5c d) (last_46 d) (req_compact d) (superpkt d).
Definition set_sats_used (l : list Z) (d : tsip_t) : tsip_t :=
  mk_tsip (last_tow d) (last_chan_seen d) l (last_41 d) (last_6d d)
    (last_48 d) (last_5c d) (last_46 d) (req_compact d) (superpkt d).
Definition set_last_41 (t : Z) (d : tsip_t) : tsip_t :=
  mk_tsip (last_tow d) (last_chan_seen d) (sats_used d) t (last_6d d)
    (last_48 d) (last_5c d) (last_46 d) (req_compact d) (superpkt d).
Definition set_last_6d (t : Z) (d : tsip_t) : tsip_t :=
  mk_tsip (last_tow d) (last_chan_seen d) (sats_used d) (last_41 d) t
    (last_48 d) (last_5c d) (last_46 d) (req_compact d) (superpkt d).
Definition set_last_48 (t : Z) (d : tsip_t) : tsip_t :=
  mk_tsip (last_tow d) (last_chan_seen d) (sats_used d) (last_41 d)
    (last_6d d) t (last_5c d) (last_46 d) (req_compact d) (superpkt d).
Definition set_last_5c (t : Z) (d : tsip_t) : tsip_t :=
  mk_tsip (last_tow d) (last_chan_seen d) (sats_used d) (last_41 d)
    (last_6d d) (last_48 d) t (last_46 d) (req_compact d) (superpkt d).
Definition set_last_46 (t : Z) (d : tsip_t) : tsip_t :=
  mk_tsip (last_tow d) (last_chan_seen d) (sats_used d) (last_41 d)
    (last_6d d) (last_48 d) (last_5c d) t (req_compact d) (superpkt d).
Definition set_req_compact (t : Z) (d : tsip_t) : tsip_t :=
  mk_tsip (last_tow d) (last_chan_seen d) (sats_used d) (last_41 d)
    (last_6d d) (last_48 d) (last_5c d) (last_46 d) t (superpkt d).

(** [session->gpsdata.skyview_time = gpsd_gpstime_resolv(...)] and
    [session->newdata.time = gpsd_gpstime_resolv(...)]: the call, with the
    context it leaves. *)
Definition resolv (E : driver_env) (session : gps_device_t) (week : Z)
    (tow : timespec_t) : timespec_t * gps_device_t :=
  let '(t, c) := gpsd_gpstime_resolv E (context session) week tow in
  (t, with_context (fun _ => c) session).

(** ** Packet x5d: satellite tracking status, one channel *)

Definition decode_x5d (E : driver_env) (session : gps_device_t)
    (buf : list Z) : Z * gps_device_t :=
  let mask := 0 in
  let u1 := getub buf 0 in
  let i := getub buf 1 in
  let u3 := getub buf 2 in
  let u4 := getub buf 3 in
  let f1 := getbef32 buf 4 in
  let ftow := getbef32 buf 8 in
  let d1 := (getbef32 buf 12 * RAD_2_DEG)%float in
  let d2 := (getbef32 buf 16 * RAD_2_DEG)%float in
  let u5 := getub buf 20 in
  let u6 := getub buf 21 in
  let u7 := getub buf 22 in
  let u8 := getub buf 23 in
  let u9 := getub buf 24 in
  let u10 := getub buf 25 in
  let session :=
    with_gpsdata
      (fun g =>
         if i =? 0 then
           set_satellites_visible (last_chan_seen (driver_tsip session)) g
         else g)
      session in
  let session := with_tsip (set_last_chan_seen i) session in
  let '(mask, i, session) :=
    if i <? TSIP_CHANNELS then
      let sat :=
        mk_satellite u1 f1 d1 d2 (negb (u4 =? 0))
          (fst (tsip_gnssid u10 u1)) (snd (tsip_gnssid u10 u1))
          (if u7 =? 0 then SAT_HEALTH_OK else SAT_HEALTH_BAD) in
      let session :=
        with_gpsdata
          (fun g => set_skyview (<[Z.to_nat i := sat]> (skyview g)) g)
          session in
      let session :=
        if PrimFloat.ltb 0 ftow then
          let '(t, session) :=
            resolv E session (gps_week (context session)) (DTOTS E ftow) in
          with_gpsdata (set_skyview_time t) session
        else session in
      let i := i + 1 in
      let last := satellites_visible (gpsdata session) <=? i in
      (if last then Z.lor mask SATELLITE_SET else mask, i,
       with_gpsdata (fun g => if last then set_satellites_visible i g else g)
         session)
    else (mask, i, session) in
  let session :=
    GPSD_LOG LOG_PROG
      ("TSIP x5d: Satellite Tracking Status: Ch %2d Con %d PRN %3d "
       ++ "Acq %d Use %d SNR %4.1f LMT %.04f El %4.1f Az %5.1f Old %d "
       ++ "Int %d Bad %d Col %d TPF %d SVT %d")
      [i; u10; u1; u3; u4; u5; u6; u7; u8; u9; u10] session in
  let session :=
    GPSD_LOG LOG_IO "TSIP: bad:%s uflags:%s scons:%s" [u7; u9; u10] session in
  (mask, session).

(** ** Packets x6c and x6d: satellite selection list *)

(** The four [if (IN(0.01, x, 89.99))] of x6c and x6d. *)
Definition store_dops (pd hd vd td : float) (mask : Z)
    (session : gps_device_t) : Z * gps_device_t :=
  let '(mask, session) :=
    if IN 0.01 pd 89.99 then
      (Z.lor mask DOP_SET, with_gpsdata (with_dop (set_pdop pd)) session)
    else (mask, session) in
  let '(mask, session) :=
    if IN 0.01 hd 89.99 then
      (Z.lor mask DOP_SET, with_gpsdata (with_dop (set_hdop hd)) session)
    else (mask, session) in
  let '(mask, session) :=
    if IN 0.01 vd 89.99 then
      (Z.lor mask DOP_SET, with_gpsdata (with_dop (set_vdop vd)) session)
    else (mask, session) in
  if IN 0.01 td 89.99 then
    (Z.lor mask DOP_SET, with_gpsdata (with_dop (set_tdop td)) session)
  else (mask, session).

(** [switch (fixdm & 7)] of x6c and x6d. *)
Definition fix_dimension (dim : Z) (f : gps_fix_t) : gps_fix_t :=
  match dim with
  | 1 | 5 => set_mode MODE_3D (set_status STATUS_TIME f)
  | 3 => set_mode MODE_2D f
  | 4 => set_mode MODE_3D f
  | 6 => set_mode MODE_3D (set_status STATUS_DGPS f)
  | _ => set_mode MODE_NO_FIX f
  end.

(** [for (i = 0; i < count; i++) sats_used[i] = getsb(buf, base + i)],
    on the [MAXCHANNELS] entries of the array; the loop has no bound of
    its own, and the callers set [overrun] when [count] exceeds
    [MAXCHANNELS]. *)
Fixpoint fill_sats_used (buf : list Z) (base : Z) (i : Z) (n : nat)
    (sats : list Z) : list Z :=
  match n with
  | O => sats
  | S n' =>
      fill_sats_used buf base (i + 1) n'
        (<[Z.to_nat i := getsb buf (base + i)]> sats)
  end.

(** [decode_x6c(session, buf, len, &bad_len)]: mask, bad_len, session. *)
Definition decode_x6c (E : driver_env) (session : gps_device_t)
    (buf : list Z) (len : Z) : Z * Z * gps_device_t :=
  let mask := 0 in
  let fixdm := getub buf 0 in
  let pd := getbef32 buf 1 in
  let hd := getbef32 buf 5 in
  let vd := getbef32 buf 9 in
  let td := getbef32 buf 13 in
  let '(mask, session) := store_dops pd hd vd td mask session in
  let count := getub buf 17 in
  if len <? 18 + count then (mask, 18 + count, session)
  else
    let session := with_newdata (fix_dimension (Z.land fixdm 7)) session in
    let session :=
      if Z.land fixdm 8 =? 8 then
        if negb (count =? 0) then
          with_newdata (set_status STATUS_TIME) session
        else with_newdata (set_status STATUS_DR) session
      else session in
    let mask :=
      if STATUS_UNK <? status (newdata session) then Z.lor mask STATUS_SET
      else mask in
    let mask := Z.lor mask MODE_SET in
    let session := with_gpsdata (set_satellites_used count) session in
    let session :=
      with_tsip
        (set_sats_used
           (fill_sats_used buf 18 0 (Z.to_nat count)
              (replicate (Z.to_nat (MAXCHANNELS E)) 0)))
        session in
    let session :=
      if MAXCHANNELS E <? count then set_overrun true session else session in
    let session :=
      GPSD_LOG LOG_PROG
        ("TSIP x6c: AIVSS: mode %d status %d used %d "
         ++ "pdop %.1f hdop %.1f vdop %.1f tdop %.1f Used %s fixdm x%x")
        [mode (newdata session); status (newdata session);
         satellites_used (gpsdata session); fixdm] session in
    let session := GPSD_LOG LOG_IO "TSIP: fixd:%s" [fixdm] session in
    (Z.lor mask USED_IS, 0, session).

(** [isfinite] of math.h. *)
Definition isfinite (x : float) : bool :=
  match PrimFloat.classify x with
  | NaN | PInf | NInf => false
  | _ => true
  end.

(** [decode_x6d(session, buf, len, &bad_len)]: mask, bad_len, session. *)
Definition decode_x6d (E : driver_env) (session : gps_device_t)
    (buf : list Z) (len : Z) : Z * Z * gps_device_t :=
  let mask := 0 in
  let fix_dim := getub buf 0 in
  let count := Z.land (Z.shiftr fix_dim 4) 0x0f in
  let pd := getbef32 buf 1 in
  let hd := getbef32 buf 5 in
  let vd := getbef32 buf 9 in
  let td := getbef32 buf 13 in
  if len <? 17 + count then (0, 17 + count, session)
  else
    let session := with_gpsdata (set_satellites_used count) session in
    let '(mask, session) := store_dops pd hd vd td mask session in
    let session := with_newdata (fix_dimension (Z.land fix_dim 7)) session in
    let session :=
      if (count <=? 0) && isfinite (longitude (oldfix session)) then
        with_newdata (set_status STATUS_DR) session
      else session in
    let mask :=
      if STATUS_UNK <? status (newdata session) then Z.lor mask STATUS_SET
      else mask in
    let mask := Z.lor mask MODE_SET in
    let session :=
      with_tsip
        (set_sats_used
           (fill_sats_used buf 17 0 (Z.to_nat count)
              (replicate (Z.to_nat (MAXCHANNELS E)) 0)))
        session in
    let session :=
      if MAXCHANNELS E <? count then set_overrun true session else session in
    let session :=
      GPSD_LOG LOG_PROG
        ("TSIP x6d: AIVSS: fix_dim=x%x status=%d mode=%d used=%d "
         ++ "pdop=%.1f hdop=%.1f vdop=%.1f tdop=%.1f used >%s<")
        [fix_dim; status (newdata session); mode (newdata session);
         satellites_used (gpsdata session)] session in
    let session := GPSD_LOG LOG_IO "TSIP: fix::%s" [fix_dim] session in
    (Z.lor mask USED_IS, 0, session).

(** ** Superpacket x8f-20: last fix with extra information *)

(** The week rollover check of x8f-20, made inside [if (10 < ls)]. *)
Definition x8f_20_week (ls week : Z) : Z :=
  if (17 <? ls) && (week <? 1930) then
    let week := week + 1024 in
    if week <? 1930 then week + 1024 else week
  else week.

(** The loop over the satellites used of x8f-20; it stops at the first
    [i] with [length < 33 + i * 2]. *)
Fixpoint x8f_20_sats (buf : list Z) (length : Z) (i : Z) (n : nat)
    (sats : list Z) : list Z :=
  match n with
  | O => sats
  | S n' =>
      if length <? 33 + i * 2 then sats
      else
        x8f_20_sats buf length (i + 1) n'
          (<[Z.to_nat i := Z.land (getub buf (32 + i * 2)) 0x1f]> sats)
  end.

Definition decode_x8f_20 (E : driver_env) (session : gps_device_t)
    (buf : list Z) (length : Z) : Z * gps_device_t :=
  let mask := 0 in
  let s1 := getbes16 buf 2 in
  let s2 := getbes16 buf 4 in
  let s3 := getbes16 buf 6 in
  let tow := getbeu32 buf 8 in
  let lat := getbes32 buf 12 in
  let lon := getbeu32 buf 16 in
  let alt := getbes32 buf 20 in
  let u1 := getub buf 24 in
  let datum := getub buf 26 in
  let fflags := getub buf 27 in
  let numSV := getub buf 28 in
  let ls := getub buf 29 in
  let week := getbeu16 buf 30 in
  let d4 := if negb (Z.land u1 0x01 =? 0) then 0.02%float else 0.005%float in
  (* (int)0x8000 is 32768; (int16_t)0x8000 is -32768 *)
  let session :=
    with_newdata
      (fun f =>
         if negb (s2 =? 0x8000) then set_velN (double_of_Z s2 * d4)%float f
         else f)
      session in
  let session :=
    with_newdata
      (fun f =>
         if negb (s1 =? -32768) then set_velE (double_of_Z s1 * d4)%float f
         else f)
      session in
  let session :=
    with_newdata
      (fun f =>
         if negb (s3 =? -32768) then
           set_velD (- (double_of_Z s3 * d4))%float f
         else f)
      session in
  let session :=
    with_newdata (set_latitude (double_of_Z lat * SEMI_2_DEG)%float)
      session in
  let session :=
    with_newdata (set_longitude (double_of_Z lon * SEMI_2_DEG)%float)
      session in
  let session :=
    with_newdata
      (fun f =>
         if PrimFloat.ltb 180.0 (longitude f) then
           set_longitude (longitude f - 360.0)%float f
         else f)
      session in
  let session :=
    with_newdata (set_altHAE (double_of_Z alt * 1e-3)%float) session in
  let mask := Z.lor mask ALTITUDE_SET in
  let session := with_newdata (set_status STATUS_UNK) session in
  let session := with_newdata (set_mode MODE_NO_FIX) session in
  let session :=
    with_newdata
      (fun f =>
         if Z.land fflags 0x01 =? 0 then
           let f := set_status STATUS_GPS f in
           let f :=
             if negb (Z.land fflags 0x02 =? 0) then set_status STATUS_DGPS f
             else f in
           if negb (Z.land fflags 0x04 =? 0) then set_mode MODE_2D f
           else set_mode MODE_3D f
         else f)
      session in
  let session := with_gpsdata (set_satellites_used numSV) session in
  let session :=
    with_context
      (fun c =>
         if 10 <? ls then
           let c := set_leap_seconds ls c in
           set_valid (Z.lor (valid c) LEAP_SECOND_VALID) c
         else c)
      session in
  let week := if 10 <? ls then x8f_20_week ls week else week in
  let ts_tow := MSTOTS tow in
  let '(t, session) := resolv E session week ts_tow in
  let session := with_newdata (set_time t) session in
  let mask :=
    Z.lor mask
      (Z.lor TIME_SET
         (Z.lor NTPTIME_IS
            (Z.lor LATLON_SET
               (Z.lor STATUS_SET (Z.lor MODE_SET VNED_SET))))) in
  let changed := negb (TS_EQ ts_tow (last_tow (driver_tsip session))) in
  let mask := if changed then Z.lor mask CLEAR_IS else mask in
  let session :=
    with_tsip (fun d => if changed then set_last_tow ts_tow d else d)
      session in
  let session :=
    with_tsip (set_sats_used (replicate (Z.to_nat (MAXCHANNELS E)) 0))
      session in
  if MAXCHANNELS E <? numSV then
    (0,
     GPSD_LOG LOG_WARN "TSIP x8f-20: MAXCHANNELS < numSV (%d)" [numSV]
       session)
  else
    let session :=
      with_tsip
        (fun d =>
           set_sats_used
             (x8f_20_sats buf length 0 (Z.to_nat numSV) (sats_used d)) d)
        session in
    let session :=
      GPSD_LOG LOG_PROG
        ("TSIP x8f-20: LFwEI: %d %d %d tow %lu %ld "
         ++ " %lu %lu %x fflags %x numSV %u ls %u week %d datum %u used:%s")
        [s1; s2; s3; tow; lat; lon; alt; u1; fflags; numSV; ls; week; datum]
        session in
    let session :=
      GPSD_LOG LOG_PROG
        ("TSIP x8f-20: LFwEI: time=%s lat=%.2f lon=%.2f "
         ++ "altHAE=%.2f mode=%d status=%d")
        [mode (newdata session); status (newdata session)] session in
    let session := GPSD_LOG LOG_IO "TSIP: flags:%s" [fflags] session in
    (mask, session).

(** ** The TSIPv1 dispatcher *)

(** The checksum loop of [tsipv1_parse]:
    [for (u1 = 0; u1 < (length + 3); u1++) chksum ^= buf[u1]], with
    [chksum] an [unsigned char]. *)
Fixpoint tsipv1_chksum_loop (buf : list Z) (u1 : Z) (n : nat) (chksum : Z)
    : Z :=
  match n with
  | O => chksum
  | S n' =>
      tsipv1_chksum_loop buf (u1 + 1) n'
        (to_uchar (Z.lxor chksum (getub buf u1)))
  end.

(** One [case] of the switch with a minimum length:
    [if (min > length) { bad_len = true; break; } mask = decode(...)].
    The result is mask, bad_len and session. *)
Definition v1_case (E : driver_env) (d : v1_decoder) (min length arg : Z)
    (session : gps_device_t) (buf : list Z) : Z * bool * gps_device_t :=
  if length <? min then (0, true, session)
  else
    let '(mask, session) := decode_v1 E d session buf arg in
    (mask, false, session).

(** [switch ((id << 8) | sub_id)] of [tsipv1_parse]. *)
Definition tsipv1_switch (E : driver_env) (session : gps_device_t)
    (id sub_id : Z) (buf : list Z) (len length : Z)
    : Z * bool * gps_device_t :=
  match Z.lor (Z.shiftl id 8) sub_id with
  | 0x9000 => v1_case E X90_00 11 length len session buf
  | 0x9001 => v1_case E X90_01 11 length len session buf
  | 0x9100 => v1_case E X91_00 17 length len session buf
  | 0x9101 => v1_case E X91_01 28 length len session buf
  | 0x9102 => v1_case E X91_02 8 length len session buf
  | 0x9103 => v1_case E X91_03 19 length len session buf
  | 0x9104 => v1_case E X91_04 11 length len session buf
  | 0x9105 => v1_case E X91_05 19 length len session buf
  | 0x9201 => v1_case E X92_01 3 length len session buf
  | 0x9300 => v1_case E X93_00 78 length len session buf
  | 0xa000 =>
      if negb (length =? 3) && negb (length =? 8) then (0, true, session)
      else
        let '(mask, session) := decode_v1 E XA0_00 session buf length in
        (mask, false, session)
  | 0xa100 => v1_case E XA1_00 32 length len session buf
  | 0xa102 => v1_case E XA1_02 17 length len session buf
  | 0xa111 => v1_case E XA1_11 52 length len session buf
  | 0xa200 => v1_case E XA2_00 25 length len session buf
  | 0xa300 => v1_case E XA3_00 18 length len session buf
  | 0xa311 => v1_case E XA3_11 29 length len session buf
  | 0xa321 => v1_case E XA3_21 5 length len session buf
  | 0xd000 => v1_case E XD0_00 3 length len session buf
  | 0xd001 => v1_case E XD0_01 4 length len session buf
  | 0xd040 =>
      (0, false, GPSD_LOG LOG_WARN "TSIPv1 xd0-40: raw GNSS data" [] session)
  | 0xd041 =>
      (0, false, GPSD_LOG LOG_WARN "TSIPv1 xd0-41: raw GNSS data" [] session)
  | _ =>
      (0, false,
       GPSD_LOG LOG_WARN "TSIPv1 x%02x-%02x: unknown packet id/su-id"
         [id; sub_id] session)
  end.

(** [tsipv1_parse(session, id, buf, len)]: mask and session. *)
Definition tsipv1_parse (E : driver_env) (session : gps_device_t) (id : Z)
    (buf : list Z) (len : Z) : Z * gps_device_t :=
  let mask := 0 in
  if len <? 4 then
    (mask,
     GPSD_LOG LOG_WARN "TSIPv1 0x%02x: runt, got len %u" [id; len] session)
  else
    let sub_id := getub buf 0 in
    let length := getbeu16 buf 1 in
    let mode := getub buf 3 in
    if negb (length + 3 =? len) then
      (mask,
       GPSD_LOG LOG_WARN
         ("TSIPv1 x%02x-%02x: Bad Length, "
          ++ "length got %d expected %u mode %u")
         [id; sub_id; len; length + 3; mode] session)
    else
      let chksum :=
        tsipv1_chksum_loop buf 0 (Z.to_nat (length + 3)) (to_uchar id) in
      if negb (chksum =? 0) then
        (mask,
         GPSD_LOG LOG_WARN
           ("TSIPv1 x%02x-%02x: Bad Checksum " ++ "length %d/%u mode %u")
           [id; sub_id; len; length + 3; mode] session)
      else
        let session :=
          GPSD_LOG LOG_DATA "TSIPv1 x%02x-%02x: length %d/%u mode %u"
            [id; sub_id; len; length + 3; mode] session in
        if negb (mode =? 2) then (mask, session)
        else
          let '(mask, bad_len, session) :=
            tsipv1_switch E session id sub_id buf len length in
          let '(mask, session) :=
            if (bad_len : bool) then
              (0,
               GPSD_LOG LOG_WARN "TSIPv1 0x%02x-%02x: runt, got length %u"
                 [id; sub_id; length] session)
            else (mask, session) in
          let session := tsipv1_query E session in
          (mask, session).

(** ** The dispatcher of the older protocol *)

(** One [case] with a minimum length:
    [if (min > len) { bad_len = min; break; } mask = decode(...)].
    The result is mask, bad_len and session. *)
Definition tsip_case (E : driver_env) (d : tsip_decoder) (min len now : Z)
    (session : gps_device_t) (buf : list Z) : Z * Z * gps_device_t :=
  if len <? min then (0, min, session)
  else
    let '(mask, _, session) := decode_tsip E d session buf len now in
    (mask, 0, session).

(** [decode_x1c(session, buf, len, &bad_len)] *)
Definition decode_x1c (E : driver_env) (session : gps_device_t)
    (buf : list Z) (len : Z) : Z * Z * gps_device_t :=
  let u1 := getub buf 0 in
  let '(mask, bad_len, session) :=
    match u1 with
    | 0x81 => tsip_case E X1C_81 10 len 0 session buf
    | 0x83 => tsip_case E X1C_83 13 len 0 session buf
    | _ =>
        (0, 0,
         GPSD_LOG LOG_WARN "TSIP x1c-%02x: Unhandled subpacket" [u1] session)
    end in
  let session := snd (tsip_write1 E session (Some [0x8e; 0x42]) 2) in
  (mask, bad_len, session).

(** [decode_x8f(session, buf, len, &bad_len, now)] *)
Definition decode_x8f (E : driver_env) (session : gps_device_t)
    (buf : list Z) (len now : Z) : Z * Z * gps_device_t :=
  let u1 := getub buf 0 in
  match u1 with
  | 0x15 => tsip_case E X8F_15 43 len now session buf
  | 0x20 =>
      if negb (len =? 56) && negb (len =? 64) then (0, 56, session)
      else
        let '(mask, session) := decode_x8f_20 E session buf len in
        (mask, 0, session)
  | 0x23 => tsip_case E X8F_23 29 len now session buf
  | 0x42 => tsip_case E X8F_42 19 len now session buf
  | 0xa5 => tsip_case E X8F_A5 5 len now session buf
  | 0xa6 => tsip_case E X8F_A6 3 len now session buf
  | 0xa7 => tsip_case E X8F_A7 10 len now session buf
  | 0xa9 => tsip_case E X8F_A9 11 len now session buf
  | 0xab =>
      if len <? 17 then (0, 17, session)
      else
        let session := with_tsip (set_last_41 now) session in
        let '(mask, _, session) :=
          decode_tsip E X8F_AB session buf len now in
        (mask, 0, session)
  | 0xac => tsip_case E X8F_AC 68 len now session buf
  | _ =>
      (0, 0,
       GPSD_LOG LOG_WARN "TSIP x8f-%02x: Unhandled TSIP superpacket" [u1]
         session)
  end.

(** The copy loop of [tsip_parse_input]: the payload between the packet
    id and DLE ETX, with doubled DLEs undone. *)
Fixpoint tsip_payload (outbuffer : list Z) (outbuflen : Z) (i : Z)
    (fuel : nat) (buf : list Z) : list Z :=
  match fuel with
  | O => buf
  | S fuel' =>
      if i <? outbuflen then
        if getub outbuffer i =? 0x10 then
          let i := i + 1 in
          if getub outbuffer i =? 0x03 then buf
          else
            tsip_payload outbuffer outbuflen (i + 1) fuel'
              (buf ++ [getub outbuffer i])
        else
          tsip_payload outbuffer outbuflen (i + 1) fuel'
            (buf ++ [getub outbuffer i])
      else buf
  end.

(** [switch (id)] of [tsip_parse_input], the TSIPv1 ids apart. *)
Definition tsip_switch (E : driver_env) (session : gps_device_t) (id : Z)
    (buf : list Z) (len now : Z) : Z * Z * gps_device_t :=
  match id with
  | 0x13 => tsip_case E X13 1 len now session buf
  | 0x1c => decode_x1c E session buf len
  | 0x41 =>
      if len <? 10 then (0, 10, session)
      else
        let session := with_tsip (set_last_41 now) session in
        let '(mask, _, session) := decode_tsip E X41 session buf len now in
        (mask, 0, session)
  | 0x42 => tsip_case E X42 16 len now session buf
  | 0x43 => tsip_case E X43 20 len now session buf
  | 0x45 => tsip_case E X45 10 len now session buf
  | 0x46 =>
      if len <? 2 then (0, 2, session)
      else
        let session := with_tsip (set_last_46 now) session in
        let '(mask, _, session) := decode_tsip E X46 session buf len now in
        (mask, 0, session)
  | 0x47 =>
      if len <? 1 then (0, 1, session)
      else decode_tsip E X47 session buf len now
  | 0x48 =>
      (0, 0, GPSD_LOG LOG_PROG "TSIP x48: GPS System Message: %s" buf session)
  | 0x4a => tsip_case E X4A 20 len now session buf
  | 0x4b => tsip_case E X4B 3 len now session buf
  | 0x4c => tsip_case E X4C 17 len now session buf
  | 0x54 => tsip_case E X54 12 len now session buf
  | 0x55 => tsip_case E X55 4 len now session buf
  | 0x56 => tsip_case E X56 20 len now session buf
  | 0x57 => tsip_case E X57 8 len now session buf
  | 0x5a => tsip_case E X5A 25 len now session buf
  | 0x5c => tsip_case E X5C 24 len now session buf
  | 0x5d =>
      if len <? 26 then (0, 26, session)
      else
        let '(mask, session) := decode_x5d E session buf in
        (mask, 0, session)
  | 0x6c =>
      if len <? 18 then (0, 18, session)
      else decode_x6c E (with_tsip (set_last_6d now) session) buf len
  | 0x6d =>
      if len <? 17 then (0, 17, session)
      else decode_x6d E (with_tsip (set_last_6d now) session) buf len
  | 0x82 => tsip_case E X82 1 len now session buf
  | 0x83 => tsip_case E X83 36 len now session buf
  | 0x84 => tsip_case E X84 36 len now session buf
  | 0x8f => decode_x8f E session buf len now
  | 0xbb =>
      if negb (len =? 40) && negb (len =? 43) then (0, 40, session)
      else
        let '(mask, _, session) := decode_tsip E XBB session buf len now in
        (mask, 0, session)
  | _ =>
      (0, 0,
       GPSD_LOG LOG_WARN "TSIP x%02x: Unhandled packet type" [id] session)
  end.

(** Ids handed to [tsipv1_parse]. *)
Definition is_tsipv1_id (id : Z) : bool :=
  match id with
  | 0x90 | 0x91 | 0x92 | 0x93 | 0xa0 | 0xa1 | 0xa2 | 0xa3 | 0xa4 | 0xa5
  | 0xd0 => true
  | _ => false
  end.

(** One periodic request at the end of [tsip_parse_input]:
    [(void)tsip_write1(session, req, len); session->driver.tsip.last = now]. *)
Definition tsip_request (E : driver_env) (req : list Z)
    (set_last : Z -> tsip_t -> tsip_t) (now : Z) (session : gps_device_t)
    : gps_device_t :=
  let session :=
    snd (tsip_write1 E session (Some req) (Z.of_nat (length req))) in
  with_tsip (set_last now) session.

(** The requests after the switch of [tsip_parse_input]. *)
Definition tsip_requests (E : driver_env) (now : Z) (session : gps_device_t)
    : gps_device_t :=
  let session :=
    if 5 <? Z.abs (now - last_41 (driver_tsip session)) then
      tsip_request E [0x21] set_last_41 now session
    else session in
  let session :=
    if 5 <? Z.abs (now - last_6d (driver_tsip session)) then
      tsip_request E [0x24] set_last_6d now session
    else session in
  let session :=
    if (superpkt (driver_tsip session) <? 1)
       && (60 <? Z.abs (now - last_48 (driver_tsip session))) then
      tsip_request E [0x28] set_last_48 now session
    else session in
  let session :=
    if 5 <? Z.abs (now - last_5c (driver_tsip session)) then
      tsip_request E [0x3c; 0x00] set_last_5c now session
    else session in
  let session :=
    if 5 <? Z.abs (now - last_46 (driver_tsip session)) then
      tsip_request E [0x26] set_last_46 now session
    else session in
  if (0 <? req_compact (driver_tsip session))
     && (5 <? Z.abs (now - req_compact (driver_tsip session))) then
    let session := with_tsip (set_req_compact 0) session in
    let session :=
      GPSD_LOG LOG_WARN
        ("TSIP x8f-23: No Compact Super Packet, " ++ "try LFwEI (0x8f-20)")
        [] session in
    snd (tsip_write1 E session (Some [0x8e; 0x20; 0x01]) 3)
  else session.

(** [tsip_parse_input(session)]: mask and session. *)
Definition tsip_parse_input (E : driver_env) (session : gps_device_t)
    : Z * gps_device_t :=
  match type (lexer session) with
  | OTHER_PACKET n =>
      (0, GPSD_LOG LOG_INF "TSIP: tsip_analyze packet type %d" [n] session)
  | TSIP_PACKET =>
      if (outbuflen (lexer session) <? 4)
         || negb (getub (outbuffer (lexer session)) 0 =? 0x10) then
        (0, GPSD_LOG LOG_INF "TSIP: tsip_analyze packet bad packet" [] session)
      else
        let now :=
          if negb (tv_sec (time (lastfix session)) =? 0) then
            tv_sec (time (lastfix session))
          else if negb (tv_sec (time (oldfix session)) =? 0) then
            tv_sec (time (oldfix session))
          else 0 in
        let buf :=
          tsip_payload (outbuffer (lexer session)) (outbuflen (lexer session))
            2 (Z.to_nat (outbuflen (lexer session))) [] in
        let len := Z.of_nat (length buf) in
        let id := getub (outbuffer (lexer session)) 1 in
        let session :=
          GPSD_LOG LOG_DATA "TSIP x%02x: length %d: %s" (id :: len :: buf)
            session in
        if is_tsipv1_id id then tsipv1_parse E session id buf len
        else
          let '(mask, bad_len, session) :=
            tsip_switch E session id buf len now in
          let session :=
            if negb (bad_len =? 0) then
              GPSD_LOG LOG_WARNING "TSIP x%02x: wrong len %d s/b >= %d "
                [id; len; bad_len] session
            else GPSD_LOG LOG_IO "TSIP x%02x: mask %s" [id; mask] session in
          (mask, tsip_requests E now session)
  end.

(** ** A concrete environment and session

    Used to run the definitions on concrete packets. The message buffer
    holds 1025 bytes, the arrays 184 entries, every write succeeds, the
    resolved time is the time of week itself, and the abstract decoders
    only log. *)

Definition write_all (_ : gps_device_t) (_ : list Z) (len : Z) : Z := len.

Definition resolv_tow (c : gps_context_t) (_ : Z) (tow : timespec_t)
    : timespec_t * gps_context_t := (tow, c).

Definition DTOTS_zero (_ : float) : timespec_t := mk_timespec 0 0.

Definition log_only_v1 (_ : v1_decoder) (session : gps_device_t)
    (_ : list Z) (_ : Z) : Z * gps_device_t :=
  (0, GPSD_LOG LOG_PROG "TSIPv1: decoded" [] session).

Definition log_only_tsip (_ : tsip_decoder) (session : gps_device_t)
    (_ : list Z) (_ _ : Z) : Z * Z * gps_device_t :=
  (0, 0, GPSD_LOG LOG_PROG "TSIP: decoded" [] session).

Definition env0 : driver_env :=
  mk_env 1025 184 write_all resolv_tow DTOTS_zero log_only_v1 log_only_tsip.

Definition sat0 : satellite_t := mk_satellite 0 0 0 0 false 0 0 0.

Definition fix0 : gps_fix_t := mk_fix (mk_timespec 0 0) 0 0 0 0 0 0 0 0.

Definition session0 : gps_device_t :=
  mk_device
    (mk_context false false 0 0 0 [])
    (mk_gpsdata 0 0 (replicate 184 sat0) (mk_timespec 0 0) (mk_dop 0 0 0 0))
    fix0 fix0 fix0
    (mk_tsip (mk_timespec 0 0) 0 (replicate 184 0) 0 0 0 0 0 0 0)
    (mk_lexer TSIP_PACKET [] 0)
    0 [] 0 [] false.

(** [session0] behind a read-only device. *)
Definition session_ro : gps_device_t :=
  with_context
    (fun c =>
       mk_context true (passive c) (leap_seconds c) (valid c) (gps_week c)
         (errout c))
    session0.

Local Close Scope string_scope.

(** ** Specification-side definitions *)

(** XOR of the bytes of a list. *)
Definition xor_list (l : list Z) : Z :=
  foldr (fun b acc => Z.lxor (to_uchar b) acc) 0 l.

(** The check [tsipv1_parse] makes on a frame as it is on the wire
    between DLE and DLE ETX: the first byte is the id, the rest is [buf]. *)
Definition tsipv1_frame_chksum (frame : list Z) : Z :=
  tsipv1_chksum_loop (drop 1 frame) 0 (length frame - 1) (to_uchar (getub frame 0)).


(** The context in which x8f-20 resolves its time: the leap seconds of
    the packet are stored first when they exceed 10. *)
Definition x8f_20_context (buf : list Z) (c : gps_context_t)
    : gps_context_t :=
  if 10 <? getub buf 29 then
    set_valid (Z.lor (valid c) LEAP_SECOND_VALID)
      (set_leap_seconds (getub buf 29) c)
  else c.

(** A 56-byte x8f-20 payload with the given time of week (ms), latitude
    and longitude (semicircles), satellite count, leap seconds and week;
    every other field is zero. *)
Definition x8f_20_packet (tow lat lon numSV ls week : Z) : list Z :=
  let buf := <[0%nat := 0x20]> (replicate 56 0) in
  let buf := putbe32 buf 8 tow in
  let buf := putbe32 buf 12 lat in
  let buf := putbe32 buf 16 lon in
  let buf := <[28%nat := numSV]> buf in
  let buf := <[29%nat := ls]> buf in
  putbe16 buf 30 week.

(** The count in force when the packet of index [i] is compared: the one
    just published when [i] is 0. *)
Definition x5d_published (session : gps_device_t) (i : Z) : Z :=
  if i =? 0 then last_chan_seen (driver_tsip session)
  else satellites_visible (gpsdata session).

(** A 26-byte x5d payload for channel index [i]; every other field is
    zero. *)
Definition x5d_packet (i : Z) : list Z := <[1%nat := i]> (replicate 26 0).

(** A burst of x5d packets decoded one after the other: the masks
    returned, in order, and the session left. *)
Fixpoint x5d_burst (E : driver_env) (session : gps_device_t)
    (bufs : list (list Z)) : list Z * gps_device_t :=
  match bufs with
  | [] => ([], session)
  | buf :: bufs =>
      let '(mask, session) := decode_x5d E session buf in
      let '(masks, session) := x5d_burst E session bufs in
      (mask :: masks, session)
  end.

(** [session0] after a burst whose last channel index was 3. *)
Definition session_after_burst : gps_device_t :=
  with_gpsdata (set_satellites_visible 4)
    (with_tsip (set_last_chan_seen 3) session0).

(** A session with log entries appended and nothing else changed. *)
Definition logged (l : list log_entry) (s : gps_device_t) : gps_device_t :=
  with_context (fun c => set_errout (errout c ++ l) c) s.

(** The four envelope conditions of a TSIPv1 packet: at least 4 bytes,
    declared length plus 3 equal to the length received, XOR of the id and
    of every byte received equal to zero, mode 2. *)
Definition envelope_ok (id : Z) (buf : list Z) (len : Z) : bool :=
  (4 <=? len) && (getbeu16 buf 1 + 3 =? len)
  && (xor_list (id :: take (Z.to_nat len) buf) =? 0)
  && (getub buf 3 =? 2).

(** A TSIPv1 response x90-00 with declared length 2: the envelope is
    sound, the payload too short for the decoder. *)
Definition v1_short_response : list Z := [0x00; 0x00; 0x02; 0x02; 0x90].

(** The minimum payload length the dispatcher of the older protocol
    states for an id as a constant; for the superpackets x1c and x8f it
    depends on the sub-code, the first payload byte. *)
Definition tsip_min_len (id : Z) (buf : list Z) : option Z :=
  match id with
  | 0x13 => Some 1
  | 0x1c =>
      match getub buf 0 with
      | 0x81 => Some 10
      | 0x83 => Some 13
      | _ => None
      end
  | 0x41 => Some 10
  | 0x42 => Some 16
  | 0x43 => Some 20
  | 0x45 => Some 10
  | 0x46 => Some 2
  | 0x47 => Some 1
  | 0x4a => Some 20
  | 0x4b => Some 3
  | 0x4c => Some 17
  | 0x54 => Some 12
  | 0x55 => Some 4
  | 0x56 => Some 20
  | 0x57 => Some 8
  | 0x5a => Some 25
  | 0x5c => Some 24
  | 0x5d => Some 26
  | 0x6c => Some 18
  | 0x6d => Some 17
  | 0x82 => Some 1
  | 0x83 => Some 36
  | 0x84 => Some 36
  | 0x8f =>
      match getub buf 0 with
      | 0x15 => Some 43
      | 0x20 => Some 56
      | 0x23 => Some 29
      | 0x42 => Some 19
      | 0xa5 => Some 5
      | 0xa6 => Some 3
      | 0xa7 => Some 10
      | 0xa9 => Some 11
      | 0xab => Some 17
      | 0xac => Some 68
      | _ => None
      end
  | 0xbb => Some 40
  | _ => None
  end.

(** The minimum declared length [tsipv1_parse] states for a pair
    (id, sub-id). *)
Definition tsipv1_min_len (id sub_id : Z) : option Z :=
  match Z.lor (Z.shiftl id 8) sub_id with
  | 0x9000 => Some 11
  | 0x9001 => Some 11
  | 0x9100 => Some 17
  | 0x9101 => Some 28
  | 0x9102 => Some 8
  | 0x9103 => Some 19
  | 0x9104 => Some 11
  | 0x9105 => Some 19
  | 0x9201 => Some 3
  | 0x9300 => Some 78
  | 0xa000 => Some 3
  | 0xa100 => Some 32
  | 0xa102 => Some 17
  | 0xa111 => Some 52
  | 0xa200 => Some 25
  | 0xa300 => Some 18
  | 0xa311 => Some 29
  | 0xa321 => Some 5
  | 0xd000 => Some 3
  | 0xd001 => Some 4
  | _ => None
  end.

(** A session holding, as the lexer leaves it, a packet x6c of 18 payload
    bytes: fix dimension 4, PDOP 1.0, the other DOPs 0.0, and a satellite
    count of 1 with no satellite byte after it. *)
Definition x6c_short_packet : list Z :=
  [0x10; 0x6c;
   0x04; 0x3f; 0x80; 0x00; 0x00; 0; 0; 0; 0; 0; 0; 0; 0; 0; 0; 0; 0; 0x01;
   0x10; 0x03].

Definition session_x6c : gps_device_t :=
  mk_device (context session0) (gpsdata session0) (newdata session0)
    (lastfix session0) (oldfix session0) (driver_tsip session0)
    (mk_lexer TSIP_PACKET x6c_short_packet 22)
    (queue session0) (msgbuf session0) (msgbuflen session0) (wire session0)
    (overrun session0).

(** ** Tactics *)

(** No frame was added to the wire. *)
Ltac no_frame :=
  exists []; split; [now rewrite app_nil_r | cbn; lia].

(** Case analysis on a switch over integer constants. *)
Ltac switch_cases :=
  repeat match goal with
         | |- context [match ?p with xI _ => _ | xO _ => _ | xH => _ end] =>
             destruct p
         end.


(** ** Further decoders of the older protocol

    These are reached through [decode_tsip] in the dispatcher; here they
    are embedded on their own. *)

(** [decode_x13(session, buf, len)]: packet received but not parsable. *)
Definition decode_x13 (E : driver_env) (session : gps_device_t)
    (buf : list Z) (len : Z) : Z * gps_device_t :=
  let mask := 0 in
  let u1 := getub buf 0 in
  let u2 := if 2 <=? len then getub buf 1 else 0 in
  let session :=
    GPSD_LOG LOG_WARN
      ("TSIP x13: Report Packet: request x%02x %02x "
       ++ "cannot be parsed")%string
      [u1; u2] session in
  let session :=
    if (u1 =? 0x8e) && (u2 =? 0x23) then
      let session :=
        GPSD_LOG LOG_WARN
          "TSIP x8e-23: not available, use LFwEI (0x8f-20)"%string []
          session in
      snd (tsip_write1 E session (Some [0x8e; 0x20; 0x01]) 3)
    else session in
  (mask, session).

(** [decode_x57(session, buf)]: information about the last computed
    fix. The time resolved is dropped, the context it leaves is kept. *)
Definition decode_x57 (E : driver_env) (session : gps_device_t)
    (buf : list Z) : Z * gps_device_t :=
  let mask := 0 in
  let u1 := getub buf 0 in
  let u2 := getub buf 1 in
  let ftow := getbef32 buf 2 in
  let week := getbeu16 buf 6 in
  let '(mask, session) :=
    if u1 =? 0x01 then
      let ts_tow := DTOTS E ftow in
      let session := snd (resolv E session week ts_tow) in
      let mask := Z.lor mask (Z.lor TIME_SET NTPTIME_IS) in
      let changed := negb (TS_EQ ts_tow (last_tow (driver_tsip session))) in
      (if changed then Z.lor mask CLEAR_IS else mask,
       with_tsip (fun d => if changed then set_last_tow ts_tow d else d)
         session)
    else (mask, session) in
  let session :=
    GPSD_LOG LOG_PROG "TSIP x57: Fix info: %02x %02x %u %f"%string
      [u1; u2; week] session in
  let session :=
    GPSD_LOG LOG_IO "TSIP: info:%s fmode:%s"%string [u1; u1] session in
  (mask, session).

(** [decode_x5c(session, buf)]: satellite tracking status, one channel,
    GPS only. The channel is the upper five bits of byte 1. *)
Definition decode_x5c (E : driver_env) (session : gps_device_t)
    (buf : list Z) : Z * gps_device_t :=
  let mask := 0 in
  let PRN := getub buf 0 in
  let u2 := getub buf 1 in
  let acq := getub buf 2 in
  let eflag := getub buf 3 in
  let snr := getbef32 buf 4 in
  let ftow := getbef32 buf 8 in
  let el := (getbef32 buf 12 * RAD_2_DEG)%float in
  let az := (getbef32 buf 16 * RAD_2_DEG)%float in
  let omf := getub buf 20 in
  let session := with_gpsdata (set_skyview_time (DTOTS E ftow)) session in
  let i := Z.shiftr u2 3 in
  let session :=
    with_gpsdata
      (fun g =>
         if i =? 0 then
           set_satellites_visible (last_chan_seen (driver_tsip session)) g
         else g)
      session in
  let session := with_tsip (set_last_chan_seen i) session in
  if i <? TSIP_CHANNELS then
    let old := default sat0 (skyview (gpsdata session) !! Z.to_nat i) in
    let sat :=
      mk_satellite PRN snr el az
        (Z.land 0x10 eflag =? 0x10)
        (fst (tsip_gnssid 0 PRN)) (snd (tsip_gnssid 0 PRN))
        (if Z.land 2 eflag =? 2 then SAT_HEALTH_OK
         else if eflag =? 1 then SAT_HEALTH_BAD
         else health old) in
    let session :=
      with_gpsdata
        (fun g => set_skyview (<[Z.to_nat i := sat]> (skyview g)) g)
        session in
    let dgps := (Z.land 0x10 eflag =? 0x10) && (eflag =? 51) in
    let session :=
      with_newdata (fun f => if dgps then set_status STATUS_DGPS f else f)
        session in
    let mask := if dgps then Z.lor mask STATUS_SET else mask in
    let session :=
      if PrimFloat.ltb 0 ftow then
        let '(t, session) :=
          resolv E session (gps_week (context session)) (DTOTS E ftow) in
        with_gpsdata (set_skyview_time t) session
      else session in
    let last := satellites_visible (gpsdata session) <=? i + 1 in
    let mask := if last then Z.lor mask SATELLITE_SET else mask in
    let session :=
      with_gpsdata
        (fun g => if last then set_satellites_visible (i + 1) g else g)
        session in
    let session :=
      GPSD_LOG LOG_PROG
        ("TSIP x5c: Satellite Tracking Status: Ch %2d PRN %3d "
         ++ "es %d Acq %d Eph %2d SNR %4.1f LMT %.04f El %.1f Az %.1f "
         ++ "omf %u hlth %u")%string
        [i; PRN; Z.land u2 7; acq; eflag; omf; health sat] session in
    let session :=
      GPSD_LOG LOG_IO "TSIP: acq:%s eflag:%s"%string [acq; eflag] session in
    (mask, session)
  else
    (mask,
     GPSD_LOG LOG_WARN
       "TSIP x5c: Satellite Tracking Status: Too many chans %d"%string [i]
       session).

(** [decode_x8f_23(session, buf)]: compact superpacket. *)
Definition decode_x8f_23 (E : driver_env) (session : gps_device_t)
    (buf : list Z) : Z * gps_device_t :=
  let mask := 0 in
  let tow := getbeu32 buf 1 in
  let week := getbeu16 buf 5 in
  let u1 := getub buf 7 in
  let u2 := getub buf 8 in
  let lat := getbes32 buf 9 in
  let lon := getbeu32 buf 13 in
  let alt := getbes32 buf 17 in
  let s2 := getbes16 buf 21 in
  let s3 := getbes16 buf 23 in
  let s4 := getbes16 buf 25 in
  let session :=
    GPSD_LOG LOG_PROG
      ("TSIP x8f-23: CSP: tow %lu week %u %u %u %ld %lu %ld "
       ++ " %d %d %d")%string
      [tow; week; u1; u2; lat; lon; alt; s2; s3; s4] session in
  let session :=
    with_context
      (fun c =>
         if 10 <? u1 then
           let c := set_leap_seconds u1 c in
           set_valid (Z.lor (valid c) LEAP_SECOND_VALID) c
         else c)
      session in
  let ts_tow := MSTOTS tow in
  let '(t, session) := resolv E session week ts_tow in
  let session := with_newdata (set_time t) session in
  let session := with_newdata (set_status STATUS_UNK) session in
  let session := with_newdata (set_mode MODE_NO_FIX) session in
  let session :=
    with_newdata
      (fun f =>
         if Z.land u2 0x01 =? 0 then
           let f := set_status STATUS_GPS f in
           let f :=
             if negb (Z.land u2 0x02 =? 0) then set_status STATUS_DGPS f
             else f in
           if negb (Z.land u2 0x04 =? 0) then set_mode MODE_2D f
           else set_mode MODE_3D f
         else f)
      session in
  let session :=
    with_newdata (set_latitude (double_of_Z lat * SEMI_2_DEG)%float)
      session in
  let session :=
    with_newdata (set_longitude (double_of_Z lon * SEMI_2_DEG)%float)
      session in
  let session :=
    with_newdata
      (fun f =>
         if PrimFloat.ltb 180.0 (longitude f) then
           set_longitude (longitude f - 360.0)%float f
         else f)
      session in
  let session :=
    with_newdata (set_altHAE (double_of_Z alt * 1e-3)%float) session in
  let mask := Z.lor mask ALTITUDE_SET in
  let d5 := if negb (Z.land u2 0x20 =? 0) then 0.02%float else 0.005%float in
  let d1 := (double_of_Z s2 * d5)%float in
  let d2 := (double_of_Z s3 * d5)%float in
  let d3 := (double_of_Z s4 * d5)%float in
  let session := with_newdata (set_velN d2) session in
  let session := with_newdata (set_velE d1) session in
  let session := with_newdata (set_velD (- d3)%float) session in
  let mask :=
    Z.lor mask
      (Z.lor TIME_SET
         (Z.lor NTPTIME_IS
            (Z.lor LATLON_SET
               (Z.lor STATUS_SET (Z.lor MODE_SET VNED_SET))))) in
  let changed := negb (TS_EQ ts_tow (last_tow (driver_tsip session))) in
  let mask := if changed then Z.lor mask CLEAR_IS else mask in
  let session :=
    with_tsip (fun d => if changed then set_last_tow ts_tow d else d)
      session in
  let session := with_tsip (set_req_compact 0) session in
  let session :=
    GPSD_LOG LOG_PROG
      ("TSIP x8f-23: SP-CSP: time %s lat %.2f lon %.2f "
       ++ "altHAE %.2f mode %d status %d")%string
      [mode (newdata session); status (newdata session)] session in
  (mask, session).

(** A session with another lexer buffer. *)
Definition set_lexer (lx : lexer_t) (s : gps_device_t) : gps_device_t :=
  mk_device (context s) (gpsdata s) (newdata s) (lastfix s) (oldfix s)
    (driver_tsip s) lx (queue s) (msgbuf s) (msgbuflen s) (wire s)
    (overrun s).

(** Number of DLE bytes among the first [n] bytes of a payload. *)
Definition count_dle (buf : list Z) (n : nat) : Z :=
  Z.of_nat (length (filter (fun b => to_uchar b = 0x10) (take n buf))).

(** DLE stuffing of a list of bytes: every DLE is doubled. *)
Definition stuff (body : list Z) : list Z :=
  flat_map
    (fun c => if to_uchar c =? 0x10 then [0x10; 0x10] else [to_uchar c])
    body.

(** A list of bytes. *)
Definition bytes (l : list Z) : Prop := Forall (fun c => 0 <= c < 256) l.

(** The effect of the periodic requests of [tsip_parse_input] on
    [session->driver.tsip]: the time stamps of the kinds that are due are
    set to [now]. *)
Definition tsip_requests_tsip (now : Z) (d : tsip_t) : tsip_t :=
  let d := if 5 <? Z.abs (now - last_41 d) then set_last_41 now d else d in
  let d := if 5 <? Z.abs (now - last_6d d) then set_last_6d now d else d in
  let d :=
    if (superpkt d <? 1) && (60 <? Z.abs (now - last_48 d)) then
      set_last_48 now d
    else d in
  let d := if 5 <? Z.abs (now - last_5c d) then set_last_5c now d else d in
  let d := if 5 <? Z.abs (now - last_46 d) then set_last_46 now d else d in
  if (0 <? req_compact d) && (5 <? Z.abs (now - req_compact d)) then
    set_req_compact 0 d
  else d.

(** No periodic request is due at [now]. *)
Definition nothing_due (now : Z) (d : tsip_t) : Prop :=
  Z.abs (now - last_41 d) <= 5 /\
  Z.abs (now - last_6d d) <= 5 /\
  (superpkt d < 1 -> Z.abs (now - last_48 d) <= 60) /\
  Z.abs (now - last_5c d) <= 5 /\
  Z.abs (now - last_46 d) <= 5 /\
  (0 < req_compact d -> Z.abs (now - req_compact d) <= 5).

(** A session whose lexer holds packet x41 with three payload bytes. *)
Definition session_x41_short : gps_device_t :=
  set_lexer (mk_lexer TSIP_PACKET [0x10; 0x41; 1; 2; 3; 0x10; 0x03] 7)
    session0.

(** The SV types [tsipv1_svtype] knows. *)
Definition v1_sv_types : list Z :=
  [1; 2; 3; 5; 6; 9; 13; 14; 15; 17; 18; 19; 20; 22; 23; 24; 26].

(** Case analysis on the conditions of the code. *)
Ltac innermost_if :=
  match goal with
  | |- context [if ?c then _ else _] =>
      lazymatch c with
      | context [if _ then _ else _] => fail
      | _ => destruct c eqn:?
      end
  end.

Ltac ltb_hyps :=
  repeat match goal with
         | H : (_ <? _) = true |- _ => apply Z.ltb_lt in H
         | H : (_ <? _) = false |- _ => apply Z.ltb_ge in H
         | H : (_ && _) = true |- _ => apply andb_true_iff in H; destruct H
         | H : (_ && _) = false |- _ => apply andb_false_iff in H
         end.

Ltac split_ifs :=
  repeat match goal with
         | |- context [if ?c then _ else _] => destruct c eqn:?
         end.
(** * Properties *)

(** ** Bytes *)

Lemma to_uchar_land (x : Z) : to_uchar x = Z.land x 255.
Proof.
  unfold to_uchar. change 255 with (Z.ones 8).
  now rewrite Z.land_ones by lia.
Qed.

Lemma to_uchar_range (x : Z) : 0 <= to_uchar x < 256.
Proof. unfold to_uchar. apply Z.mod_pos_bound. lia. Qed.

Lemma to_uchar_small (x : Z) : 0 <= x < 256 -> to_uchar x = x.
Proof. intros H. unfold to_uchar. now apply Z.mod_small. Qed.

Lemma to_uchar_lxor (a b : Z) :
  to_uchar (Z.lxor a b) = Z.lxor (to_uchar a) (to_uchar b).
Proof.
  rewrite !to_uchar_land. apply Z.bits_inj'. intros n _.
  rewrite Z.lxor_spec, !Z.land_spec, Z.lxor_spec.
  now destruct (Z.testbit a n), (Z.testbit b n), (Z.testbit 255 n).
Qed.

Lemma lxor_byte (a b : Z) :
  0 <= a < 256 -> 0 <= b < 256 -> 0 <= Z.lxor a b < 256.
Proof.
  intros Ha Hb.
  rewrite <- (to_uchar_small a Ha), <- (to_uchar_small b Hb), <- to_uchar_lxor.
  apply to_uchar_range.
Qed.

Lemma getub_range (buf : list Z) (off : Z) : 0 <= getub buf off < 256.
Proof. apply to_uchar_range. Qed.

Lemma getub_lookup (buf : list Z) (off : Z) (x : Z) :
  buf !! Z.to_nat off = Some x -> getub buf off = to_uchar x.
Proof. intros H. unfold getub. now rewrite H. Qed.

Lemma getub_beyond (buf : list Z) (off : Z) :
  buf !! Z.to_nat off = None -> getub buf off = 0.
Proof. intros H. unfold getub. now rewrite H. Qed.

Lemma xor_list_range (l : list Z) : 0 <= xor_list l < 256.
Proof.
  induction l as [|x l IH]; simpl; [lia|].
  apply lxor_byte; [apply to_uchar_range | exact IH].
Qed.

Lemma xor_list_app (l k : list Z) :
  xor_list (l ++ k) = Z.lxor (xor_list l) (xor_list k).
Proof.
  induction l as [|x l IH]; simpl; [reflexivity|].
  now rewrite IH, Z.lxor_assoc.
Qed.

(** ** The two checksum loops compute the XOR of the bytes they visit *)

Lemma take_S_drop (buf : list Z) (u n : nat) :
  xor_list (take (S n) (drop u buf)) =
  Z.lxor (getub buf (Z.of_nat u)) (xor_list (take n (drop (S u) buf))).
Proof.
  destruct (buf !! u) as [x|] eqn:Hx.
  - rewrite (drop_S _ _ _ Hx). simpl.
    rewrite (getub_lookup buf (Z.of_nat u) x) by now rewrite Nat2Z.id.
    reflexivity.
  - rewrite getub_beyond by now rewrite Nat2Z.id.
    apply lookup_ge_None in Hx.
    rewrite !drop_ge by lia. now rewrite !take_nil.
Qed.

Lemma tsipv1_chksum_loop_xor (buf : list Z) (n : nat) :
  forall (u : nat) (c : Z), 0 <= c < 256 ->
  tsipv1_chksum_loop buf (Z.of_nat u) n c =
  Z.lxor c (xor_list (take n (drop u buf))).
Proof.
  induction n as [|n IH]; intros u c Hc.
  - cbn. now rewrite Z.lxor_0_r.
  - cbn [tsipv1_chksum_loop].
    replace (Z.of_nat u + 1) with (Z.of_nat (S u)) by lia.
    rewrite IH by apply to_uchar_range.
    rewrite take_S_drop.
    rewrite to_uchar_small by (apply lxor_byte; [exact Hc | apply getub_range]).
    now rewrite Z.lxor_assoc.
Qed.

Lemma tsip1_checksum_loop_xor (buf : list Z) (n : nat) :
  forall (u : nat) (c : Z),
  tsip1_checksum_loop buf (Z.of_nat u) n c =
  Z.lxor c (xor_list (take n (drop u buf))).
Proof.
  induction n as [|n IH]; intros u c.
  - cbn. now rewrite Z.lxor_0_r.
  - cbn [tsip1_checksum_loop].
    replace (Z.of_nat u + 1) with (Z.of_nat (S u)) by lia.
    rewrite IH, take_S_drop. now rewrite Z.lxor_assoc.
Qed.

Lemma tsip1_checksum_xor (buf : list Z) (len : Z) :
  tsip1_checksum buf len = xor_list (take (Z.to_nat len) buf).
Proof.
  unfold tsip1_checksum.
  change 0 with (Z.of_nat 0) at 1.
  rewrite tsip1_checksum_loop_xor.
  now rewrite drop_0, Z.lxor_0_l.
Qed.

Lemma tsipv1_frame_chksum_xor (frame : list Z) :
  tsipv1_frame_chksum frame = xor_list frame.
Proof.
  unfold tsipv1_frame_chksum.
  change 0 with (Z.of_nat 0) at 1.
  rewrite tsipv1_chksum_loop_xor by apply to_uchar_range.
  rewrite drop_0.
  destruct frame as [|x frame].
  - reflexivity.
  - cbn [length drop]. rewrite drop_0.
    replace (S (length frame) - 1)%nat with (length frame) by lia.
    rewrite firstn_all.
    rewrite (getub_lookup (x :: frame) 0 x) by reflexivity.
    simpl. now rewrite to_uchar_small by apply to_uchar_range.
Qed.

(** ** Checksum of a frame followed by its checksum byte *)

Lemma tsipv1_frame_chksum_app (body : list Z) (c : Z) :
  tsipv1_frame_chksum (body ++ [c]) = Z.lxor (xor_list body) (to_uchar c).
Proof.
  rewrite tsipv1_frame_chksum_xor, xor_list_app. simpl.
  now rewrite Z.lxor_0_r.
Qed.

Lemma checksum_verifies (body : list Z) :
  tsipv1_frame_chksum
    (body ++ [tsip1_checksum body (Z.of_nat (length body))]) = 0.
Proof.
  rewrite tsipv1_frame_chksum_app, tsip1_checksum_xor, Nat2Z.id, firstn_all.
  rewrite to_uchar_small by apply xor_list_range.
  apply Z.lxor_nilpotent.
Qed.

Lemma checksum_flipped (body : list Z) (c : Z) :
  0 <= c < 256 ->
  c <> tsip1_checksum body (Z.of_nat (length body)) ->
  tsipv1_frame_chksum (body ++ [c]) <> 0.
Proof.
  intros Hc Hne H.
  rewrite tsipv1_frame_chksum_app, to_uchar_small in H by exact Hc.
  apply Z.lxor_eq in H. apply Hne.
  now rewrite tsip1_checksum_xor, Nat2Z.id, firstn_all.
Qed.

(** The frames of the scheduler, case by case. *)
Lemma tsipv1_query_select_cases (passive : bool) (item : Z)
    (snd_buf : list Z) (len : Z) :
  tsipv1_query_select passive item = Some (snd_buf, len) ->
  exists body : list Z,
    Z.of_nat (length body) = len - 1 /\
    take (Z.to_nat len) snd_buf =
      body ++ [tsip1_checksum body (Z.of_nat (length body))].
Proof.
  intros H. unfold tsipv1_query_select in H.
  destruct item as [|p|p]; try discriminate H.
  do 4 (try destruct p as [p|p|]; try discriminate H);
    try destruct passive;
    injection H as <- <-;
    match goal with
    | |- context [take ?n ?b] =>
        let f := eval vm_compute in (take n b) in
        exists (removelast f)
    end;
    split; vm_compute; reflexivity.
Qed.

(** C8. Every frame the TSIPv1 query scheduler builds ends in the
    [tsip1_checksum] of the bytes before it; the check of the dispatcher,
    the XOR of the id with every following byte up to and including the
    checksum byte, gives zero on it, and gives a non-zero value once the
    trailing checksum byte is replaced by any other byte. *)
Theorem tsipv1_query_frame_checksum (passive : bool) (item : Z)
    (snd_buf : list Z) (len : Z) :
  tsipv1_query_select passive item = Some (snd_buf, len) ->
  let frame := take (Z.to_nat len) snd_buf in
  getub frame (len - 1) = tsip1_checksum frame (len - 1) /\
  tsipv1_frame_chksum frame = 0 /\
  forall c : Z, 0 <= c < 256 -> c <> getub frame (len - 1) ->
    tsipv1_frame_chksum (<[Z.to_nat (len - 1) := c]> frame) <> 0.
Proof.
  intros H frame.
  destruct (tsipv1_query_select_cases _ _ _ _ H) as (body & Hlen & Hframe).
  fold frame in Hframe.
  assert (Hlast : getub frame (len - 1) =
                  tsip1_checksum body (Z.of_nat (length body))).
  { rewrite Hframe, <- Hlen.
    rewrite (getub_lookup _ _ (tsip1_checksum body (Z.of_nat (length body)))).
    - rewrite tsip1_checksum_xor. apply to_uchar_small, xor_list_range.
    - rewrite Nat2Z.id. rewrite lookup_app_r by lia.
      now rewrite Nat.sub_diag. }
  split; [|split].
  - rewrite Hlast, Hframe, <- Hlen, !tsip1_checksum_xor, !Nat2Z.id.
    now rewrite take_app_length, firstn_all.
  - rewrite Hframe. apply checksum_verifies.
  - intros c Hc Hne. rewrite Hframe, <- Hlen, Nat2Z.id.
    rewrite insert_app_r_alt by lia. rewrite Nat.sub_diag. simpl.
    apply checksum_flipped; [exact Hc | now rewrite <- Hlast].
Qed.

Lemma tsipv1_query_frame_checksum_witness :
  let frame := [0x90; 0x00; 0x00; 0x02; 0x00; 0x92] in
  getub frame 5 = tsip1_checksum frame 5 /\
  tsipv1_frame_chksum frame = 0 /\
  forall c : Z, 0 <= c < 256 -> c <> getub frame 5 ->
    tsipv1_frame_chksum (<[5%nat := c]> frame) <> 0.
Proof.
  exact (tsipv1_query_frame_checksum false 1 (tsipv1_query_frame 0x90 0x00) 6
           eq_refl).
Defined.

(** ** The outbound frame writer *)

Lemma tsip_write1_readonly (E : driver_env) (session : gps_device_t)
    (buf : option (list Z)) (len : Z) :
  readonly (context session) = true ->
  tsip_write1 E session buf len = (0, session).
Proof. intros H. unfold tsip_write1. now rewrite H. Qed.

Lemma tsip_write1_rejects (E : driver_env) (session : gps_device_t)
    (buf : option (list Z)) (len : Z) :
  readonly (context session) = false ->
  buf = None \/ len = 0 \/ sizeof_msgbuf E / 2 < len ->
  tsip_write1 E session buf len = (-1, session).
Proof.
  intros Hro H. unfold tsip_write1. rewrite Hro.
  destruct buf as [b|]; [|reflexivity].
  destruct H as [H | [-> | H]]; [discriminate H | reflexivity |].
  apply Z.ltb_lt in H. rewrite H. now rewrite orb_true_r.
Qed.

(** X29. The guards of [tsip_write1]. On a read-only session it
    returns 0 and leaves the session as it was, whatever the payload: the
    read-only test comes first. On a session that is not read-only, a
    NULL payload, a length of zero or a length above half the size of the
    message buffer gives -1, again with the session as it was: nothing is
    stored in the message buffer and nothing is handed to the device. *)
Theorem tsip_write1_guards (E : driver_env) (session : gps_device_t)
    (buf : option (list Z)) (len : Z) :
  (readonly (context session) = true ->
   tsip_write1 E session buf len = (0, session)) /\
  (readonly (context session) = false ->
   buf = None \/ len = 0 \/ sizeof_msgbuf E / 2 < len ->
   tsip_write1 E session buf len = (-1, session)).
Proof.
  split; [apply tsip_write1_readonly | apply tsip_write1_rejects].
Qed.

Lemma tsip_write1_guards_witness :
  tsip_write1 env0 session_ro (Some [0x21]) 1 = (0, session_ro) /\
  tsip_write1 env0 session0 (Some (replicate 600 0x21)) 600 = (-1, session0).
Proof.
  split.
  - apply (proj1 (tsip_write1_guards env0 session_ro (Some [0x21]) 1)).
    reflexivity.
  - apply (proj2 (tsip_write1_guards env0 session0
                    (Some (replicate 600 0x21)) 600)).
    + reflexivity.
    + right; right. vm_compute. reflexivity.
Defined.

(** C10 at a payload of 512 DLE bytes on a session that is not
    read-only, with a message buffer of 1025 bytes. The payload is not
    longer than half the buffer, so it passes the guard that is there
    because the frame "could over run"; every byte is doubled, and the
    frame of 1027 bytes is stored through the end of the buffer and two
    bytes past it. The call reports success and hands the 1027 bytes to
    the device. The guard allows for the doubling and leaves out the
    three bytes of DLE, DLE and ETX around the payload. *)
Theorem tsip_write1_oversize_frame :
  let buf := replicate 512 0x10 in
  let r := tsip_write1 env0 session0 (Some buf) 512 in
  readonly (context session0) = false /\
  sizeof_msgbuf env0 = 1025 /\
  (512 =? 0) || (sizeof_msgbuf env0 / 2 <? 512) = false /\
  fst r = 0 /\
  msgbuflen (snd r) = 1027 /\
  wire (snd r) = [0x10 :: replicate 1024 0x10 ++ [0x10; 0x03]] /\
  overrun session0 = false /\
  overrun (snd r) = true.
Proof.
  repeat split; vm_compute; reflexivity.
Qed.

(** ** The satellite type remaps *)

(** C4. The remap of the older protocol sends (type 0, PRN 1) to GPS
    svid 1, PRN 44 to SBAS svid 131 and PRN 70 to GLONASS svid 6; the
    TSIPv1 remap sends SV type 13 to BeiDou. The two are different
    functions: on type 13 the older one answers with its default, id 0,
    for every PRN. *)
Theorem gnssid_remaps :
  tsip_gnssid 0 1 = (GNSSID_GPS, 1) /\
  tsip_gnssid 0 44 = (GNSSID_SBAS, 131) /\
  tsip_gnssid 0 70 = (GNSSID_GLO, 6) /\
  fst (tsipv1_svtype 13) = GNSSID_BD /\
  forall prn : Z, fst (tsip_gnssid 13 prn) <> fst (tsipv1_svtype 13).
Proof.
  repeat split; try reflexivity.
  intros prn. cbn. unfold GNSSID_BD. lia.
Qed.

(** ** Superpacket x8f-20 *)

Lemma resolv_fst (E : driver_env) (s : gps_device_t) (w : Z)
    (t : timespec_t) :
  fst (resolv E s w t) = fst (gpsd_gpstime_resolv E (context s) w t).
Proof.
  unfold resolv. now destruct (gpsd_gpstime_resolv E (context s) w t).
Qed.

Lemma resolv_snd (E : driver_env) (s : gps_device_t) (w : Z)
    (t : timespec_t) :
  snd (resolv E s w t) =
  with_context (fun _ => snd (gpsd_gpstime_resolv E (context s) w t)) s.
Proof.
  unfold resolv. now destruct (gpsd_gpstime_resolv E (context s) w t).
Qed.

Lemma resolv_pair (E : driver_env) (s : gps_device_t) (w : Z)
    (t : timespec_t) :
  resolv E s w t =
  (fst (gpsd_gpstime_resolv E (context s) w t),
   with_context (fun _ => snd (gpsd_gpstime_resolv E (context s) w t)) s).
Proof.
  rewrite <- resolv_fst, <- resolv_snd. now destruct (resolv E s w t).
Qed.

Lemma decode_x8f_20_time (E : driver_env) (session : gps_device_t)
    (buf : list Z) (length : Z) :
  time (newdata (snd (decode_x8f_20 E session buf length))) =
  fst (gpsd_gpstime_resolv E (x8f_20_context buf (context session))
         (if 10 <? getub buf 29
          then x8f_20_week (getub buf 29) (getbeu16 buf 30)
          else getbeu16 buf 30)
         (MSTOTS (getbeu32 buf 8))).
Proof.
  unfold decode_x8f_20. cbv zeta. rewrite resolv_pair.
  destruct (MAXCHANNELS E <? getub buf 28); cbn;
    unfold x8f_20_context; now destruct (10 <? getub buf 29).
Qed.

(** C5. The week x8f-20 hands to the time resolver: with more than 17
    leap seconds in the packet and a week below 1930 it is the week plus
    1024, and plus 1024 again if that is still below 1930; with 17 leap
    seconds or fewer, or a week of 1930 or more, it is the week of the
    packet. *)
Theorem x8f_20_week_rollover (E : driver_env) (session : gps_device_t)
    (buf : list Z) (length : Z) :
  let ls := getub buf 29 in
  let week := getbeu16 buf 30 in
  exists week' : Z,
    time (newdata (snd (decode_x8f_20 E session buf length))) =
      fst (gpsd_gpstime_resolv E (x8f_20_context buf (context session))
             week' (MSTOTS (getbeu32 buf 8))) /\
    (17 < ls -> week < 1930 ->
     week' = if week + 1024 <? 1930 then week + 1024 + 1024
             else week + 1024) /\
    (ls <= 17 \/ 1930 <= week -> week' = week).
Proof.
  intros ls week. eexists. split; [apply decode_x8f_20_time|].
  fold ls week. unfold x8f_20_week. split.
  - intros Hls Hw.
    replace (10 <? ls) with true by (symmetry; apply Z.ltb_lt; lia).
    replace (17 <? ls) with true by (symmetry; apply Z.ltb_lt; lia).
    replace (week <? 1930) with true by (symmetry; apply Z.ltb_lt; lia).
    reflexivity.
  - intros H. destruct (10 <? ls); [|reflexivity].
    destruct (17 <? ls) eqn:Hls; [|reflexivity].
    destruct (week <? 1930) eqn:Hw; [|reflexivity].
    apply Z.ltb_lt in Hls, Hw. lia.
Qed.

Lemma x8f_20_week_rollover_witness :
  exists week' : Z,
    time (newdata (snd (decode_x8f_20 env0 session0
                          (x8f_20_packet 1000 0 0 4 18 100) 56))) =
      fst (gpsd_gpstime_resolv env0
             (x8f_20_context (x8f_20_packet 1000 0 0 4 18 100)
                (context session0))
             week' (MSTOTS 1000)) /\
    week' = 2148.
Proof.
  destruct (x8f_20_week_rollover env0 session0
              (x8f_20_packet 1000 0 0 4 18 100) 56) as (w & Ht & Hlt & _).
  exists w. split; [exact Ht|].
  apply Hlt; vm_compute; reflexivity.
Defined.

Lemma TS_EQ_true (a b : timespec_t) : TS_EQ a b = true <-> a = b.
Proof.
  unfold TS_EQ. rewrite andb_true_iff, !Z.eqb_eq.
  destruct a, b; cbn. split; [intros [-> ->]; reflexivity|].
  intros H; injection H; auto.
Qed.

Lemma TS_EQ_refl (a : timespec_t) : TS_EQ a a = true.
Proof. now apply TS_EQ_true. Qed.

(** The mask x8f-20 returns when the satellite count fits, and the time
    of week it leaves in the session. *)
Lemma decode_x8f_20_mask (E : driver_env) (session : gps_device_t)
    (buf : list Z) (length : Z) :
  fst (decode_x8f_20 E session buf length) =
  if MAXCHANNELS E <? getub buf 28 then 0
  else
    let mask :=
      Z.lor (Z.lor 0 ALTITUDE_SET)
        (Z.lor TIME_SET
           (Z.lor NTPTIME_IS
              (Z.lor LATLON_SET
                 (Z.lor STATUS_SET (Z.lor MODE_SET VNED_SET))))) in
    if negb (TS_EQ (MSTOTS (getbeu32 buf 8)) (last_tow (driver_tsip session)))
    then Z.lor mask CLEAR_IS
    else mask.
Proof.
  unfold decode_x8f_20. cbv zeta. rewrite resolv_pair.
  now destruct (MAXCHANNELS E <? getub buf 28).
Qed.

Lemma decode_x8f_20_last_tow (E : driver_env) (session : gps_device_t)
    (buf : list Z) (length : Z) :
  last_tow (driver_tsip (snd (decode_x8f_20 E session buf length))) =
  MSTOTS (getbeu32 buf 8).
Proof.
  unfold decode_x8f_20. cbv zeta. rewrite resolv_pair.
  destruct (MAXCHANNELS E <? getub buf 28); cbn;
    destruct (TS_EQ (MSTOTS (getbeu32 buf 8)) (last_tow (driver_tsip session)))
      eqn:Heq; cbn; try reflexivity;
    symmetry; now apply TS_EQ_true.
Qed.

(** C6, as the code has it. When the satellite count of an x8f-20 packet
    does not exceed MAXCHANNELS, CLEAR_IS is in the returned mask exactly
    when the time of week of the packet differs from the stored one. When
    the count exceeds MAXCHANNELS the returned mask is empty. In both
    cases the time of week of the packet is the stored one afterwards, so
    a following x8f-20 packet with the same time of week returns no
    CLEAR_IS. *)
Theorem x8f_20_clear_is (E : driver_env) (session : gps_device_t)
    (buf : list Z) (length : Z) :
  let tow := MSTOTS (getbeu32 buf 8) in
  let numSV := getub buf 28 in
  let r := decode_x8f_20 E session buf length in
  (numSV <= MAXCHANNELS E ->
   (mask_has (fst r) CLEAR_IS = true <->
    tow <> last_tow (driver_tsip session))) /\
  (MAXCHANNELS E < numSV -> fst r = 0) /\
  last_tow (driver_tsip (snd r)) = tow /\
  (forall (buf2 : list Z) (length2 : Z),
     MSTOTS (getbeu32 buf2 8) = tow ->
     mask_has (fst (decode_x8f_20 E (snd r) buf2 length2)) CLEAR_IS = false).
Proof.
  intros tow numSV r. subst r. split; [|split; [|split]].
  - intros Hm. rewrite decode_x8f_20_mask.
    replace (MAXCHANNELS E <? getub buf 28) with false
      by (symmetry; apply Z.ltb_ge; exact Hm).
    fold tow. cbv zeta.
    destruct (TS_EQ tow (last_tow (driver_tsip session))) eqn:Heq.
    + apply TS_EQ_true in Heq. cbn [negb]. split.
      * intros H. vm_compute in H. discriminate H.
      * intros Hne. contradiction.
    + split; [|reflexivity].
      intros _ Habs. apply TS_EQ_true in Habs. congruence.
  - intros Hm. rewrite decode_x8f_20_mask.
    now replace (MAXCHANNELS E <? getub buf 28) with true
      by (symmetry; apply Z.ltb_lt; exact Hm).
  - apply decode_x8f_20_last_tow.
  - intros buf2 length2 Htow.
    rewrite decode_x8f_20_mask, decode_x8f_20_last_tow, Htow.
    fold tow. rewrite TS_EQ_refl.
    now destruct (MAXCHANNELS E <? getub buf2 28).
Qed.

Lemma x8f_20_clear_is_witness :
  mask_has (fst (decode_x8f_20 env0 session0
                   (x8f_20_packet 1000 0 0 4 18 100) 56)) CLEAR_IS = true.
Proof.
  apply (proj1 (x8f_20_clear_is env0 session0
                  (x8f_20_packet 1000 0 0 4 18 100) 56)).
  - vm_compute. discriminate.
  - vm_compute. discriminate.
Defined.

(** C6 as stated fails on a packet whose satellite count exceeds
    MAXCHANNELS (184 in gps.h): the time of week changes, the stored one
    is replaced, and the returned mask is empty. *)
Lemma x8f_20_clear_is_dropped :
  let buf := x8f_20_packet 1000 0 0 255 18 100 in
  let r := decode_x8f_20 env0 session0 buf 56 in
  MSTOTS (getbeu32 buf 8) <> last_tow (driver_tsip session0) /\
  last_tow (driver_tsip (snd r)) = MSTOTS 1000 /\
  mask_has (fst r) CLEAR_IS = false.
Proof.
  repeat split; vm_compute; discriminate.
Qed.

(** ** Packet x5d: the skyview accumulator *)

Lemma decode_x5d_low (E : driver_env) (session : gps_device_t)
    (buf : list Z) :
  getub buf 1 < TSIP_CHANNELS ->
  let i := getub buf 1 in
  let r := decode_x5d E session buf in
  fst r = (if x5d_published session i <=? i + 1 then SATELLITE_SET else 0) /\
  satellites_visible (gpsdata (snd r)) =
    (if x5d_published session i <=? i + 1 then i + 1
     else x5d_published session i) /\
  last_chan_seen (driver_tsip (snd r)) = i.
Proof.
  intros Hi i r. subst r. unfold decode_x5d. cbv zeta. fold i.
  replace (i <? TSIP_CHANNELS) with true by (symmetry; now apply Z.ltb_lt).
  unfold x5d_published.
  destruct (PrimFloat.ltb 0 (getbef32 buf 8)); [rewrite resolv_pair|];
    cbn; destruct (i =? 0); cbn;
    match goal with |- context [?a <=? ?b] => destruct (a <=? b) end;
    cbn; auto.
Qed.

Lemma decode_x5d_high (E : driver_env) (session : gps_device_t)
    (buf : list Z) :
  TSIP_CHANNELS <= getub buf 1 ->
  let i := getub buf 1 in
  let r := decode_x5d E session buf in
  fst r = 0 /\
  satellites_visible (gpsdata (snd r)) = x5d_published session i /\
  skyview (gpsdata (snd r)) = skyview (gpsdata session) /\
  last_chan_seen (driver_tsip (snd r)) = i.
Proof.
  intros Hi i r. subst r. unfold decode_x5d. cbv zeta. fold i.
  replace (i <? TSIP_CHANNELS) with false by (symmetry; now apply Z.ltb_ge).
  unfold x5d_published.
  cbn. destruct (i =? 0); cbn; auto.
Qed.

Lemma mask_has_SATELLITE_SET (c : bool) :
  mask_has (if c then SATELLITE_SET else 0) SATELLITE_SET = c.
Proof. now destruct c. Qed.

Lemma decode_x5d_pair (E : driver_env) (session : gps_device_t)
    (buf : list Z) :
  decode_x5d E session buf =
  (fst (decode_x5d E session buf), snd (decode_x5d E session buf)).
Proof. now destruct (decode_x5d E session buf). Qed.

(** A burst with indices k, k+1, ...: the packet of index j raises
    SATELLITE_SET exactly when the last index of the burst before, [L],
    is at most j + 1. *)
Lemma x5d_burst_masks (E : driver_env) (L : Z) (bufs : list (list Z)) :
  forall (session : gps_device_t) (k : nat),
  (forall (j : nat) (b : list Z),
     bufs !! j = Some b -> getub b 1 = Z.of_nat (k + j)) ->
  (k + length bufs <= 64)%nat ->
  x5d_published session (Z.of_nat k) =
    (if Z.of_nat k =? 0 then L else Z.max L (Z.of_nat k)) ->
  forall (j : nat) (m : Z),
  fst (x5d_burst E session bufs) !! j = Some m ->
  m = if L <=? Z.of_nat (k + j) + 1 then SATELLITE_SET else 0.
Proof.
  induction bufs as [|buf bufs IH]; intros session k Hidx Hlen Hpub j m Hm.
  - discriminate Hm.
  - cbn [x5d_burst] in Hm. rewrite decode_x5d_pair in Hm.
    destruct (x5d_burst E (snd (decode_x5d E session buf)) bufs)
      as [masks s'] eqn:Hrest.
    cbn [length] in Hlen.
    assert (Hi : getub buf 1 = Z.of_nat k).
    { rewrite (Hidx 0%nat buf eq_refl). f_equal. lia. }
    assert (Hlow : getub buf 1 < TSIP_CHANNELS)
      by (rewrite Hi; unfold TSIP_CHANNELS; lia).
    destruct (decode_x5d_low E session buf Hlow) as (Hmask & Hvis & _).
    rewrite Hi, Hpub in Hmask, Hvis.
    destruct j as [|j].
    + cbn in Hm. injection Hm as <-. rewrite Hmask.
      replace (k + 0)%nat with k by lia.
      destruct (Z.of_nat k =? 0) eqn:Hk; [reflexivity|].
      apply Z.eqb_neq in Hk.
      destruct (L <=? Z.of_nat k + 1) eqn:HL;
        [apply Z.leb_le in HL | apply Z.leb_gt in HL];
        destruct (Z.max L (Z.of_nat k) <=? Z.of_nat k + 1) eqn:HM;
        try reflexivity;
        [apply Z.leb_gt in HM | apply Z.leb_le in HM]; lia.
    + cbn in Hm.
      replace (k + S j)%nat with (S k + j)%nat by lia.
      apply (IH (snd (decode_x5d E session buf)) (S k)).
      * intros j' b Hb. rewrite (Hidx (S j') b Hb). f_equal. lia.
      * lia.
      * unfold x5d_published at 1.
        replace (Z.of_nat (S k) =? 0) with false
          by (symmetry; apply Z.eqb_neq; lia).
        rewrite Hvis.
        destruct (Z.of_nat k =? 0) eqn:Hk;
          [apply Z.eqb_eq in Hk | apply Z.eqb_neq in Hk];
          match goal with
          | |- context [?a <=? ?b] =>
              destruct (a <=? b) eqn:HM;
              [apply Z.leb_le in HM | apply Z.leb_gt in HM]
          end; lia.
      * now rewrite Hrest.
Qed.

Lemma x5d_burst_length (E : driver_env) (bufs : list (list Z)) :
  forall session : gps_device_t,
  length (fst (x5d_burst E session bufs)) = length bufs.
Proof.
  induction bufs as [|buf bufs IH]; intros session; [reflexivity|].
  cbn [x5d_burst]. rewrite decode_x5d_pair.
  specialize (IH (snd (decode_x5d E session buf))).
  destruct (x5d_burst E (snd (decode_x5d E session buf)) bufs)
    as [masks s'].
  cbn [fst length] in *. now rewrite IH.
Qed.

(** C9, as the code has it by design. A packet with channel index 0
    first makes the last channel index seen the published count. For a
    channel index i below TSIP_CHANNELS (64) SATELLITE_SET is raised
    exactly when i + 1 is at least the published count, and the count
    becomes the larger of the two; for an index of 64 or more nothing is
    raised and the table is not touched. Hence a burst with indices 0,
    1, ... of at most 64 packets that ends at an index at least as large
    as the last index of the burst before raises SATELLITE_SET on its
    last packet. *)
Theorem x5d_satellite_set (E : driver_env) (session : gps_device_t) :
  (forall buf : list Z,
     let i := getub buf 1 in
     let published :=
       if i =? 0 then last_chan_seen (driver_tsip session)
       else satellites_visible (gpsdata session) in
     let r := decode_x5d E session buf in
     last_chan_seen (driver_tsip (snd r)) = i /\
     (i < TSIP_CHANNELS ->
      (mask_has (fst r) SATELLITE_SET = true <-> published <= i + 1) /\
      satellites_visible (gpsdata (snd r)) = Z.max published (i + 1)) /\
     (TSIP_CHANNELS <= i ->
      fst r = 0 /\
      satellites_visible (gpsdata (snd r)) = published /\
      skyview (gpsdata (snd r)) = skyview (gpsdata session))) /\
  (forall (bufs : list (list Z)) (n : nat),
     (forall (j : nat) (b : list Z),
        bufs !! j = Some b -> getub b 1 = Z.of_nat j) ->
     length bufs = S n ->
     (length bufs <= 64)%nat ->
     last_chan_seen (driver_tsip session) <= Z.of_nat n ->
     exists m : Z,
       fst (x5d_burst E session bufs) !! n = Some m /\
       mask_has m SATELLITE_SET = true).
Proof.
  split.
  - intros buf i published r. subst r.
    change published with (x5d_published session i).
    split; [|split].
    + destruct (Z.lt_ge_cases i TSIP_CHANNELS) as [Hi | Hi].
      * apply (decode_x5d_low E session buf Hi).
      * apply (decode_x5d_high E session buf Hi).
    + intros Hi.
      destruct (decode_x5d_low E session buf Hi) as (Hmask & Hvis & _).
      fold i in Hmask, Hvis. rewrite Hmask, Hvis, mask_has_SATELLITE_SET.
      destruct (x5d_published session i <=? i + 1) eqn:Hle.
      * apply Z.leb_le in Hle.
        split; [split; [intros _; exact Hle | reflexivity] | lia].
      * apply Z.leb_gt in Hle.
        split; [split; [discriminate | lia] | lia].
    + intros Hi.
      destruct (decode_x5d_high E session buf Hi) as (Hmask & Hvis & Hsky & _).
      auto.
  - intros bufs n Hidx Hn Hlen HL.
    assert (Hsome : is_Some (fst (x5d_burst E session bufs) !! n)).
    { apply lookup_lt_is_Some. rewrite x5d_burst_length. lia. }
    destruct Hsome as [m Hm]. exists m. split; [exact Hm|].
    rewrite (x5d_burst_masks E (last_chan_seen (driver_tsip session)) bufs
               session 0 Hidx Hlen eq_refl n m Hm).
    rewrite mask_has_SATELLITE_SET. apply Z.leb_le. cbn [Nat.add]. lia.
Qed.

Lemma x5d_satellite_set_witness :
  mask_has
    (fst (decode_x5d env0 session_after_burst (x5d_packet 3)))
    SATELLITE_SET = true /\
  fst (decode_x5d env0 session_after_burst (x5d_packet 64)) = 0 /\
  exists m : Z,
    fst (x5d_burst env0 session_after_burst
           [x5d_packet 0; x5d_packet 1; x5d_packet 2; x5d_packet 3])
      !! 3%nat = Some m /\
    mask_has m SATELLITE_SET = true.
Proof.
  pose proof (x5d_satellite_set env0 session_after_burst) as [Hone Hburst].
  split; [|split].
  - destruct (Hone (x5d_packet 3)) as (_ & Hlow & _).
    apply (proj1 (Hlow ltac:(vm_compute; reflexivity))).
    vm_compute. discriminate.
  - destruct (Hone (x5d_packet 64)) as (_ & _ & Hhigh).
    apply Hhigh. vm_compute. discriminate.
  - apply (Hburst [x5d_packet 0; x5d_packet 1; x5d_packet 2; x5d_packet 3]
             3%nat).
    + intros [|[|[|[|j]]]] b Hb; cbn in Hb; try discriminate Hb;
        injection Hb as <-; reflexivity.
    + reflexivity.
    + cbn. lia.
    + vm_compute. discriminate.
Defined.

(** C9 as stated fails for a channel index of 64 or more: 64 + 1 is at
    least the published count, and SATELLITE_SET is not raised. *)
Lemma x5d_index_64_not_signalled :
  let r := decode_x5d env0 session0 (x5d_packet 64) in
  satellites_visible (gpsdata session0) <= 64 + 1 /\
  getub (x5d_packet 64) 1 = 64 /\
  mask_has (fst r) SATELLITE_SET = false.
Proof.
  repeat split; vm_compute; discriminate.
Qed.

(** The count published on channel 0 is the last channel index, which is
    one less than the number of packets of the burst before. After a
    burst of four packets (indices 0 to 3) a burst of three still raises
    SATELLITE_SET on its last packet, where the comments of the code say
    "save last count" and "If this series has fewer than last series
    there will be no SKY"; a burst of two raises nothing. *)
Lemma x5d_shorter_burst_signals :
  let s1 :=
    snd (x5d_burst env0 session0
           [x5d_packet 0; x5d_packet 1; x5d_packet 2; x5d_packet 3]) in
  last_chan_seen (driver_tsip s1) = 3 /\
  satellites_visible (gpsdata s1) = 4 /\
  fst (x5d_burst env0 s1 [x5d_packet 0; x5d_packet 1; x5d_packet 2]) =
    [0; 0; SATELLITE_SET] /\
  fst (x5d_burst env0 s1 [x5d_packet 0; x5d_packet 1]) = [0; 0].
Proof.
  repeat split; vm_compute; reflexivity.
Qed.

(** ** Superpacket x8f-20: semicircles to degrees *)

(** What x8f-20 stores as latitude and longitude. *)
Lemma decode_x8f_20_latlon (E : driver_env) (session : gps_device_t)
    (buf : list Z) (length : Z) :
  let fix_ := newdata (snd (decode_x8f_20 E session buf length)) in
  let lon := (double_of_Z (getbeu32 buf 16) * SEMI_2_DEG)%float in
  latitude fix_ = (double_of_Z (getbes32 buf 12) * SEMI_2_DEG)%float /\
  longitude fix_ = if PrimFloat.ltb 180 lon then (lon - 360)%float else lon.
Proof.
  unfold decode_x8f_20. cbv zeta. rewrite resolv_pair.
  destruct (MAXCHANNELS E <? getub buf 28); cbn;
    repeat match goal with
           | |- context [if ?c then _ else _] => destruct c
           end;
    cbn; auto.
Qed.

(** C3 at the semicircle value 0x40000000. The factor of the code is
    180 / 2147483647, so the latitude stored is above 90 degrees, though
    by less than 1e-6; with the factor 180 / 2^31 of the claim the same
    input gives 90 exactly. The longitudes 0x80000000 and 0xffffffff
    convert to more than 180 and are stored less 360; 0x7fffffff converts
    to 180 and is stored as it is. *)
Theorem x8f_20_semicircle_factor :
  let lat :=
    latitude (newdata (snd (decode_x8f_20 env0 session0
                              (x8f_20_packet 1000 0x40000000 0 4 18 100)
                              56))) in
  let lon (semi : Z) :=
    longitude (newdata (snd (decode_x8f_20 env0 session0
                               (x8f_20_packet 1000 0 semi 4 18 100) 56))) in
  (double_of_Z 0x40000000 * (180 / double_of_Z 2147483648))%float = 90%float /\
  lat = (double_of_Z 0x40000000 * (180 / double_of_Z 2147483647))%float /\
  PrimFloat.ltb 90 lat = true /\
  PrimFloat.ltb lat (90 + 1e-6) = true /\
  lon 0x7fffffff = 180%float /\
  PrimFloat.ltb 180 (double_of_Z 0x80000000 * SEMI_2_DEG) = true /\
  lon 0x80000000 = (double_of_Z 0x80000000 * SEMI_2_DEG - 360)%float /\
  PrimFloat.ltb (-180) (lon 0x80000000) = true /\
  PrimFloat.ltb (lon 0x80000000) 0 = true /\
  PrimFloat.ltb 0 (lon 0xffffffff) = true /\
  PrimFloat.leb (lon 0xffffffff) 180 = true.
Proof.
  repeat split; vm_compute; reflexivity.
Qed.

(** ** The TSIPv1 dispatcher: envelope gates *)

Lemma GPSD_LOG_logged (lvl : log_level) (fmt : String.string)
    (args : list Z) (s : gps_device_t) :
  GPSD_LOG lvl fmt args s = logged [mk_log_entry lvl fmt args] s.
Proof. reflexivity. Qed.

Lemma tsipv1_chksum_xor (id : Z) (buf : list Z) (n : nat) :
  tsipv1_chksum_loop buf 0 n (to_uchar id) = xor_list (id :: take n buf).
Proof.
  change 0 with (Z.of_nat 0) at 1.
  rewrite tsipv1_chksum_loop_xor by apply to_uchar_range.
  now rewrite drop_0.
Qed.

Lemma envelope_ok_true (id : Z) (buf : list Z) (len : Z) :
  envelope_ok id buf len = true <->
  4 <= len /\ getbeu16 buf 1 + 3 = len /\
  xor_list (id :: take (Z.to_nat len) buf) = 0 /\ getub buf 3 = 2.
Proof.
  unfold envelope_ok. rewrite !andb_true_iff, Z.leb_le, !Z.eqb_eq. tauto.
Qed.

Lemma envelope_ok_false (id : Z) (buf : list Z) (len : Z) :
  envelope_ok id buf len = false <->
  len < 4 \/ getbeu16 buf 1 + 3 <> len \/
  xor_list (id :: take (Z.to_nat len) buf) <> 0 \/ getub buf 3 <> 2.
Proof.
  unfold envelope_ok. rewrite !andb_false_iff, Z.leb_gt, !Z.eqb_neq. tauto.
Qed.

(** A packet that fails a gate: empty mask, one log entry, nothing else. *)
Lemma tsipv1_parse_abort (E : driver_env) (session : gps_device_t)
    (id : Z) (buf : list Z) (len : Z) :
  envelope_ok id buf len = false ->
  exists e : log_entry,
    tsipv1_parse E session id buf len = (0, logged [e] session).
Proof.
  unfold envelope_ok, tsipv1_parse. cbv zeta. intros H.
  destruct (len <? 4) eqn:Hlen.
  { rewrite GPSD_LOG_logged. eauto. }
  apply Z.ltb_ge in Hlen.
  replace (4 <=? len) with true in H by (symmetry; now apply Z.leb_le).
  destruct (getbeu16 buf 1 + 3 =? len) eqn:Hdecl; cbn [negb andb] in *.
  2: { rewrite GPSD_LOG_logged. eauto. }
  apply Z.eqb_eq in Hdecl. rewrite Hdecl, tsipv1_chksum_xor.
  destruct (xor_list (id :: take (Z.to_nat len) buf) =? 0);
    cbn [negb andb] in *.
  2: { rewrite GPSD_LOG_logged. eauto. }
  rewrite H. cbn [negb]. rewrite GPSD_LOG_logged. eauto.
Qed.

(** A packet that passes the four gates: the switch, then the query
    scheduler. *)
Lemma tsipv1_parse_pass (E : driver_env) (session : gps_device_t)
    (id : Z) (buf : list Z) (len : Z) :
  envelope_ok id buf len = true ->
  exists e e' : log_entry,
    let sw :=
      tsipv1_switch E (logged [e] session) id (getub buf 0) buf len
        (getbeu16 buf 1) in
    tsipv1_parse E session id buf len =
    (if snd (fst sw) then 0 else fst (fst sw),
     tsipv1_query E (if snd (fst sw) then logged [e'] (snd sw) else snd sw)).
Proof.
  intros H. apply envelope_ok_true in H. destruct H as (Hlen & Hdecl & Hchk & Hmode).
  unfold tsipv1_parse. cbv zeta.
  replace (len <? 4) with false by (symmetry; apply Z.ltb_ge; lia).
  assert (Hloop : tsipv1_chksum_loop buf 0 (Z.to_nat (getbeu16 buf 1 + 3))
                    (to_uchar id) = 0)
    by (rewrite Hdecl, tsipv1_chksum_xor; exact Hchk).
  rewrite (proj2 (Z.eqb_eq _ _) Hdecl), Hloop. cbn [negb Z.eqb].
  rewrite (proj2 (Z.eqb_eq _ _) Hmode). cbn [negb].
  rewrite GPSD_LOG_logged.
  match goal with
  | |- context [tsipv1_switch E (logged [?e] session)] => exists e
  end.
  match goal with
  | |- context [GPSD_LOG ?l ?f ?a] => exists (mk_log_entry l f a)
  end.
  cbv zeta.
  destruct (tsipv1_switch _ _ _ _ _ _ _) as [[mask bad_len] s].
  cbn [fst snd]. rewrite GPSD_LOG_logged.
  now destruct bad_len.
Qed.

(** C1. [tsipv1_parse] applies four gates in order: fewer than 4 bytes;
    declared length plus 3 different from the length received; XOR of
    the id with every byte received, checksum byte included, different
    from zero; mode different from 2. At the first gate that fails the
    mask returned is empty and the session is left as it was but for one
    log entry. A packet that passes the four gates goes to the switch on
    (id, sub-id), followed by the query scheduler. *)
Theorem tsipv1_parse_gates (E : driver_env) (session : gps_device_t)
    (id : Z) (buf : list Z) (len : Z) :
  let declared := getbeu16 buf 1 in
  let chksum := xor_list (id :: take (Z.to_nat len) buf) in
  let mode := getub buf 3 in
  let r := tsipv1_parse E session id buf len in
  let aborted := fst r = 0 /\ exists e, snd r = logged [e] session in
  (len < 4 -> aborted) /\
  (4 <= len -> declared + 3 <> len -> aborted) /\
  (4 <= len -> declared + 3 = len -> chksum <> 0 -> aborted) /\
  (4 <= len -> declared + 3 = len -> chksum = 0 -> mode <> 2 -> aborted) /\
  (4 <= len -> declared + 3 = len -> chksum = 0 -> mode = 2 ->
   exists e e',
     let sw :=
       tsipv1_switch E (logged [e] session) id (getub buf 0) buf len
         declared in
     fst r = (if snd (fst sw) then 0 else fst (fst sw)) /\
     snd r =
       tsipv1_query E
         (if snd (fst sw) then logged [e'] (snd sw) else snd sw)).
Proof.
  intros declared chksum mode r aborted.
  assert (Habort : envelope_ok id buf len = false -> aborted).
  { intros H. destruct (tsipv1_parse_abort E session id buf len H) as [e He].
    subst aborted r. rewrite He. cbn. eauto. }
  split; [|split; [|split; [|split]]].
  - intros H. apply Habort, envelope_ok_false. auto.
  - intros _ H. apply Habort, envelope_ok_false. auto.
  - intros _ _ H. apply Habort, envelope_ok_false. auto.
  - intros _ _ _ H. apply Habort, envelope_ok_false. auto.
  - intros Hlen Hdecl Hchk Hmode.
    destruct (tsipv1_parse_pass E session id buf len) as (e & e' & He).
    { apply envelope_ok_true. auto. }
    exists e, e'. subst r. cbv zeta in *. now rewrite He.
Qed.

Lemma tsipv1_parse_gates_witness :
  fst (tsipv1_parse env0 session0 0x90 [0x00; 0x00; 0x02] 3) = 0 /\
  fst (tsipv1_parse env0 session0 0x90 [0x00; 0x00; 0x07; 0x02; 0x90] 5) = 0 /\
  fst (tsipv1_parse env0 session0 0x90 [0x00; 0x00; 0x02; 0x02; 0x91] 5) = 0 /\
  fst (tsipv1_parse env0 session0 0x90 [0x00; 0x00; 0x02; 0x00; 0x92] 5) = 0 /\
  queue (snd (tsipv1_parse env0 session0 0x90 v1_short_response 5)) = 1.
Proof.
  split; [|split; [|split; [|split]]].
  - apply (proj1 (tsipv1_parse_gates env0 session0 0x90 [0x00; 0x00; 0x02] 3)).
    vm_compute. reflexivity.
  - apply (proj1 (proj2 (tsipv1_parse_gates env0 session0 0x90
                           [0x00; 0x00; 0x07; 0x02; 0x90] 5)));
      vm_compute; discriminate.
  - apply (proj1 (proj2 (proj2 (tsipv1_parse_gates env0 session0 0x90
                                  [0x00; 0x00; 0x02; 0x02; 0x91] 5))));
      vm_compute; try discriminate; reflexivity.
  - apply (proj1 (proj2 (proj2 (proj2
             (tsipv1_parse_gates env0 session0 0x90
                [0x00; 0x00; 0x02; 0x00; 0x92] 5)))));
      vm_compute; try discriminate; reflexivity.
  - destruct (proj2 (proj2 (proj2 (proj2
                (tsipv1_parse_gates env0 session0 0x90 v1_short_response 5)))))
      as (e & e' & _ & Hs);
      [vm_compute; discriminate | reflexivity | reflexivity | reflexivity |].
    rewrite Hs. vm_compute. reflexivity.
Defined.

(** ** The TSIPv1 dispatcher and the query scheduler *)

(** [tsip_write1] changes the message buffer, the log and the wire only,
    and puts at most one frame on the wire. *)
Lemma tsip_write1_frame (E : driver_env) (session : gps_device_t)
    (buf : option (list Z)) (len : Z) :
  let s' := snd (tsip_write1 E session buf len) in
  queue s' = queue session /\
  gpsdata s' = gpsdata session /\
  newdata s' = newdata session /\
  driver_tsip s' = driver_tsip session /\
  exists frames : list (list Z),
    wire s' = wire session ++ frames /\ (length frames <= 1)%nat.
Proof.
  unfold tsip_write1.
  destruct (readonly (context session)).
  { cbn. repeat split. no_frame. }
  destruct buf as [b|].
  2: { cbn. repeat split. no_frame. }
  destruct ((len =? 0) || (sizeof_msgbuf E / 2 <? len)).
  { cbn. repeat split. no_frame. }
  cbv zeta. unfold gpsd_write.
  repeat match goal with |- context [if ?c then _ else _] => destruct c end;
    cbn; repeat split; eexists [_]; split; try reflexivity; cbn; lia.
Qed.

(** [tsipv1_query] advances the counter once and sends at most one
    frame. *)
Lemma tsipv1_query_step (E : driver_env) (session : gps_device_t) :
  let s' := tsipv1_query E session in
  queue s' = Z.land (queue session + 1) 0x0ffff /\
  gpsdata s' = gpsdata session /\
  newdata s' = newdata session /\
  exists frames : list (list Z),
    wire s' = wire session ++ frames /\ (length frames <= 1)%nat.
Proof.
  unfold tsipv1_query. cbv zeta.
  cbn [queue set_queue context].
  destruct (negb (Z.land (queue session + 1) 65535 mod 4 =? 0)).
  { cbn. repeat split. no_frame. }
  destruct (tsipv1_query_select _ _) as [[snd_buf len]|].
  2: { cbn. repeat split. no_frame. }
  match goal with
  | |- context [tsip_write1 E ?s ?b ?l] =>
      destruct (tsip_write1_frame E s b l) as (Hq & Hg & Hn & _ & Hw)
  end.
  rewrite Hq, Hg, Hn. cbn. repeat split. exact Hw.
Qed.

Lemma v1_case_queue (E : driver_env) (d : v1_decoder) (min length arg : Z)
    (session : gps_device_t) (buf : list Z) :
  (forall d s b l, queue (snd (decode_v1 E d s b l)) = queue s) ->
  queue (snd (v1_case E d min length arg session buf)) = queue session.
Proof.
  intros Hq. unfold v1_case. destruct (length <? min); [reflexivity|].
  specialize (Hq d session buf arg).
  now destruct (decode_v1 E d session buf arg).
Qed.

Lemma tsipv1_switch_queue (E : driver_env) (session : gps_device_t)
    (id sub_id : Z) (buf : list Z) (len length : Z) :
  (forall d s b l, queue (snd (decode_v1 E d s b l)) = queue s) ->
  queue (snd (tsipv1_switch E session id sub_id buf len length)) =
  queue session.
Proof.
  intros Hq. unfold tsipv1_switch.
  destruct (Z.lor (Z.shiftl id 8) sub_id) as [|p|p]; try reflexivity.
  switch_cases; try reflexivity; try (apply v1_case_queue; exact Hq).
  destruct (negb (length =? 3) && negb (length =? 8)); [reflexivity|].
  specialize (Hq XA0_00 session buf length).
  now destruct (decode_v1 E XA0_00 session buf length).
Qed.

(** C2, as the code has it. The decoders do not touch the counter of the
    query scheduler. A packet that passes the four envelope gates,
    whatever the switch then does with it (decoder, unknown id or
    sub-id, payload too short for the pair), advances the counter exactly
    once, modulo 0x10000, and the scheduler sends at most one frame. A
    packet that fails a gate (runt, declared length, checksum, mode)
    leaves the counter where it was and sends nothing. *)
Theorem tsipv1_parse_queue (E : driver_env) (session : gps_device_t)
    (id : Z) (buf : list Z) (len : Z) :
  (forall d s b l, queue (snd (decode_v1 E d s b l)) = queue s) ->
  let r := tsipv1_parse E session id buf len in
  (envelope_ok id buf len = true ->
   queue (snd r) = Z.land (queue session + 1) 0x0ffff /\
   exists (s1 : gps_device_t) (frames : list (list Z)),
     snd r = tsipv1_query E s1 /\
     wire (snd r) = wire s1 ++ frames /\ (length frames <= 1)%nat) /\
  (envelope_ok id buf len = false ->
   queue (snd r) = queue session /\ wire (snd r) = wire session).
Proof.
  intros Hq r. subst r. split; intros H.
  - destruct (tsipv1_parse_pass E session id buf len H) as (e & e' & He).
    cbv zeta in He. rewrite He. cbn [snd].
    match goal with
    | |- context [tsipv1_query E ?s] =>
        destruct (tsipv1_query_step E s) as (Hstep & _ & _ & frames & Hw & Hl);
        set (s1 := s) in *
    end.
    split.
    + rewrite Hstep. f_equal. f_equal. subst s1.
      match goal with
      | |- queue (if ?c then _ else _) = _ => destruct c
      end; cbn [queue logged with_context];
        now rewrite tsipv1_switch_queue by exact Hq.
    + exists s1, frames. auto.
  - destruct (tsipv1_parse_abort E session id buf len H) as [e He].
    rewrite He. cbn. auto.
Qed.

Lemma tsipv1_parse_queue_witness :
  queue (snd (tsipv1_parse env0 session0 0x90 v1_short_response 5)) = 1 /\
  queue (snd (tsipv1_parse env0 session0 0x90 [0x00; 0x00; 0x02] 3)) = 0.
Proof.
  split.
  - apply (proj1 (tsipv1_parse_queue env0 session0 0x90 v1_short_response 5
                    (fun _ _ _ _ => eq_refl))).
    reflexivity.
  - apply (proj2 (tsipv1_parse_queue env0 session0 0x90 [0x00; 0x00; 0x02] 3
                    (fun _ _ _ _ => eq_refl))).
    reflexivity.
Defined.

(** C2 as stated fails on a packet that fails an envelope gate: after a
    runt the counter is where it was, not one further, and nothing was
    sent; the same after a packet with a wrong checksum. *)
Lemma tsipv1_parse_abort_keeps_queue :
  let runt := tsipv1_parse env0 session0 0x90 [0x00; 0x00; 0x02] 3 in
  let bad :=
    tsipv1_parse env0 session0 0x90 [0x00; 0x00; 0x02; 0x02; 0x91] 5 in
  queue (snd runt) = queue session0 /\
  queue (snd runt) <> Z.land (queue session0 + 1) 0x0ffff /\
  wire (snd runt) = wire session0 /\
  queue (snd bad) = queue session0 /\
  queue (snd bad) <> Z.land (queue session0 + 1) 0x0ffff.
Proof.
  repeat split; vm_compute; discriminate.
Qed.

(** ** Length failures *)

(** In the TSIPv1 switch a declared length below the minimum of the pair
    sets bad_len and runs no decoder. *)
Lemma tsipv1_switch_short (E : driver_env) (session : gps_device_t)
    (id sub_id : Z) (buf : list Z) (len length min : Z) :
  tsipv1_min_len id sub_id = Some min -> length < min ->
  tsipv1_switch E session id sub_id buf len length = (0, true, session).
Proof.
  unfold tsipv1_min_len, tsipv1_switch. intros H Hlt.
  destruct (Z.lor (Z.shiftl id 8) sub_id) as [|p|p]; try discriminate H.
  switch_cases; try discriminate H; injection H as <-;
    unfold v1_case;
    try (replace (length <? _) with true
           by (symmetry; apply Z.ltb_lt; lia); reflexivity).
  replace (length =? 3) with false by (symmetry; apply Z.eqb_neq; lia).
  replace (length =? 8) with false by (symmetry; apply Z.eqb_neq; lia).
  reflexivity.
Qed.

(** A TSIPv1 packet with a sound envelope and a declared length below the
    minimum of its pair: empty mask, fix and skyview data as before. *)
Lemma tsipv1_parse_short (E : driver_env) (session : gps_device_t)
    (id : Z) (buf : list Z) (len min : Z) :
  envelope_ok id buf len = true ->
  tsipv1_min_len id (getub buf 0) = Some min -> getbeu16 buf 1 < min ->
  let r := tsipv1_parse E session id buf len in
  fst r = 0 /\
  gpsdata (snd r) = gpsdata session /\ newdata (snd r) = newdata session.
Proof.
  intros Hok Hmin Hlt r. subst r.
  destruct (tsipv1_parse_pass E session id buf len Hok) as (e & e' & He).
  cbv zeta in He. rewrite He.
  rewrite (tsipv1_switch_short E _ id _ buf len _ min Hmin Hlt).
  cbn [fst snd].
  match goal with
  | |- context [tsipv1_query E ?s] =>
      destruct (tsipv1_query_step E s) as (_ & Hg & Hn & _)
  end.
  rewrite Hg, Hn. auto.
Qed.

(** In the switch of the older protocol a length below the constant
    minimum of the id (of the sub-code for x1c and x8f) runs no decoder:
    empty mask, the minimum as bad_len, fix and skyview data as before. *)
Lemma tsip_switch_short (E : driver_env) (session : gps_device_t)
    (id : Z) (buf : list Z) (len now min : Z) :
  tsip_min_len id buf = Some min -> len < min ->
  let r := tsip_switch E session id buf len now in
  fst (fst r) = 0 /\ snd (fst r) = min /\
  gpsdata (snd r) = gpsdata session /\ newdata (snd r) = newdata session.
Proof.
  unfold tsip_min_len, tsip_switch. intros H Hlt.
  destruct id as [|p|p]; try discriminate H.
  switch_cases; try discriminate H.
  all: try (injection H as <-).
  all: try (unfold tsip_case;
            replace (len <? _) with true by (symmetry; apply Z.ltb_lt; lia);
            cbn; solve [auto]).
  - (* x8f *)
    unfold decode_x8f.
    destruct (getub buf 0) as [|q|q]; try discriminate H.
    switch_cases; try discriminate H; injection H as <-; unfold tsip_case;
      try (replace (len <? _) with true by (symmetry; apply Z.ltb_lt; lia);
           cbn; solve [auto]).
    replace (len =? 56) with false by (symmetry; apply Z.eqb_neq; lia).
    replace (len =? 64) with false by (symmetry; apply Z.eqb_neq; lia).
    cbn; auto.
  - (* xbb *)
    replace (len =? 40) with false by (symmetry; apply Z.eqb_neq; lia).
    replace (len =? 43) with false by (symmetry; apply Z.eqb_neq; lia).
    cbn; auto.
  - (* x1c *)
    unfold decode_x1c.
    destruct (getub buf 0) as [|q|q]; try discriminate H.
    switch_cases; try discriminate H; injection H as <-; unfold tsip_case;
      replace (len <? _) with true by (symmetry; apply Z.ltb_lt; lia);
      match goal with
      | |- context [tsip_write1 E ?s ?b ?l] =>
          destruct (tsip_write1_frame E s b l) as (_ & Hg & Hn & _)
      end; cbn [fst snd]; rewrite Hg, Hn; auto.
Qed.

Lemma gpsdata_tsip_write1 (E : driver_env) (s : gps_device_t)
    (buf : option (list Z)) (len : Z) :
  gpsdata (snd (tsip_write1 E s buf len)) = gpsdata s.
Proof. apply tsip_write1_frame. Qed.

Lemma newdata_tsip_write1 (E : driver_env) (s : gps_device_t)
    (buf : option (list Z)) (len : Z) :
  newdata (snd (tsip_write1 E s buf len)) = newdata s.
Proof. apply tsip_write1_frame. Qed.

Lemma gpsdata_tsip_request (E : driver_env) (req : list Z)
    (set_last : Z -> tsip_t -> tsip_t) (now : Z) (s : gps_device_t) :
  gpsdata (tsip_request E req set_last now s) = gpsdata s.
Proof. unfold tsip_request. cbn. apply gpsdata_tsip_write1. Qed.

Lemma newdata_tsip_request (E : driver_env) (req : list Z)
    (set_last : Z -> tsip_t -> tsip_t) (now : Z) (s : gps_device_t) :
  newdata (tsip_request E req set_last now s) = newdata s.
Proof. unfold tsip_request. cbn. apply newdata_tsip_write1. Qed.

Lemma gpsdata_if_request (E : driver_env) (c : bool) (req : list Z)
    (set_last : Z -> tsip_t -> tsip_t) (now : Z) (s : gps_device_t) :
  gpsdata (if c then tsip_request E req set_last now s else s) = gpsdata s.
Proof. destruct c; [apply gpsdata_tsip_request | reflexivity]. Qed.

Lemma newdata_if_request (E : driver_env) (c : bool) (req : list Z)
    (set_last : Z -> tsip_t -> tsip_t) (now : Z) (s : gps_device_t) :
  newdata (if c then tsip_request E req set_last now s else s) = newdata s.
Proof. destruct c; [apply newdata_tsip_request | reflexivity]. Qed.

Lemma gpsdata_if_write1 (E : driver_env) (c : bool) (s' s : gps_device_t)
    (buf : option (list Z)) (len : Z) :
  gpsdata s' = gpsdata s ->
  gpsdata (if c then snd (tsip_write1 E s' buf len) else s) = gpsdata s.
Proof. intros H. destruct c; [now rewrite gpsdata_tsip_write1 | reflexivity]. Qed.

Lemma newdata_if_write1 (E : driver_env) (c : bool) (s' s : gps_device_t)
    (buf : option (list Z)) (len : Z) :
  newdata s' = newdata s ->
  newdata (if c then snd (tsip_write1 E s' buf len) else s) = newdata s.
Proof. intros H. destruct c; [now rewrite newdata_tsip_write1 | reflexivity]. Qed.

(** The periodic requests leave fix and skyview data alone. *)
Lemma tsip_requests_frame (E : driver_env) (now : Z)
    (session : gps_device_t) :
  gpsdata (tsip_requests E now session) = gpsdata session /\
  newdata (tsip_requests E now session) = newdata session.
Proof.
  unfold tsip_requests. cbv zeta. split.
  - rewrite gpsdata_if_write1 by reflexivity.
    now rewrite !gpsdata_if_request.
  - rewrite newdata_if_write1 by reflexivity.
    now rewrite !newdata_if_request.
Qed.

(** A packet of the older protocol whose payload is shorter than the
    constant minimum of its id: empty mask, fix and skyview data as
    before. *)
Lemma tsip_parse_input_short (E : driver_env) (session : gps_device_t)
    (min : Z) :
  let lx := lexer session in
  let id := getub (outbuffer lx) 1 in
  let buf :=
    tsip_payload (outbuffer lx) (outbuflen lx) 2 (Z.to_nat (outbuflen lx))
      [] in
  type lx = TSIP_PACKET ->
  is_tsipv1_id id = false ->
  tsip_min_len id buf = Some min -> Z.of_nat (length buf) < min ->
  let r := tsip_parse_input E session in
  fst r = 0 /\
  gpsdata (snd r) = gpsdata session /\ newdata (snd r) = newdata session.
Proof.
  intros lx id buf Ht Hv1 Hmin Hlt r. subst r.
  unfold tsip_parse_input. fold lx. rewrite Ht. cbv zeta. fold id buf.
  destruct ((outbuflen lx <? 4) || negb (getub (outbuffer lx) 0 =? 16)).
  { cbn. auto. }
  rewrite Hv1.
  match goal with
  | |- context [tsip_switch E ?s id buf ?l ?n] =>
      destruct (tsip_switch_short E s id buf l n min Hmin Hlt)
        as (Hm & _ & Hg & Hn);
      destruct (tsip_switch E s id buf l n) as [[mask bad_len] s']
  end.
  cbn [fst snd] in *. subst mask.
  match goal with
  | |- context [tsip_requests E ?n ?s] =>
      destruct (tsip_requests_frame E n s) as [Hg' Hn']
  end.
  rewrite Hg', Hn'.
  destruct (negb (bad_len =? 0)); cbn; rewrite ?Hg, ?Hn; auto.
Qed.

(** ** x6c against x6d on a satellite count that exceeds the payload *)

(** x6d tests the count before it stores anything. *)
Lemma decode_x6d_count_short (E : driver_env) (session : gps_device_t)
    (buf : list Z) (len : Z) :
  len < 17 + Z.land (Z.shiftr (getub buf 0) 4) 0x0f ->
  decode_x6d E session buf len =
  (0, 17 + Z.land (Z.shiftr (getub buf 0) 4) 0x0f, session).
Proof.
  intros H. unfold decode_x6d. cbv zeta.
  now replace (len <? _) with true by (symmetry; apply Z.ltb_lt; lia).
Qed.

(** x6c tests it after the DOPs are stored. *)
Lemma decode_x6c_count_short (E : driver_env) (session : gps_device_t)
    (buf : list Z) (len : Z) :
  len < 18 + getub buf 17 ->
  decode_x6c E session buf len =
  (fst (store_dops (getbef32 buf 1) (getbef32 buf 5) (getbef32 buf 9)
          (getbef32 buf 13) 0 session),
   18 + getub buf 17,
   snd (store_dops (getbef32 buf 1) (getbef32 buf 5) (getbef32 buf 9)
          (getbef32 buf 13) 0 session)).
Proof.
  intros H. unfold decode_x6c. cbv zeta.
  destruct (store_dops _ _ _ _ _ _) as [mask s].
  now replace (len <? _) with true by (symmetry; apply Z.ltb_lt; lia).
Qed.

(** C7 at a packet x6c of 18 payload bytes whose satellite count is 1.
    The dispatcher reports the length failure (wrong len 18, should be at
    least 19), yet the mask returned is DOP_SET and the PDOP of the packet
    has replaced the one of the session. *)
Theorem tsip_parse_input_x6c_count_short :
  let r := tsip_parse_input env0 session_x6c in
  last (errout (context (snd r))) =
    Some (mk_log_entry LOG_WARNING "TSIP x%02x: wrong len %d s/b >= %d "
            [0x6c; 18; 19]) /\
  fst r = DOP_SET /\
  fst r <> 0 /\
  pdop (dop (gpsdata session_x6c)) = 0%float /\
  pdop (dop (gpsdata (snd r))) = 1%float /\
  gpsdata (snd r) <> gpsdata session_x6c.
Proof.
  repeat split; try (vm_compute; reflexivity); vm_compute; discriminate.
Qed.

(** * Further properties *)

(** ** The frame writer and the payload loop *)

Lemma getub_cons (x : Z) (buf : list Z) (off : Z) :
  0 <= off -> getub (x :: buf) (off + 1) = getub buf off.
Proof.
  intros H. unfold getub.
  replace (Z.to_nat (off + 1)) with (S (Z.to_nat off)) by lia.
  reflexivity.
Qed.

Lemma getub_app_r (pre l : list Z) (k : nat) :
  getub (pre ++ l) (Z.of_nat (length pre + k)) = getub l (Z.of_nat k).
Proof.
  unfold getub. rewrite !Nat2Z.id.
  rewrite lookup_app_r by lia.
  now replace (length pre + k - length pre)%nat with k by lia.
Qed.

Lemma tsip_write1_copy_cons (x : Z) (buf : list Z) (n : nat) :
  forall cp : Z, 0 <= cp ->
  tsip_write1_copy (x :: buf) (cp + 1) n = tsip_write1_copy buf cp n.
Proof.
  induction n as [|n IH]; intros cp Hcp; [reflexivity|].
  cbn [tsip_write1_copy]. rewrite getub_cons by exact Hcp.
  now rewrite IH by lia.
Qed.

(** The copy loop of [tsip_write1] over a whole buffer is the stuffing. *)
Lemma tsip_write1_copy_stuff (buf : list Z) :
  tsip_write1_copy buf 0 (length buf) = stuff buf.
Proof.
  induction buf as [|x buf IH]; [reflexivity|].
  cbn [length tsip_write1_copy stuff flat_map].
  rewrite (tsip_write1_copy_cons x buf (length buf) 0) by lia.
  rewrite IH. fold (stuff buf).
  rewrite (getub_lookup (x :: buf) 0 x) by reflexivity.
  destruct (to_uchar x =? 16) eqn:Hx; [|reflexivity].
  apply Z.eqb_eq in Hx. now rewrite Hx.
Qed.

Lemma stuff_length (buf : list Z) :
  Z.of_nat (length (stuff buf)) =
  Z.of_nat (length buf) + count_dle buf (length buf).
Proof.
  unfold count_dle. rewrite firstn_all.
  induction buf as [|x buf IH]; [reflexivity|].
  cbn [stuff flat_map]. fold (stuff buf).
  rewrite length_app, filter_cons.
  destruct (decide (to_uchar x = 16)) as [Hx | Hx].
  - rewrite Hx. cbn [Z.eqb Pos.eqb length]. cbn [length] in *. lia.
  - apply Z.eqb_neq in Hx. rewrite Hx. cbn [length] in *. lia.
Qed.

Lemma getub_app_0 (pre l : list Z) :
  getub (pre ++ l) (Z.of_nat (length pre)) = getub l 0.
Proof.
  replace (Z.of_nat (length pre)) with (Z.of_nat (length pre + 0))
    by (f_equal; lia).
  apply getub_app_r.
Qed.

Lemma getub_app_1 (pre l : list Z) :
  getub (pre ++ l) (Z.of_nat (length pre) + 1) = getub l 1.
Proof.
  replace (Z.of_nat (length pre) + 1) with (Z.of_nat (length pre + 1)) by lia.
  apply getub_app_r.
Qed.

Lemma getub_0 (x : Z) (l : list Z) : getub (x :: l) 0 = to_uchar x.
Proof. reflexivity. Qed.

Lemma getub_1 (x y : Z) (l : list Z) : getub (x :: y :: l) 1 = to_uchar y.
Proof. reflexivity. Qed.

(** The payload loop of [tsip_parse_input] on a stuffed body followed by
    DLE ETX, from the index [i] where the body starts. *)
Lemma tsip_payload_stuff (body : list Z) :
  forall (pre acc : list Z) (fuel : nat) (i L : Z),
  bytes body ->
  i = Z.of_nat (length pre) ->
  L = i + Z.of_nat (length (stuff body)) + 2 ->
  (length (stuff body) + 1 <= fuel)%nat ->
  tsip_payload (pre ++ stuff body ++ [0x10; 0x03]) L i fuel acc =
  acc ++ body.
Proof.
  induction body as [|x body IH]; intros pre acc fuel i L Hb Hi HL Hfuel.
  - cbn [stuff flat_map length app] in *.
    destruct fuel as [|fuel]; [lia|]. cbn [tsip_payload].
    replace (i <? L) with true by (symmetry; apply Z.ltb_lt; lia).
    subst i. rewrite getub_app_0, getub_app_1, getub_0, getub_1.
    cbn. now rewrite app_nil_r.
  - apply Forall_cons in Hb. destruct Hb as [Hx Hb].
    cbn [stuff flat_map] in *. fold (stuff body) in *.
    rewrite to_uchar_small in * by exact Hx.
    destruct fuel as [|fuel]; [lia|]. cbn [tsip_payload].
    replace (i <? L) with true
      by (symmetry; apply Z.ltb_lt; rewrite length_app in HL; lia).
    subst i.
    destruct (x =? 16) eqn:Hx16.
    + apply Z.eqb_eq in Hx16. subst x.
      rewrite length_app in *. cbn [length app] in *.
      rewrite getub_app_0, getub_app_1, getub_0, getub_1.
      cbn [to_uchar Z.modulo Z.div_eucl Z.pos_div_eucl Z.eqb Pos.eqb].
      change (to_uchar 16) with 16. cbn [Z.eqb Pos.eqb].
      replace (pre ++ 16 :: 16 :: stuff body ++ [16; 3])
        with ((pre ++ [16; 16]) ++ stuff body ++ [16; 3])
        by (now rewrite <- app_assoc).
      rewrite (IH (pre ++ [16; 16]) (acc ++ [16]) fuel
                 (Z.of_nat (length pre) + 1 + 1) L);
        try (rewrite ?length_app; cbn [length]; lia); auto.
      now rewrite <- app_assoc.
    + rewrite length_app in *. cbn [length app] in *.
      rewrite getub_app_0, getub_0.
      rewrite to_uchar_small by exact Hx. rewrite Hx16.
      replace (pre ++ x :: stuff body ++ [16; 3])
        with ((pre ++ [x]) ++ stuff body ++ [16; 3])
        by (now rewrite <- app_assoc).
      rewrite (IH (pre ++ [x]) (acc ++ [x]) fuel
                 (Z.of_nat (length pre) + 1) L);
        try (rewrite ?length_app; cbn [length]; lia); auto.
      now rewrite <- app_assoc.
Qed.

(** X1. On a session that is not read-only, a payload of at least one
    byte and of at most half the message buffer passes the guards of
    [tsip_write1]; its frame is DLE, the payload with every DLE doubled,
    DLE ETX, of the length of the payload plus 3 plus the number of DLEs
    in the payload. When the frame fits the message buffer, it is what
    the buffer holds and what is handed to the device, no store goes past
    the end of the buffer, and the result is 0 if the device takes the
    whole frame and -1 if not. When it does not fit, which the guard
    allows for a payload of about half the size of the buffer that is
    nearly all DLEs, the copy loop stores past the end of the buffer. *)
Theorem tsip_write1_sends (E : driver_env) (session : gps_device_t)
    (buf : list Z) :
  readonly (context session) = false ->
  buf <> [] ->
  Z.of_nat (length buf) <= sizeof_msgbuf E / 2 ->
  let len := Z.of_nat (length buf) in
  let frame := 0x10 :: stuff buf ++ [0x10; 0x03] in
  let r := tsip_write1 E session (Some buf) len in
  (len + 3 + count_dle buf (length buf) <= sizeof_msgbuf E ->
   overrun (snd r) = overrun session /\
   wire (snd r) = wire session ++ [frame] /\
   msgbuf (snd r) = frame /\
   msgbuflen (snd r) = len + 3 + count_dle buf (length buf) /\
   ((forall s, gpsd_write_ret E s frame (msgbuflen (snd r))
               = msgbuflen (snd r)) -> fst r = 0) /\
   ((forall s, gpsd_write_ret E s frame (msgbuflen (snd r))
               <> msgbuflen (snd r)) -> fst r = -1)) /\
  (sizeof_msgbuf E < len + 3 + count_dle buf (length buf) ->
   overrun (snd r) = true).
Proof.
  intros Hro Hne Hlen len frame r. subst r.
  unfold tsip_write1. rewrite Hro.
  replace (len =? 0) with false
    by (symmetry; apply Z.eqb_neq; destruct buf; [congruence | cbn in len; lia]).
  replace (sizeof_msgbuf E / 2 <? len) with false
    by (symmetry; apply Z.ltb_ge; exact Hlen).
  cbn [orb]. cbv zeta.
  assert (Hcopy : tsip_write1_copy buf 0 (Z.to_nat len) = stuff buf)
    by (unfold len; rewrite Nat2Z.id; apply tsip_write1_copy_stuff).
  rewrite !Hcopy. fold frame.
  assert (Hfl : Z.of_nat (length frame) =
                len + 3 + count_dle buf (length buf)).
  { unfold frame. cbn [length]. rewrite length_app. cbn [length].
    pose proof (stuff_length buf). lia. }
  cbn [msgbuflen set_msgbuf]. unfold gpsd_write. split.
  - intros Hfit.
    replace (sizeof_msgbuf E <? Z.of_nat (length frame)) with false
      by (symmetry; apply Z.ltb_ge; lia).
    cbn [msgbuf msgbuflen set_msgbuf GPSD_LOG with_context set_wire wire
         fst snd].
    rewrite Nat2Z.id, firstn_all.
    match goal with
    | |- context [if negb (?a =? ?b) then _ else _] =>
        destruct (a =? b) eqn:Hret
    end; cbn [negb fst snd wire msgbuf msgbuflen set_wire overrun];
      (split; [reflexivity|]); (split; [reflexivity|]);
      (split; [reflexivity|]);
      (split; [exact Hfl|]); split; intros H; try reflexivity.
    + apply Z.eqb_eq in Hret. exfalso. eapply H. exact Hret.
    + apply Z.eqb_neq in Hret. exfalso. apply Hret. apply H.
  - intros Hbig.
    replace (sizeof_msgbuf E <? Z.of_nat (length frame)) with true
      by (symmetry; apply Z.ltb_lt; lia).
    match goal with
    | |- context [if negb ?c then _ else _] => destruct (negb c)
    end; reflexivity.
Qed.

Lemma tsip_write1_sends_witness :
  wire (snd (tsip_write1 env0 session0 (Some [0x8e; 0x10; 0x01]) 3)) =
  [[0x10; 0x8e; 0x10; 0x10; 0x01; 0x10; 0x03]] /\
  fst (tsip_write1 env0 session0 (Some [0x8e; 0x10; 0x01]) 3) = 0 /\
  overrun (snd (tsip_write1 env0 session0 (Some [0x8e; 0x10; 0x01]) 3)) =
  false /\
  overrun (snd (tsip_write1 env0 session0 (Some (replicate 512 0x10)) 512))
  = true.
Proof.
  destruct (tsip_write1_sends env0 session0 [0x8e; 0x10; 0x01])
    as (Hfits & _);
    [reflexivity | discriminate | vm_compute; discriminate |].
  destruct Hfits as (Hov & Hw & _ & _ & Hok & _);
    [vm_compute; discriminate|].
  split; [exact Hw|]. split; [apply Hok; reflexivity|].
  split; [exact Hov|].
  apply (proj2 (tsip_write1_sends env0 session0 (replicate 512 0x10)
                  ltac:(reflexivity) ltac:(discriminate)
                  ltac:(vm_compute; discriminate))).
  vm_compute. reflexivity.
Defined.

Lemma tsip_payload_inverts_stuffing_aux (id : Z) (body : list Z) :
  bytes (id :: body) -> id <> 0x10 ->
  let frame := 0x10 :: stuff (id :: body) ++ [0x10; 0x03] in
  getub frame 1 = id /\
  tsip_payload frame (Z.of_nat (length frame)) 2 (length frame) [] = body.
Proof.
  intros Hb Hid frame. subst frame.
  pose proof Hb as Hb'. apply Forall_cons in Hb'. destruct Hb' as [Hx Hbody].
  cbn [stuff flat_map]. fold (stuff body).
  rewrite to_uchar_small by exact Hx.
  replace (id =? 16) with false by (symmetry; now apply Z.eqb_neq).
  cbn [app]. split.
  - rewrite getub_1. now apply to_uchar_small.
  - change (16 :: id :: stuff body ++ [16; 3])
      with ([16; id] ++ stuff body ++ [16; 3]).
    rewrite (tsip_payload_stuff body [16; id] []); auto.
    + rewrite !length_app. cbn [length]. lia.
    + rewrite !length_app. cbn [length]. lia.
Qed.

(** X2. The payload loop of [tsip_parse_input] undoes the stuffing of
    [tsip_write1]: from the frame written for a packet id other than DLE
    followed by any bytes, it reads the id at offset 1 and recovers the
    bytes, whatever they are. *)
Theorem tsip_payload_inverts_stuffing (id : Z) (body : list Z) :
  bytes (id :: body) -> id <> 0x10 ->
  let frame := 0x10 :: stuff (id :: body) ++ [0x10; 0x03] in
  getub frame 1 = id /\
  tsip_payload frame (Z.of_nat (length frame)) 2 (length frame) [] = body.
Proof. exact (tsip_payload_inverts_stuffing_aux id body). Qed.

Lemma tsip_payload_inverts_stuffing_witness :
  tsip_payload [0x10; 0x8e; 0x10; 0x10; 0x03; 0x10; 0x03] 7 2 7 [] =
  [0x10; 0x03].
Proof.
  apply (proj2 (tsip_payload_inverts_stuffing 0x8e [0x10; 0x03]
                  ltac:(repeat constructor; lia) ltac:(discriminate))).
Defined.

Lemma tsip_payload_length (outbuffer : list Z) (L : Z) (fuel : nat) :
  forall (i : Z) (acc : list Z),
  Z.of_nat (length (tsip_payload outbuffer L i fuel acc)) <=
  Z.of_nat (length acc) + Z.max 0 (L - i).
Proof.
  induction fuel as [|fuel IH]; intros i acc; [cbn; lia|].
  cbn [tsip_payload].
  destruct (i <? L) eqn:Hi; [apply Z.ltb_lt in Hi | lia].
  destruct (getub outbuffer i =? 16).
  - cbv zeta. destruct (getub outbuffer (i + 1) =? 3); [lia|].
    specialize (IH (i + 1 + 1) (acc ++ [getub outbuffer (i + 1)])).
    rewrite length_app in IH. cbn [length] in IH. lia.
  - specialize (IH (i + 1) (acc ++ [getub outbuffer i])).
    rewrite length_app in IH. cbn [length] in IH. lia.
Qed.

(** The payload loop over bytes that hold no DLE copies them. *)
Lemma tsip_payload_plain (body : list Z) :
  forall (pre tail acc : list Z) (fuel : nat) (i L : Z),
  bytes body -> ~ In 0x10 body ->
  i = Z.of_nat (length pre) ->
  i + Z.of_nat (length body) <= L ->
  tsip_payload (pre ++ body ++ tail) L i (length body + fuel) acc =
  tsip_payload (pre ++ body ++ tail) L (i + Z.of_nat (length body)) fuel
    (acc ++ body).
Proof.
  induction body as [|x body IH]; intros pre tail acc fuel i L Hb Hn Hi HL.
  - cbn [length Nat.add app]. now rewrite Z.add_0_r, app_nil_r.
  - apply Forall_cons in Hb. destruct Hb as [Hx Hb].
    cbn [length] in HL. cbn [length Nat.add tsip_payload].
    replace (i <? L) with true by (symmetry; apply Z.ltb_lt; lia).
    subst i. cbn [app]. rewrite getub_app_0, getub_0.
    rewrite to_uchar_small by exact Hx.
    replace (x =? 16) with false
      by (symmetry; apply Z.eqb_neq; intros ->; apply Hn; now left).
    replace (pre ++ x :: body ++ tail) with ((pre ++ [x]) ++ body ++ tail)
      by (now rewrite <- app_assoc).
    rewrite (IH (pre ++ [x]) tail (acc ++ [x]) fuel
               (Z.of_nat (length pre) + 1) L);
      try (rewrite ?length_app; cbn [length]; lia); auto.
    + rewrite <- app_assoc, <- (app_assoc acc [x] body). cbn [app].
      now replace (Z.of_nat (length pre) + 1 + Z.of_nat (length body))
        with (Z.of_nat (length pre) + Z.of_nat (S (length body))) by lia.
    + intros Hin. apply Hn. now right.
Qed.

(** X3. The payload [tsip_parse_input] copies out of a lexer buffer of
    [outbuflen >= 2] bytes has at most [outbuflen - 2] bytes. Each of
    them is the byte of the buffer at an index from 2 to [outbuflen]
    inclusive: after a DLE in the last counted position the loop reads
    the byte at index [outbuflen], one past the counted bytes, and copies
    it unless it is ETX. *)
Theorem tsip_payload_bounded (outbuffer : list Z) (outbuflen : Z) :
  2 <= outbuflen ->
  let buf := tsip_payload outbuffer outbuflen 2 (Z.to_nat outbuflen) [] in
  Z.of_nat (length buf) <= outbuflen - 2 /\
  Forall (fun b => exists i : Z, 2 <= i <= outbuflen /\ b = getub outbuffer i)
    buf /\
  (forall (pre body rest : list Z) (x : Z),
     outbuffer = pre ++ body ++ [0x10; x] ++ rest ->
     length pre = 2%nat -> bytes body -> ~ In 0x10 body -> 0 <= x < 256 ->
     outbuflen = Z.of_nat (length body) + 3 ->
     getub outbuffer outbuflen = x /\
     buf = body ++ (if x =? 0x03 then [] else [x])).
Proof.
  intros HL buf. split; [|split].
  - pose proof (tsip_payload_length outbuffer outbuflen (Z.to_nat outbuflen)
                  2 []) as H.
    cbn [length] in H. subst buf. lia.
  - subst buf.
    set (P := fun b : Z =>
                exists i : Z, 2 <= i <= outbuflen /\ b = getub outbuffer i).
    assert (H : forall fuel i acc,
              2 <= i -> Forall P acc ->
              Forall P (tsip_payload outbuffer outbuflen i fuel acc)).
    { induction fuel as [|fuel IH]; intros i acc Hi Hacc; [exact Hacc|].
      cbn [tsip_payload].
      destruct (i <? outbuflen) eqn:Hlt; [|exact Hacc].
      apply Z.ltb_lt in Hlt.
      destruct (getub outbuffer i =? 16).
      - cbv zeta. destruct (getub outbuffer (i + 1) =? 3); [exact Hacc|].
        apply IH; [lia|]. apply Forall_app. split; [exact Hacc|].
        repeat constructor. exists (i + 1). split; [lia | reflexivity].
      - apply IH; [lia|]. apply Forall_app. split; [exact Hacc|].
        repeat constructor. exists i. split; [lia | reflexivity]. }
    apply H; [lia | constructor].
  - intros pre body rest x Hout Hpre Hb Hn Hx Hlen. subst buf.
    assert (Hidx : getub outbuffer outbuflen = x).
    { rewrite Hout, Hlen, app_assoc.
      replace (Z.of_nat (length body) + 3)
        with (Z.of_nat (length (pre ++ body)) + 1)
        by (rewrite length_app; lia).
      change ([16; x] ++ rest) with (16 :: x :: rest).
      rewrite getub_app_1, getub_1. now apply to_uchar_small. }
    split; [exact Hidx|].
    replace (Z.to_nat outbuflen) with (length body + 3)%nat by lia.
    rewrite Hout.
    rewrite (tsip_payload_plain body pre ([16; x] ++ rest) [] 3
               2 outbuflen Hb Hn) by lia.
    cbn [app tsip_payload].
    replace (2 + Z.of_nat (length body) <? outbuflen) with true
      by (symmetry; apply Z.ltb_lt; lia).
    assert (H16 : getub (pre ++ body ++ 16 :: x :: rest)
                    (2 + Z.of_nat (length body)) = 16).
    { rewrite app_assoc.
      replace (2 + Z.of_nat (length body))
        with (Z.of_nat (length (pre ++ body)))
        by (rewrite length_app; lia).
      now rewrite getub_app_0, getub_0. }
    assert (Hx1 : getub (pre ++ body ++ 16 :: x :: rest)
                    (2 + Z.of_nat (length body) + 1) = x).
    { rewrite app_assoc.
      replace (2 + Z.of_nat (length body) + 1)
        with (Z.of_nat (length (pre ++ body)) + 1)
        by (rewrite length_app; lia).
      rewrite getub_app_1, getub_1. now apply to_uchar_small. }
    rewrite H16, Hx1. cbn [Z.eqb Pos.eqb]. cbv zeta.
    destruct (x =? 3); [now rewrite app_nil_r|].
    replace (2 + Z.of_nat (length body) + 1 + 1 <? outbuflen) with false
      by (symmetry; apply Z.ltb_ge; lia).
    reflexivity.
Qed.

Lemma tsip_payload_bounded_witness :
  tsip_payload [0x10; 0x41; 1; 0x10; 85] 4 2 (Z.to_nat 4) [] = [1; 85].
Proof.
  apply (proj2 (proj2 (tsip_payload_bounded [0x10; 0x41; 1; 0x10; 85] 4
                         ltac:(lia)))
           [0x10; 0x41] [1] [] 85);
    [reflexivity | reflexivity | repeat constructor; lia
    | cbn; intros [H | []]; discriminate H | lia | reflexivity].
Defined.

(** ** The query scheduler *)

Lemma land_0xffff (x : Z) : Z.land x 0x0ffff = x mod 65536.
Proof. change 65535 with (Z.ones 16). now rewrite Z.land_ones by lia. Qed.

Lemma tsipv1_query_select_item (passive : bool) (item : Z)
    (snd_buf : list Z) (len : Z) :
  tsipv1_query_select passive item = Some (snd_buf, len) ->
  1 <= item <= 8.
Proof.
  unfold tsipv1_query_select. intros H.
  destruct item as [|p|p]; try discriminate H.
  do 4 (try destruct p as [p|p|]; try discriminate H); lia.
Qed.

Lemma tsipv1_query_queue (E : driver_env) (s : gps_device_t) :
  queue (tsipv1_query E s) = (queue s + 1) mod 65536.
Proof. rewrite <- land_0xffff. apply tsipv1_query_step. Qed.

Lemma tsipv1_query_iter_queue (E : driver_env) (n : nat) :
  forall s : gps_device_t,
  queue (Nat.iter (S n) (tsipv1_query E) s) =
  (queue s + Z.of_nat (S n)) mod 65536.
Proof.
  induction n as [|n IH]; intros s.
  - cbn [Nat.iter]. apply tsipv1_query_queue.
  - change (Nat.iter (S (S n)) (tsipv1_query E) s)
      with (tsipv1_query E (Nat.iter (S n) (tsipv1_query E) s)).
    rewrite tsipv1_query_queue, IH.
    rewrite Zplus_mod_idemp_l. f_equal. lia.
Qed.

(** X4. The counter of the query scheduler stays in [0, 0xffff]; after
    n >= 1 calls it is the old counter plus n modulo 0x10000, so the
    probes repeat every 65536 packets. A call puts a frame on the wire
    only when the new counter is 4, 8, ..., 32. *)
Theorem tsipv1_query_counter (E : driver_env) (s : gps_device_t) :
  (forall n : nat,
     (1 <= n)%nat ->
     queue (Nat.iter n (tsipv1_query E) s) =
       (queue s + Z.of_nat n) mod 65536 /\
     0 <= queue (Nat.iter n (tsipv1_query E) s) <= 0xffff) /\
  (wire (tsipv1_query E s) <> wire s ->
   exists k : Z, 1 <= k <= 8 /\ queue (tsipv1_query E s) = 4 * k).
Proof.
  split.
  - intros [|n] Hn; [lia|]. rewrite tsipv1_query_iter_queue.
    split; [reflexivity|].
    pose proof (Z.mod_pos_bound (queue s + Z.of_nat (S n)) 65536). lia.
  - intros Hw. rewrite tsipv1_query_queue, <- land_0xffff.
    unfold tsipv1_query in Hw. cbv zeta in Hw.
    cbn [queue set_queue context] in Hw.
    destruct (Z.land (queue s + 1) 65535 mod 4 =? 0) eqn:Hmod;
      cbn [negb wire set_queue] in Hw; [|congruence].
    apply Z.eqb_eq in Hmod.
    destruct (tsipv1_query_select _ _) as [[snd_buf len]|] eqn:Hsel;
      [|cbn [wire set_queue] in Hw; congruence].
    apply tsipv1_query_select_item in Hsel.
    exists (Z.land (queue s + 1) 65535 / 4). split; [exact Hsel|].
    pose proof (Z.div_mod (Z.land (queue s + 1) 65535) 4). lia.
Qed.

Lemma tsipv1_query_counter_witness :
  exists k : Z,
    1 <= k <= 8 /\ queue (tsipv1_query env0 (set_queue 7 session0)) = 4 * k.
Proof.
  apply (proj2 (tsipv1_query_counter env0 (set_queue 7 session0))).
  vm_compute. discriminate.
Defined.

(** ** TSIPv1 packets through [tsip_parse_input] *)

(** A lexer buffer with a TSIPv1 id goes to [tsipv1_parse], and the
    periodic requests of the older protocol are skipped. *)
Lemma tsip_parse_input_v1 (E : driver_env) (s : gps_device_t) :
  let lx := lexer s in
  let id := getub (outbuffer lx) 1 in
  let buf :=
    tsip_payload (outbuffer lx) (outbuflen lx) 2 (Z.to_nat (outbuflen lx))
      [] in
  type lx = TSIP_PACKET ->
  4 <= outbuflen lx ->
  getub (outbuffer lx) 0 = 0x10 ->
  is_tsipv1_id id = true ->
  exists e : log_entry,
    tsip_parse_input E s =
    tsipv1_parse E (logged [e] s) id buf (Z.of_nat (length buf)).
Proof.
  intros lx id buf Ht Hlen Hdle Hid.
  unfold tsip_parse_input. fold lx. rewrite Ht, Hdle. cbv zeta.
  replace (outbuflen lx <? 4) with false by (symmetry; apply Z.ltb_ge; lia).
  cbn [orb negb Z.eqb Pos.eqb]. fold id buf. rewrite Hid.
  rewrite GPSD_LOG_logged. eauto.
Qed.

(** X5. A frame of the query scheduler that comes back from the device as
    it was written is not decoded: [tsip_parse_input] returns an empty
    mask and the session is as before but for log entries; in particular
    the scheduler counter is not advanced and nothing is sent. *)
Theorem tsipv1_query_echo_not_decoded (E : driver_env) (s : gps_device_t)
    (passive : bool) (item : Z) (snd_buf : list Z) (len : Z) :
  tsipv1_query_select passive item = Some (snd_buf, len) ->
  let frame := 0x10 :: stuff (take (Z.to_nat len) snd_buf) ++ [0x10; 0x03] in
  let s_in :=
    set_lexer (mk_lexer TSIP_PACKET frame (Z.of_nat (length frame))) s in
  let r := tsip_parse_input E s_in in
  fst r = 0 /\ exists l : list log_entry, snd r = logged l s_in.
Proof.
  intros Hsel frame s_in r. subst r.
  assert (Hcases :
    exists (id : Z) (buf : list Z),
      frame = 0x10 :: stuff (id :: buf) ++ [0x10; 0x03] /\
      bytes (id :: buf) /\ is_tsipv1_id id = true /\
      envelope_ok id buf (Z.of_nat (length buf)) = false).
  { subst frame. unfold tsipv1_query_select in Hsel.
    destruct item as [|p|p]; try discriminate Hsel.
    do 4 (try destruct p as [p|p|]; try discriminate Hsel);
      try destruct passive; injection Hsel as <- <-;
      match goal with
      | |- context [take ?n ?b] =>
          let f := eval vm_compute in (take n b) in
          change (take n b) with f;
          match f with
          | ?i :: ?t => exists i, t
          end
      end;
      (split; [reflexivity|]);
      (split; [repeat constructor; lia|]);
      split; reflexivity. }
  destruct Hcases as (id & buf & Hframe & Hb & Hid & Henv).
  clearbody frame. subst frame.
  assert (Hne : id <> 0x10) by (intros ->; discriminate Hid).
  destruct (tsip_payload_inverts_stuffing_aux id buf Hb Hne) as [Hg Hp].
  set (frame := 0x10 :: stuff (id :: buf) ++ [0x10; 0x03]) in *.
  assert (Hlx : lexer s_in =
                mk_lexer TSIP_PACKET frame (Z.of_nat (length frame)))
    by reflexivity.
  destruct (tsip_parse_input_v1 E s_in) as [e He].
  - now rewrite Hlx.
  - rewrite Hlx. cbn [outbuflen]. unfold frame. cbn [length].
    rewrite length_app. cbn [length].
    pose proof (stuff_length (id :: buf)) as Hsl.
    unfold count_dle in Hsl. cbn [length] in Hsl. lia.
  - rewrite Hlx. reflexivity.
  - rewrite Hlx. cbn [outbuffer]. now rewrite Hg.
  - rewrite He, Hlx. cbn [outbuffer outbuflen].
    rewrite Hg, Nat2Z.id, Hp.
    destruct (tsipv1_parse_abort E (logged [e] s_in) id buf
                (Z.of_nat (length buf)) Henv) as [e' He'].
    rewrite He'. split; [reflexivity|].
    exists [e; e']. cbn [snd]. unfold logged, with_context, set_errout.
    cbn. now rewrite <- app_assoc.
Qed.

Lemma tsipv1_query_echo_not_decoded_witness :
  fst (tsip_parse_input env0
         (set_lexer
            (mk_lexer TSIP_PACKET
               [0x10; 0x90; 0x00; 0x00; 0x02; 0x00; 0x92; 0x10; 0x03] 9)
            session0)) = 0.
Proof.
  apply (proj1 (tsipv1_query_echo_not_decoded env0 session0 false 1
                  (tsipv1_query_frame 0x90 0x00) 6 eq_refl)).
Defined.

(** ** Rejections of the two dispatchers *)

(** X6. A TSIPv1 packet with a sound envelope whose declared length is
    below the minimum of its (id, sub-id) pair returns an empty mask and
    leaves the skyview and fix data of the session as they were. *)
Theorem tsipv1_parse_pair_minimum (E : driver_env) (session : gps_device_t)
    (id : Z) (buf : list Z) (len min : Z) :
  envelope_ok id buf len = true ->
  tsipv1_min_len id (getub buf 0) = Some min -> getbeu16 buf 1 < min ->
  let r := tsipv1_parse E session id buf len in
  fst r = 0 /\
  gpsdata (snd r) = gpsdata session /\ newdata (snd r) = newdata session.
Proof. exact (tsipv1_parse_short E session id buf len min). Qed.

Lemma tsipv1_parse_pair_minimum_witness :
  fst (tsipv1_parse env0 session0 0x90 v1_short_response 5) = 0.
Proof.
  apply (tsipv1_parse_pair_minimum env0 session0 0x90 v1_short_response 5 11);
    [reflexivity | reflexivity | vm_compute; reflexivity].
Defined.

(** X7. A packet of the older protocol whose payload is shorter than the
    constant minimum the dispatcher has for its id (for x1c and x8f: for
    its sub-code) returns an empty mask and leaves the skyview and fix
    data of the session as they were; the periodic requests that follow
    do not touch them either. *)
Theorem tsip_parse_input_id_minimum (E : driver_env)
    (session : gps_device_t) (min : Z) :
  let lx := lexer session in
  let id := getub (outbuffer lx) 1 in
  let buf :=
    tsip_payload (outbuffer lx) (outbuflen lx) 2 (Z.to_nat (outbuflen lx))
      [] in
  type lx = TSIP_PACKET ->
  is_tsipv1_id id = false ->
  tsip_min_len id buf = Some min -> Z.of_nat (length buf) < min ->
  let r := tsip_parse_input E session in
  fst r = 0 /\
  gpsdata (snd r) = gpsdata session /\ newdata (snd r) = newdata session.
Proof. exact (tsip_parse_input_short E session min). Qed.

Lemma tsip_parse_input_id_minimum_witness :
  fst (tsip_parse_input env0 session_x41_short) = 0.
Proof.
  apply (tsip_parse_input_id_minimum env0 session_x41_short 10);
    [reflexivity | reflexivity | reflexivity | vm_compute; reflexivity].
Defined.

Lemma tsipv1_switch_none (E : driver_env) (session : gps_device_t)
    (id sub_id : Z) (buf : list Z) (len length : Z) :
  tsipv1_min_len id sub_id = None ->
  exists e : log_entry,
    tsipv1_switch E session id sub_id buf len length =
    (0, false, logged [e] session).
Proof.
  unfold tsipv1_min_len, tsipv1_switch. intros H.
  destruct (Z.lor (Z.shiftl id 8) sub_id) as [|p|p];
    try (rewrite GPSD_LOG_logged; eauto; fail).
  switch_cases; try discriminate H; rewrite GPSD_LOG_logged; eauto.
Qed.

(** X8. A TSIPv1 packet with a sound envelope whose (id, sub-id) pair has
    no decoder (an unknown pair, the send-only pairs, the raw debug pairs
    xd0-40 and xd0-41) returns an empty mask; the session is as before
    but for log entries and for the step of the query scheduler, which
    runs all the same. *)
Theorem tsipv1_parse_no_decoder (E : driver_env) (session : gps_device_t)
    (id : Z) (buf : list Z) (len : Z) :
  envelope_ok id buf len = true ->
  tsipv1_min_len id (getub buf 0) = None ->
  let r := tsipv1_parse E session id buf len in
  fst r = 0 /\
  exists l : list log_entry, snd r = tsipv1_query E (logged l session).
Proof.
  intros Hok Hnone r. subst r.
  destruct (tsipv1_parse_pass E session id buf len Hok) as (e & e' & He).
  cbv zeta in He. rewrite He.
  destruct (tsipv1_switch_none E (logged [e] session) id (getub buf 0) buf
              len (getbeu16 buf 1) Hnone) as [e2 Hsw].
  rewrite Hsw. cbn [fst snd]. split; [reflexivity|].
  exists [e; e2]. f_equal.
  unfold logged, with_context, set_errout. cbn. now rewrite <- app_assoc.
Qed.

Lemma tsipv1_parse_no_decoder_witness :
  fst (tsipv1_parse env0 session0 0xa4
         [0x00; 0x00; 0x02; 0x02; 0xa4] 5) = 0.
Proof.
  apply (tsipv1_parse_no_decoder env0 session0 0xa4
           [0x00; 0x00; 0x02; 0x02; 0xa4] 5); reflexivity.
Defined.

(** X9. [tsip_parse_input] does nothing with a lexer buffer that is not
    a TSIP packet, is shorter than 4 bytes or does not start with DLE:
    the mask is empty, the session is as before but for one log entry,
    and no periodic request is sent. *)
Theorem tsip_parse_input_bad_buffer (E : driver_env) (s : gps_device_t) :
  type (lexer s) <> TSIP_PACKET \/ outbuflen (lexer s) < 4 \/
  getub (outbuffer (lexer s)) 0 <> 0x10 ->
  exists e : log_entry, tsip_parse_input E s = (0, logged [e] s).
Proof.
  intros H. unfold tsip_parse_input.
  destruct (type (lexer s)) as [|n] eqn:Ht.
  - destruct H as [H | [H | H]]; [congruence | |].
    + replace (outbuflen (lexer s) <? 4) with true
        by (symmetry; now apply Z.ltb_lt).
      cbn [orb]. rewrite GPSD_LOG_logged. eauto.
    + apply Z.eqb_neq in H. rewrite H. rewrite orb_true_r.
      rewrite GPSD_LOG_logged. eauto.
  - rewrite GPSD_LOG_logged. eauto.
Qed.

Lemma tsip_parse_input_bad_buffer_witness :
  exists e : log_entry, tsip_parse_input env0 session0 = (0, logged [e] session0).
Proof.
  apply tsip_parse_input_bad_buffer. right; left. vm_compute. reflexivity.
Defined.

(** ** The periodic requests *)

Lemma driver_tsip_tsip_write1 (E : driver_env) (s : gps_device_t)
    (buf : option (list Z)) (len : Z) :
  driver_tsip (snd (tsip_write1 E s buf len)) = driver_tsip s.
Proof. apply tsip_write1_frame. Qed.

Lemma driver_tsip_if_request (E : driver_env) (c : bool) (req : list Z)
    (set_last : Z -> tsip_t -> tsip_t) (now : Z) (s : gps_device_t) :
  driver_tsip (if c then tsip_request E req set_last now s else s) =
  if c then set_last now (driver_tsip s) else driver_tsip s.
Proof.
  destruct c; [|reflexivity]. unfold tsip_request. cbn.
  now rewrite driver_tsip_tsip_write1.
Qed.

Lemma driver_tsip_if_write1 (E : driver_env) (c : bool)
    (s' s : gps_device_t) (buf : option (list Z)) (len : Z) :
  driver_tsip (if c then snd (tsip_write1 E s' buf len) else s) =
  if c then driver_tsip s' else driver_tsip s.
Proof. destruct c; [apply driver_tsip_tsip_write1 | reflexivity]. Qed.

(** What the periodic requests do to the time stamps. *)
Lemma driver_tsip_requests (E : driver_env) (now : Z) (s : gps_device_t) :
  driver_tsip (tsip_requests E now s) =
  tsip_requests_tsip now (driver_tsip s).
Proof.
  unfold tsip_requests, tsip_requests_tsip. cbv zeta.
  rewrite driver_tsip_if_write1.
  cbn [driver_tsip GPSD_LOG with_context with_tsip].
  now rewrite !driver_tsip_if_request.
Qed.

(** Case analysis on the innermost test first. *)
Lemma tsip_requests_tsip_due (now : Z) (d : tsip_t) :
  nothing_due now (tsip_requests_tsip now d).
Proof.
  destruct d as [tow chan sats l41 l6d l48 l5c l46 rc sp].
  unfold tsip_requests_tsip, nothing_due. cbv zeta.
  cbn [last_41 last_6d last_48 last_5c last_46 req_compact superpkt].
  repeat (innermost_if;
          cbn [last_41 last_6d last_48 last_5c last_46 req_compact superpkt
               set_last_41 set_last_6d set_last_48 set_last_5c set_last_46
               set_req_compact last_tow last_chan_seen sats_used]);
    ltb_hyps; repeat split; intros; lia.
Qed.

Lemma tsip_requests_nothing_due (E : driver_env) (now : Z)
    (s : gps_device_t) :
  nothing_due now (driver_tsip s) -> tsip_requests E now s = s.
Proof.
  intros (H41 & H6d & H48 & H5c & H46 & Hrc).
  unfold tsip_requests. cbv zeta.
  replace (5 <? Z.abs (now - last_41 (driver_tsip s))) with false
    by (symmetry; apply Z.ltb_ge; lia).
  replace (5 <? Z.abs (now - last_6d (driver_tsip s))) with false
    by (symmetry; apply Z.ltb_ge; lia).
  replace ((superpkt (driver_tsip s) <? 1)
           && (60 <? Z.abs (now - last_48 (driver_tsip s)))) with false.
  2: { symmetry. apply andb_false_iff.
       destruct (Z.lt_ge_cases (superpkt (driver_tsip s)) 1);
         [right; apply Z.ltb_ge; auto | left; apply Z.ltb_ge; lia]. }
  replace (5 <? Z.abs (now - last_5c (driver_tsip s))) with false
    by (symmetry; apply Z.ltb_ge; lia).
  replace (5 <? Z.abs (now - last_46 (driver_tsip s))) with false
    by (symmetry; apply Z.ltb_ge; lia).
  replace ((0 <? req_compact (driver_tsip s))
           && (5 <? Z.abs (now - req_compact (driver_tsip s)))) with false.
  2: { symmetry. apply andb_false_iff.
       destruct (Z.lt_ge_cases 0 (req_compact (driver_tsip s)));
         [right; apply Z.ltb_ge; auto | left; apply Z.ltb_ge; lia]. }
  reflexivity.
Qed.

(** X10. After the periodic requests at the end of [tsip_parse_input] no
    polled report is due any more: each time stamp is within its interval
    of [now] (5 s; 60 s for the system message, asked only without
    superpackets), and a pending compact-superpacket request is either
    recent or given up. Fix and skyview data are not touched, and running
    the requests again at the same [now] changes nothing and sends
    nothing. *)
Theorem tsip_requests_settle (E : driver_env) (now : Z) (s : gps_device_t) :
  let s' := tsip_requests E now s in
  nothing_due now (driver_tsip s') /\
  gpsdata s' = gpsdata s /\ newdata s' = newdata s /\
  tsip_requests E now s' = s'.
Proof.
  intros s'. subst s'.
  assert (H : nothing_due now (driver_tsip (tsip_requests E now s)))
    by (rewrite driver_tsip_requests; apply tsip_requests_tsip_due).
  split; [exact H|].
  split; [apply tsip_requests_frame|].
  split; [apply tsip_requests_frame|].
  now apply tsip_requests_nothing_due.
Qed.

(** ** The satellite type remaps, band by band *)

(** X11. [tsip_gnssid] with SV type 0 on a PRN byte. SBAS is answered
    for PRN 33..54 and 134..138 only: the test for the SBAS band 120..138
    comes after the one for Galileo (97..133), so PRN 120..133 are Galileo
    with svid PRN - 96. A PRN outside every band gives gnssid 0, the id
    of GPS, with svid 0; inside a band the svid is never 0. *)
Theorem tsip_gnssid_bands (prn : Z) :
  0 <= prn <= 255 ->
  let r := tsip_gnssid 0 prn in
  (fst r = GNSSID_SBAS <-> 33 <= prn <= 54 \/ 134 <= prn <= 138) /\
  (fst r = GNSSID_GAL <-> 97 <= prn <= 133) /\
  (120 <= prn <= 133 -> r = (GNSSID_GAL, prn - 96)) /\
  (snd r = 0 <->
   prn = 0 \/ 55 <= prn <= 64 \/ 139 <= prn <= 182 \/ 184 <= prn <= 191 \/
   194 <= prn <= 199 \/ 238 <= prn) /\
  (snd r = 0 -> fst r = GNSSID_GPS).
Proof.
  intros Hprn r. subst r. unfold tsip_gnssid.
  cbn [Z.eqb]. 
  split_ifs; cbn [fst snd];
    unfold GNSSID_GPS, GNSSID_SBAS, GNSSID_GAL, GNSSID_GLO, GNSSID_BD,
      GNSSID_QZSS, to_uchar in *;
    repeat match goal with
           | H : (_ && _) = true |- _ =>
               apply andb_true_iff in H; destruct H
           | H : (_ && _) = false |- _ => apply andb_false_iff in H
           | H : (_ <? _) = true |- _ => apply Z.ltb_lt in H
           | H : (_ <? _) = false |- _ => apply Z.ltb_ge in H
           | H : (_ <=? _) = true |- _ => apply Z.leb_le in H
           | H : (_ <=? _) = false |- _ => apply Z.leb_gt in H
           | H : (_ =? _) = true |- _ => apply Z.eqb_eq in H
           | H : (_ =? _) = false |- _ => apply Z.eqb_neq in H
           end;
    repeat split; intros;
    try match goal with
        | |- (_, _) = (_, _) => f_equal
        end;
    try lia; Z.to_euclidean_division_equations; lia.
Qed.

Lemma tsip_gnssid_bands_witness :
  tsip_gnssid 0 125 = (GNSSID_GAL, 125 - 96).
Proof.
  apply (tsip_gnssid_bands 125 ltac:(lia)). lia.
Defined.

(** X12. [tsipv1_svtype] answers with the error value 0xff, for the
    gnssid and for the sigid together, exactly on the SV types it does not
    know (0, the reserved ones, everything above 26). On the others the
    gnssid is one of GPS, SBAS, Galileo, BeiDou, QZSS, GLONASS, IRNSS and
    the sigid is at most 8. *)
Theorem tsipv1_svtype_errors (svtype : Z) :
  let r := tsipv1_svtype svtype in
  (fst r = 0xff <-> existsb (Z.eqb svtype) v1_sv_types = false) /\
  (fst r = 0xff <-> snd r = 0xff) /\
  (existsb (Z.eqb svtype) v1_sv_types = true ->
   0 <= fst r <= 7 /\ fst r <> GNSSID_IMES /\ 0 <= snd r <= 8).
Proof.
  intros r. subst r. unfold tsipv1_svtype, v1_sv_types.
  destruct svtype as [|p|p];
    [cbn; repeat split; intros; (lia || discriminate) | |
     cbn; repeat split; intros; (lia || discriminate)].
  switch_cases; cbn;
    unfold GNSSID_GPS, GNSSID_SBAS, GNSSID_GAL, GNSSID_BD, GNSSID_QZSS,
      GNSSID_GLO, GNSSID_IRNSS, GNSSID_IMES;
    repeat split; intros; try lia; try discriminate; try reflexivity.
Qed.

Lemma tsipv1_svtype_errors_witness :
  0 <= fst (tsipv1_svtype 26) <= 7 /\
  fst (tsipv1_svtype 26) <> GNSSID_IMES /\ 0 <= snd (tsipv1_svtype 26) <= 8.
Proof.
  apply (tsipv1_svtype_errors 26). reflexivity.
Defined.

(** ** Superpacket x8f-20: week window, velocities, fix flags, PRN list *)

Lemma lor_bound (a b n : Z) :
  0 < n -> 0 <= a < 2 ^ n -> 0 <= b < 2 ^ n -> 0 <= Z.lor a b < 2 ^ n.
Proof.
  intros Hn Ha Hb. split; [apply Z.lor_nonneg; lia|].
  destruct (Z.eq_dec (Z.lor a b) 0) as [->|Hne]; [lia|].
  assert (0 <= Z.lor a b) by (apply Z.lor_nonneg; lia).
  apply Z.log2_lt_pow2; [lia|].
  rewrite Z.log2_lor by lia.
  apply Z.max_lub_lt.
  - destruct (Z.eq_dec a 0) as [->|]; [cbn; lia|].
    apply Z.log2_lt_pow2; lia.
  - destruct (Z.eq_dec b 0) as [->|]; [cbn; lia|].
    apply Z.log2_lt_pow2; lia.
Qed.

Lemma getbeu16_range (buf : list Z) (off : Z) :
  0 <= getbeu16 buf off < 65536.
Proof.
  unfold getbeu16.
  pose proof (getub_range buf off) as Ha.
  pose proof (getub_range buf (off + 1)) as Hb.
  change 65536 with (2 ^ 16).
  apply lor_bound; [lia| |lia].
  rewrite Z.shiftl_mul_pow2 by lia. lia.
Qed.

Lemma getbes16_range (buf : list Z) (off : Z) :
  -32768 <= getbes16 buf off < 32768.
Proof.
  unfold getbes16. cbv zeta.
  pose proof (getbeu16_range buf off) as H.
  destruct (32768 <=? getbeu16 buf off) eqn:Hs;
    [apply Z.leb_le in Hs | apply Z.leb_gt in Hs]; lia.
Qed.

Lemma x8f_20_week_window (ls week : Z) :
  17 < ls -> 0 <= week ->
  1930 <= x8f_20_week ls week /\
  x8f_20_week ls week mod 1024 = week mod 1024 /\
  (week < 1930 -> x8f_20_week ls week < 2954).
Proof.
  intros Hls Hw. unfold x8f_20_week.
  replace (17 <? ls) with true by (symmetry; apply Z.ltb_lt; lia).
  cbn [andb].
  destruct (week <? 1930) eqn:H1;
    [apply Z.ltb_lt in H1 | apply Z.ltb_ge in H1]; cbv zeta.
  - destruct (week + 1024 <? 1930) eqn:H2;
      [apply Z.ltb_lt in H2 | apply Z.ltb_ge in H2].
    + repeat split; try lia.
      replace (week + 1024 + 1024) with (week + 2 * 1024) by lia.
      apply Z.mod_add. lia.
    + repeat split; try lia.
      replace (week + 1024) with (week + 1 * 1024) by lia.
      apply Z.mod_add. lia.
  - repeat split; lia.
Qed.

(** X13. With more than 17 leap seconds in an x8f-20 packet, the week
    handed to the time resolver is never below 1930 and is the week of
    the packet modulo 1024; a packet week below 1930 lands in the window
    1930..2953. *)
Theorem x8f_20_week_in_window (E : driver_env) (session : gps_device_t)
    (buf : list Z) (length : Z) :
  17 < getub buf 29 ->
  exists week' : Z,
    time (newdata (snd (decode_x8f_20 E session buf length))) =
      fst (gpsd_gpstime_resolv E (x8f_20_context buf (context session))
             week' (MSTOTS (getbeu32 buf 8))) /\
    1930 <= week' /\
    week' mod 1024 = getbeu16 buf 30 mod 1024 /\
    (getbeu16 buf 30 < 1930 -> week' < 2954).
Proof.
  intros Hls. eexists. split; [apply decode_x8f_20_time|].
  replace (10 <? getub buf 29) with true by (symmetry; apply Z.ltb_lt; lia).
  apply x8f_20_week_window; [exact Hls|].
  apply getbeu16_range.
Qed.

Lemma x8f_20_week_in_window_witness :
  exists week' : Z,
    time (newdata (snd (decode_x8f_20 env0 session0
                          (x8f_20_packet 1000 0 0 4 18 100) 56))) =
      fst (gpsd_gpstime_resolv env0
             (x8f_20_context (x8f_20_packet 1000 0 0 4 18 100)
                (context session0))
             week' (MSTOTS 1000)) /\
    1930 <= week' /\
    week' mod 1024 = 100 /\
    week' < 2954.
Proof.
  destruct (x8f_20_week_in_window env0 session0
              (x8f_20_packet 1000 0 0 4 18 100) 56 ltac:(vm_compute; reflexivity))
    as (w & Ht & Hlo & Hmod & Hhi).
  exists w. split; [exact Ht|]. split; [exact Hlo|].
  split; [exact Hmod|]. apply Hhi. vm_compute. reflexivity.
Defined.

(** The velocities x8f-20 leaves in [newdata]. *)
Lemma decode_x8f_20_vel (E : driver_env) (session : gps_device_t)
    (buf : list Z) (length : Z) :
  let d4 :=
    if negb (Z.land (getub buf 24) 0x01 =? 0) then 0.02%float
    else 0.005%float in
  let f := newdata (snd (decode_x8f_20 E session buf length)) in
  velN f =
    (if negb (getbes16 buf 4 =? 0x8000)
     then (double_of_Z (getbes16 buf 4) * d4)%float
     else velN (newdata session)) /\
  velE f =
    (if negb (getbes16 buf 2 =? -32768)
     then (double_of_Z (getbes16 buf 2) * d4)%float
     else velE (newdata session)) /\
  velD f =
    (if negb (getbes16 buf 6 =? -32768)
     then (- (double_of_Z (getbes16 buf 6) * d4))%float
     else velD (newdata session)).
Proof.
  unfold decode_x8f_20. cbv zeta. rewrite resolv_pair.
  destruct (MAXCHANNELS E <? getub buf 28); cbn;
    repeat match goal with
           | |- context [if ?c then _ else _] => destruct c
           end;
    cbn; auto.
Qed.

(** X14. The over-range test of x8f-20 compares the north velocity, a
    signed 16 bit value, with 32768, which it never is: the north
    velocity is stored from every packet, also from the over-range value
    -32768. The east and the up velocity are compared with -32768 and
    are left as they were on it. *)
Theorem x8f_20_velocity_over_range (E : driver_env)
    (session : gps_device_t) (buf : list Z) (length : Z) :
  let d4 :=
    if negb (Z.land (getub buf 24) 0x01 =? 0) then 0.02%float
    else 0.005%float in
  let f := newdata (snd (decode_x8f_20 E session buf length)) in
  velN f = (double_of_Z (getbes16 buf 4) * d4)%float /\
  (getbes16 buf 2 = -32768 -> velE f = velE (newdata session)) /\
  (getbes16 buf 2 <> -32768 ->
   velE f = (double_of_Z (getbes16 buf 2) * d4)%float) /\
  (getbes16 buf 6 = -32768 -> velD f = velD (newdata session)) /\
  (getbes16 buf 6 <> -32768 ->
   velD f = (- (double_of_Z (getbes16 buf 6) * d4))%float).
Proof.
  intros d4 f.
  destruct (decode_x8f_20_vel E session buf length) as (HN & HE & HD).
  fold d4 f in HN, HE, HD.
  pose proof (getbes16_range buf 4) as Hr.
  replace (getbes16 buf 4 =? 32768) with false in HN
    by (symmetry; apply Z.eqb_neq; lia).
  split; [exact HN|].
  split; [|split; [|split]]; intros H.
  - rewrite HE, H. reflexivity.
  - rewrite HE. apply Z.eqb_neq in H. now rewrite H.
  - rewrite HD, H. reflexivity.
  - rewrite HD. apply Z.eqb_neq in H. now rewrite H.
Qed.

Lemma x8f_20_velocity_over_range_witness :
  let buf := replicate 2 0 ++ [0x80; 0; 0x80; 0; 0x80; 0] ++ replicate 48 0 in
  let f := newdata (snd (decode_x8f_20 env0 session0 buf 56)) in
  velN f = (double_of_Z (-32768) * 0.005)%float /\
  velE f = velE (newdata session0) /\
  velD f = velD (newdata session0).
Proof.
  intros buf f.
  destruct (x8f_20_velocity_over_range env0 session0 buf 56)
    as (HN & HE & _ & HD & _).
  split; [exact HN|].
  split; [apply HE | apply HD]; vm_compute; reflexivity.
Defined.

(** The status and the mode x8f-20 leaves in [newdata]. *)
Lemma decode_x8f_20_status_mode (E : driver_env) (session : gps_device_t)
    (buf : list Z) (length : Z) :
  let fflags := getub buf 27 in
  let f := newdata (snd (decode_x8f_20 E session buf length)) in
  status f =
    (if Z.land fflags 0x01 =? 0 then
       if negb (Z.land fflags 0x02 =? 0) then STATUS_DGPS else STATUS_GPS
     else STATUS_UNK) /\
  mode f =
    (if Z.land fflags 0x01 =? 0 then
       if negb (Z.land fflags 0x04 =? 0) then MODE_2D else MODE_3D
     else MODE_NO_FIX).
Proof.
  unfold decode_x8f_20. cbv zeta. rewrite resolv_pair.
  destruct (MAXCHANNELS E <? getub buf 28); cbn;
    repeat match goal with
           | |- context [if ?c then _ else _] => destruct c
           end;
    cbn; auto.
Qed.

(** X15. An x8f-20 packet whose fix flags say that no fix is available
    (bit 0 set) leaves status unknown and mode no-fix, whatever the DGPS
    and dimension bits say; it still reports STATUS_SET, MODE_SET,
    LATLON_SET, ALTITUDE_SET and VNED_SET when its satellite count fits.
    With bit 0 clear the status is DGPS or GPS by bit 1 and the mode 2D
    or 3D by bit 2. *)
Theorem x8f_20_fix_flags (E : driver_env) (session : gps_device_t)
    (buf : list Z) (length : Z) :
  let fflags := getub buf 27 in
  let r := decode_x8f_20 E session buf length in
  let f := newdata (snd r) in
  (Z.land fflags 0x01 <> 0 ->
   status f = STATUS_UNK /\ mode f = MODE_NO_FIX) /\
  (Z.land fflags 0x01 = 0 ->
   status f = (if Z.land fflags 0x02 =? 0 then STATUS_GPS else STATUS_DGPS) /\
   mode f = (if Z.land fflags 0x04 =? 0 then MODE_3D else MODE_2D)) /\
  (getub buf 28 <= MAXCHANNELS E ->
   forall flag : Z,
     In flag [STATUS_SET; MODE_SET; LATLON_SET; ALTITUDE_SET; VNED_SET;
              TIME_SET; NTPTIME_IS] ->
     mask_has (fst r) flag = true).
Proof.
  intros fflags r f. subst f r.
  destruct (decode_x8f_20_status_mode E session buf length) as (Hs & Hm).
  cbv zeta in Hs, Hm. fold fflags in Hs, Hm.
  split; [|split].
  - intros H. apply Z.eqb_neq in H. rewrite H in Hs, Hm. now split.
  - intros H. apply Z.eqb_eq in H. rewrite H in Hs, Hm.
    rewrite Hs, Hm.
    split; [now destruct (Z.land fflags 2 =? 0) |
            now destruct (Z.land fflags 4 =? 0)].
  - intros Hn flag Hin. rewrite decode_x8f_20_mask.
    replace (MAXCHANNELS E <? getub buf 28) with false
      by (symmetry; apply Z.ltb_ge; exact Hn).
    cbv zeta.
    destruct (negb (TS_EQ (MSTOTS (getbeu32 buf 8))
                      (last_tow (driver_tsip session))));
      cbn [In] in Hin;
      repeat (destruct Hin as [<- | Hin]; [vm_compute; reflexivity|]);
      contradiction.
Qed.

Lemma x8f_20_fix_flags_witness :
  let buf := replicate 27 0 ++ [0x07] ++ replicate 28 0 in
  let r := decode_x8f_20 env0 session0 buf 56 in
  status (newdata (snd r)) = STATUS_UNK /\
  mode (newdata (snd r)) = MODE_NO_FIX /\
  mask_has (fst r) STATUS_SET = true.
Proof.
  intros buf r.
  destruct (x8f_20_fix_flags env0 session0 buf 56) as (Hno & _ & Hmask).
  destruct Hno as (Hs & Hm); [vm_compute; discriminate|].
  split; [exact Hs|]. split; [exact Hm|].
  apply Hmask; [vm_compute; discriminate | cbn; auto].
Defined.

(** The store loop of x8f-20, entry by entry. *)
Lemma x8f_20_sats_lookup (buf : list Z) (len : Z) (n : nat) :
  forall (k : nat) (sats : list Z) (j : nat),
  x8f_20_sats buf len (Z.of_nat k) n sats !! j =
  if decide ((k <= j < k + n)%nat /\ (j < length sats)%nat /\
             33 + Z.of_nat j * 2 <= len)
  then Some (Z.land (getub buf (32 + Z.of_nat j * 2)) 0x1f)
  else sats !! j.
Proof.
  induction n as [|n IH]; intros k sats j; cbn [x8f_20_sats].
  - destruct (decide _); [lia | reflexivity].
  - destruct (len <? 33 + Z.of_nat k * 2) eqn:Hlen;
      [apply Z.ltb_lt in Hlen | apply Z.ltb_ge in Hlen].
    + destruct (decide _); [lia | reflexivity].
    + replace (Z.of_nat k + 1) with (Z.of_nat (S k)) by lia.
      rewrite IH, length_insert, Nat2Z.id, list_lookup_insert.
      repeat destruct (decide _); try reflexivity; try lia.
      destruct a as [-> _]. reflexivity.
Qed.

Lemma x8f_20_sats_length (buf : list Z) (len : Z) (n : nat) :
  forall (i : Z) (sats : list Z),
  length (x8f_20_sats buf len i n sats) = length sats.
Proof.
  induction n as [|n IH]; intros i sats; cbn [x8f_20_sats]; [reflexivity|].
  destruct (len <? 33 + i * 2); [reflexivity|].
  now rewrite IH, length_insert.
Qed.

Lemma decode_x8f_20_sats_used (E : driver_env) (session : gps_device_t)
    (buf : list Z) (length : Z) :
  sats_used (driver_tsip (snd (decode_x8f_20 E session buf length))) =
  if MAXCHANNELS E <? getub buf 28 then
    replicate (Z.to_nat (MAXCHANNELS E)) 0
  else
    x8f_20_sats buf length 0 (Z.to_nat (getub buf 28))
      (replicate (Z.to_nat (MAXCHANNELS E)) 0).
Proof.
  unfold decode_x8f_20. cbv zeta. rewrite resolv_pair.
  destruct (MAXCHANNELS E <? getub buf 28); cbn;
    destruct (negb (TS_EQ (MSTOTS (getbeu32 buf 8))
                      (last_tow (driver_tsip session)))); reflexivity.
Qed.

(** X16. The list of satellites used that x8f-20 leaves has MAXCHANNELS
    entries. When the satellite count of the packet fits, entry j below
    the count is the low five bits of byte 32 + 2j if the packet is long
    enough to hold that byte and the one after it (33 + 2j <= length),
    and 0 if not; every entry from the count on is 0. *)
Theorem x8f_20_sats_used (E : driver_env) (session : gps_device_t)
    (buf : list Z) (length : Z) :
  getub buf 28 <= MAXCHANNELS E ->
  let numSV := getub buf 28 in
  let sats :=
    sats_used (driver_tsip (snd (decode_x8f_20 E session buf length))) in
  Z.of_nat (List.length sats) = MAXCHANNELS E /\
  (forall j : Z, 0 <= j < numSV ->
     sats !! Z.to_nat j =
     Some (if 33 + j * 2 <=? length
           then Z.land (getub buf (32 + j * 2)) 0x1f else 0)) /\
  (forall j : Z, numSV <= j < MAXCHANNELS E -> sats !! Z.to_nat j = Some 0).
Proof.
  intros Hn numSV sats. subst sats.
  rewrite decode_x8f_20_sats_used.
  replace (MAXCHANNELS E <? getub buf 28) with false
    by (symmetry; apply Z.ltb_ge; exact Hn).
  fold numSV.
  pose proof (getub_range buf 28) as Hr. fold numSV in Hr, Hn.
  split; [|split].
  - rewrite x8f_20_sats_length, length_replicate. lia.
  - intros j Hj. change 0 with (Z.of_nat 0) at 1.
    rewrite x8f_20_sats_lookup, length_replicate, Z2Nat.id by lia.
    destruct (33 + j * 2 <=? length) eqn:Hl;
      [apply Z.leb_le in Hl | apply Z.leb_gt in Hl];
      destruct (decide _); try reflexivity; try lia.
    apply lookup_replicate_2. lia.
  - intros j Hj. change 0 with (Z.of_nat 0) at 1.
    rewrite x8f_20_sats_lookup.
    destruct (decide _); [lia|].
    apply lookup_replicate_2. lia.
Qed.

Lemma x8f_20_sats_used_witness :
  let buf := replicate 28 0 ++ [2; 0; 0; 0; 0xe5; 9; 0xff; 9] in
  let sats := sats_used (driver_tsip (snd (decode_x8f_20 env0 session0 buf 33))) in
  sats !! Z.to_nat 0 = Some 5 /\ sats !! Z.to_nat 1 = Some 0.
Proof.
  intros buf sats.
  destruct (x8f_20_sats_used env0 session0 buf 33) as (_ & Hlow & _);
    [vm_compute; discriminate|].
  split; [apply (Hlow 0) | apply (Hlow 1)]; vm_compute; split; congruence.
Defined.

(** ** Superpacket x8f-23: the compact packet *)

(** X17. The compact superpacket x8f-23 hands the week of the packet to
    the time resolver as it is, with no rollover correction, in a context
    that holds the leap seconds of the packet when these exceed 10. Its
    mask holds CLEAR_IS exactly when the time of week differs from the
    stored one, whatever else the packet says; afterwards the time of
    week of the packet is the stored one, the pending request for the
    compact packet is cleared, and a second packet with the same time of
    week returns no CLEAR_IS. *)
Theorem x8f_23_week_and_epoch (E : driver_env) (session : gps_device_t)
    (buf : list Z) :
  let tow := MSTOTS (getbeu32 buf 1) in
  let ls := getub buf 7 in
  let r := decode_x8f_23 E session buf in
  (exists c : gps_context_t,
     time (newdata (snd r)) =
       fst (gpsd_gpstime_resolv E c (getbeu16 buf 5) tow) /\
     leap_seconds c =
       (if 10 <? ls then ls else leap_seconds (context session))) /\
  (mask_has (fst r) CLEAR_IS = true <->
   tow <> last_tow (driver_tsip session)) /\
  last_tow (driver_tsip (snd r)) = tow /\
  req_compact (driver_tsip (snd r)) = 0 /\
  (forall buf2 : list Z,
     MSTOTS (getbeu32 buf2 1) = tow ->
     mask_has (fst (decode_x8f_23 E (snd r) buf2)) CLEAR_IS = false).
Proof.
  intros tow ls r. subst r.
  assert (Hmask : forall (s : gps_device_t) (b : list Z),
            mask_has (fst (decode_x8f_23 E s b)) CLEAR_IS =
            negb (TS_EQ (MSTOTS (getbeu32 b 1)) (last_tow (driver_tsip s)))).
  { intros s b. unfold decode_x8f_23. cbv zeta. rewrite resolv_pair. cbn.
    now destruct (TS_EQ (MSTOTS (getbeu32 b 1)) (last_tow (driver_tsip s))). }
  assert (Htow : last_tow (driver_tsip (snd (decode_x8f_23 E session buf))) =
                 tow).
  { unfold decode_x8f_23. cbv zeta. rewrite resolv_pair. cbn. fold tow.
    destruct (TS_EQ tow (last_tow (driver_tsip session))) eqn:Heq; cbn;
      [symmetry; now apply TS_EQ_true | reflexivity]. }
  split; [|split; [|split; [|split]]].
  - unfold decode_x8f_23. cbv zeta. rewrite resolv_pair.
    match goal with
    | |- context [gpsd_gpstime_resolv E ?c _ _] => exists c
    end.
    split; cbn; fold ls.
    + repeat match goal with
             | |- context [if ?c then _ else _] => destruct c
             end;
        reflexivity.
    + now destruct (10 <? ls).
  - rewrite Hmask. fold tow.
    destruct (TS_EQ tow (last_tow (driver_tsip session))) eqn:Heq; cbn.
    + apply TS_EQ_true in Heq. split; [discriminate | contradiction].
    + split; [|reflexivity]. intros _ Habs.
      apply TS_EQ_true in Habs. congruence.
  - exact Htow.
  - unfold decode_x8f_23. cbv zeta. rewrite resolv_pair. reflexivity.
  - intros buf2 H2. rewrite Hmask, Htow, H2, TS_EQ_refl. reflexivity.
Qed.

Lemma x8f_23_week_and_epoch_witness :
  let buf := [0x23; 0; 0; 3; 232; 0; 100; 18] ++ replicate 21 0 in
  mask_has (fst (decode_x8f_23 env0 session0 buf)) CLEAR_IS = true /\
  mask_has (fst (decode_x8f_23 env0
                   (snd (decode_x8f_23 env0 session0 buf)) buf)) CLEAR_IS
  = false.
Proof.
  intros buf.
  destruct (x8f_23_week_and_epoch env0 session0 buf)
    as (_ & Hc & _ & _ & Hnext).
  split; [apply Hc; vm_compute; discriminate | apply Hnext; reflexivity].
Defined.

(** ** Packet x57: information about the last computed fix *)

(** X18. Packet x57 resolves a time and drops it: [newdata] is left as
    it was by every x57 packet. With source of information 1 the mask
    returned still holds TIME_SET and NTPTIME_IS, and CLEAR_IS exactly
    when the time of week differs from the stored one, which it then
    replaces. With any other source the mask is empty and the stored time
    of week is kept. *)
Theorem x57_time_dropped (E : driver_env) (session : gps_device_t)
    (buf : list Z) :
  let ts_tow := DTOTS E (getbef32 buf 2) in
  let r := decode_x57 E session buf in
  newdata (snd r) = newdata session /\
  gpsdata (snd r) = gpsdata session /\
  (getub buf 0 = 1 ->
   mask_has (fst r) TIME_SET = true /\
   mask_has (fst r) NTPTIME_IS = true /\
   (mask_has (fst r) CLEAR_IS = true <->
    ts_tow <> last_tow (driver_tsip session)) /\
   last_tow (driver_tsip (snd r)) = ts_tow) /\
  (getub buf 0 <> 1 ->
   fst r = 0 /\
   last_tow (driver_tsip (snd r)) = last_tow (driver_tsip session)).
Proof.
  intros ts_tow r. subst r. unfold decode_x57. cbv zeta.
  rewrite resolv_snd. fold ts_tow.
  destruct (getub buf 0 =? 1) eqn:Hu;
    [apply Z.eqb_eq in Hu | apply Z.eqb_neq in Hu].
  - cbn. split; [reflexivity|]. split; [reflexivity|].
    split; [|intros; contradiction]. intros _.
    destruct (TS_EQ ts_tow (last_tow (driver_tsip session))) eqn:Heq; cbn.
    + apply TS_EQ_true in Heq.
      repeat split; try reflexivity; try discriminate; try contradiction.
      now symmetry.
    + repeat split; try reflexivity.
      intros _ Habs. apply TS_EQ_true in Habs. congruence.
  - cbn. split; [reflexivity|]. split; [reflexivity|].
    split; [intros; contradiction|]. intros _. now split.
Qed.

Lemma x57_time_dropped_witness :
  let buf := [1; 0; 0; 0; 0; 0; 8; 100] in
  newdata (snd (decode_x57 env0 session0 buf)) = newdata session0 /\
  mask_has (fst (decode_x57 env0 session0 buf)) TIME_SET = true.
Proof.
  intros buf.
  destruct (x57_time_dropped env0 session0 buf) as (Hn & _ & H1 & _).
  split; [exact Hn|]. apply H1. reflexivity.
Defined.

(** ** Packet x13: the request that could not be parsed *)

(** X19. A x13 report asks for the superpacket x8f-20 (request 8e-20 01)
    when it names request 8e-23, and sends nothing for any other
    request. The second byte of the named request counts only when the
    report has at least two bytes: a report of one byte sends nothing,
    whatever follows it in the buffer. The mask returned is always
    empty. *)
Theorem x13_fallback_request (E : driver_env) (session : gps_device_t)
    (buf : list Z) (len : Z) :
  readonly (context session) = false ->
  3 <= sizeof_msgbuf E / 2 ->
  let r := decode_x13 E session buf len in
  fst r = 0 /\
  (getub buf 0 = 0x8e -> getub buf 1 = 0x23 -> 2 <= len ->
   wire (snd r) = wire session ++ [[0x10; 0x8e; 0x20; 0x01; 0x10; 0x03]]) /\
  (getub buf 0 <> 0x8e \/ getub buf 1 <> 0x23 \/ len < 2 ->
   wire (snd r) = wire session).
Proof.
  intros Hro Hsz r. subst r. unfold decode_x13. cbv zeta.
  split; [reflexivity|]. split.
  - intros H0 H1 Hlen.
    replace (2 <=? len) with true by (symmetry; apply Z.leb_le; lia).
    rewrite H0, H1. cbn [Z.eqb Pos.eqb andb snd].
    unfold tsip_write1. cbn [context GPSD_LOG with_context readonly].
    cbn. rewrite Hro.
    replace (sizeof_msgbuf E / 2 <? 3) with false
      by (symmetry; apply Z.ltb_ge; lia).
    cbn.
    repeat match goal with
           | |- context [if ?c then _ else _] => destruct c
           end; reflexivity.
  - intros H.
    assert (Hc : (getub buf 0 =? 142) &&
                 ((if 2 <=? len then getub buf 1 else 0) =? 35) = false).
    { apply andb_false_iff.
      destruct (Z.eq_dec (getub buf 0) 142) as [H0|H0];
        [right | left; now apply Z.eqb_neq].
      destruct (2 <=? len) eqn:Hl;
        [apply Z.leb_le in Hl | reflexivity].
      apply Z.eqb_neq. lia. }
    rewrite Hc. reflexivity.
Qed.

Lemma x13_fallback_request_witness :
  wire (snd (decode_x13 env0 session0 [0x8e; 0x23] 2)) =
    [[0x10; 0x8e; 0x20; 0x01; 0x10; 0x03]] /\
  wire (snd (decode_x13 env0 session0 [0x8e; 0x23] 1)) = [].
Proof.
  destruct (x13_fallback_request env0 session0 [0x8e; 0x23] 2
              ltac:(reflexivity) ltac:(vm_compute; discriminate))
    as (_ & Hs & _).
  destruct (x13_fallback_request env0 session0 [0x8e; 0x23] 1
              ltac:(reflexivity) ltac:(vm_compute; discriminate))
    as (_ & _ & Hn).
  split; [apply Hs; vm_compute; congruence | apply Hn; right; right; lia].
Defined.

(** ** Packets x5c and x5d: the skyview table *)

Lemma shiftr3_byte (u : Z) : 0 <= u < 256 -> 0 <= Z.shiftr u 3 < 32.
Proof.
  intros Hu. rewrite Z.shiftr_div_pow2 by lia. change (2 ^ 3) with 8.
  split; [apply Z.div_pos; lia | apply Z.div_lt_upper_bound; lia].
Qed.

(** X20. The channel of an x5c packet is the upper five bits of a byte,
    so it is below 32 and the table of TSIP_CHANNELS (64) entries is
    never exceeded: every x5c packet counts. A packet of channel 0 first
    makes the last channel seen the published count; then SATELLITE_SET
    is raised exactly when the channel plus one is at least the published
    count, and the count becomes the larger of the two. *)
Theorem x5c_channel_count (E : driver_env) (session : gps_device_t)
    (buf : list Z) :
  let i := Z.shiftr (getub buf 1) 3 in
  let published := x5d_published session i in
  let r := decode_x5c E session buf in
  0 <= i < 32 /\
  last_chan_seen (driver_tsip (snd r)) = i /\
  (mask_has (fst r) SATELLITE_SET = true <-> published <= i + 1) /\
  satellites_visible (gpsdata (snd r)) = Z.max published (i + 1).
Proof.
  intros i published r. subst r.
  assert (Hi : 0 <= i < 32) by (apply shiftr3_byte, getub_range).
  split; [exact Hi|].
  unfold decode_x5c. cbv zeta. fold i.
  replace (i <? TSIP_CHANNELS) with true
    by (symmetry; apply Z.ltb_lt; unfold TSIP_CHANNELS; lia).
  subst published. unfold x5d_published.
  destruct (PrimFloat.ltb 0 (getbef32 buf 8)); [rewrite resolv_pair|];
    cbn; destruct (i =? 0); cbn;
    match goal with
    | |- context [?a <=? ?b] =>
        destruct (a <=? b) eqn:Hle;
        [apply Z.leb_le in Hle | apply Z.leb_gt in Hle]
    end;
    destruct ((Z.land 16 (getub buf 3) =? 16) && (getub buf 3 =? 51));
    cbn; (split; [reflexivity|]);
    (split; [split; [intros H; (exact Hle || discriminate H)
                    | intros H; (reflexivity || lia)]
            | lia]).
Qed.

Lemma x5c_channel_count_witness :
  let buf := [7; 24] ++ replicate 19 0 in
  mask_has (fst (decode_x5c env0 session_after_burst buf)) SATELLITE_SET
  = true.
Proof.
  intros buf.
  destruct (x5c_channel_count env0 session_after_burst buf)
    as (_ & _ & Hm & _).
  apply Hm. vm_compute. discriminate.
Defined.

(** The table x5c leaves. *)
Lemma decode_x5c_skyview (E : driver_env) (session : gps_device_t)
    (buf : list Z) :
  let i := Z.to_nat (Z.shiftr (getub buf 1) 3) in
  let eflag := getub buf 3 in
  let sky := skyview (gpsdata session) in
  skyview (gpsdata (snd (decode_x5c E session buf))) =
  <[i := mk_satellite (getub buf 0) (getbef32 buf 4)
           (getbef32 buf 12 * RAD_2_DEG)%float
           (getbef32 buf 16 * RAD_2_DEG)%float
           (Z.land 0x10 eflag =? 0x10)
           (fst (tsip_gnssid 0 (getub buf 0)))
           (snd (tsip_gnssid 0 (getub buf 0)))
           (if Z.land 2 eflag =? 2 then SAT_HEALTH_OK
            else if eflag =? 1 then SAT_HEALTH_BAD
            else health (default sat0 (sky !! i)))]> sky.
Proof.
  intros i eflag sky.
  pose proof (shiftr3_byte (getub buf 1) (getub_range buf 1)) as Hi.
  unfold decode_x5c. cbv zeta.
  replace (Z.shiftr (getub buf 1) 3 <? TSIP_CHANNELS) with true
    by (symmetry; apply Z.ltb_lt; unfold TSIP_CHANNELS; lia).
  fold i eflag.
  destruct (PrimFloat.ltb 0 (getbef32 buf 8)); [rewrite resolv_pair|];
    cbn; fold i eflag;
    destruct (Z.shiftr (getub buf 1) 3 =? 0); cbn;
    match goal with
    | |- context [?a <=? ?b] => destruct (a <=? b)
    end; reflexivity.
Qed.

(** X21. An x5c packet rewrites the entry of its channel in the skyview
    table and no other; the table keeps its length. In the entry, the
    satellite is used exactly when bit 4 of the ephemeris flag is set,
    gnssid and svid are those [tsip_gnssid] gives for SV type 0, and the
    health is OK when bit 1 of the flag is set, bad when the flag is 1,
    and otherwise the health the entry had before. *)
Theorem x5c_skyview_entry (E : driver_env) (session : gps_device_t)
    (buf : list Z) (old : satellite_t) :
  let i := Z.to_nat (Z.shiftr (getub buf 1) 3) in
  let eflag := getub buf 3 in
  let sky := skyview (gpsdata session) in
  let sky' := skyview (gpsdata (snd (decode_x5c E session buf))) in
  sky !! i = Some old ->
  length sky' = length sky /\
  (forall j : nat, j <> i -> sky' !! j = sky !! j) /\
  exists sat : satellite_t,
    sky' !! i = Some sat /\
    PRN sat = getub buf 0 /\
    (gnssid sat, svid sat) = tsip_gnssid 0 (getub buf 0) /\
    used sat = (Z.land 0x10 eflag =? 0x10) /\
    health sat =
      (if Z.land 2 eflag =? 2 then SAT_HEALTH_OK
       else if eflag =? 1 then SAT_HEALTH_BAD
       else health old).
Proof.
  intros i eflag sky sky' Hold. subst sky'.
  rewrite decode_x5c_skyview. cbv zeta. fold i eflag sky.
  rewrite Hold. cbn [default].
  split; [apply length_insert|].
  split; [intros j Hj; apply list_lookup_insert_ne; congruence|].
  eexists. split.
  - apply list_lookup_insert_eq. apply lookup_lt_is_Some. now exists old.
  - cbn [PRN gnssid svid used health].
    split; [reflexivity|].
    split; [symmetry; apply surjective_pairing|].
    split; reflexivity.
Qed.

Lemma x5c_skyview_entry_witness :
  let buf := [7; 24; 0; 0x10] ++ replicate 17 0 in
  exists sat : satellite_t,
    skyview (gpsdata (snd (decode_x5c env0 session0 buf))) !! 3%nat
    = Some sat /\
    used sat = true /\ health sat = health sat0.
Proof.
  intros buf.
  destruct (x5c_skyview_entry env0 session0 buf sat0 ltac:(reflexivity))
    as (_ & _ & sat & Hs & _ & _ & Hu & Hh).
  exists sat. split; [exact Hs|]. split; [exact Hu | exact Hh].
Defined.

(** The table x5d leaves. *)
Lemma decode_x5d_skyview (E : driver_env) (session : gps_device_t)
    (buf : list Z) :
  getub buf 1 < TSIP_CHANNELS ->
  skyview (gpsdata (snd (decode_x5d E session buf))) =
  <[Z.to_nat (getub buf 1) :=
      mk_satellite (getub buf 0) (getbef32 buf 4)
        (getbef32 buf 12 * RAD_2_DEG)%float
        (getbef32 buf 16 * RAD_2_DEG)%float
        (negb (getub buf 3 =? 0))
        (fst (tsip_gnssid (getub buf 25) (getub buf 0)))
        (snd (tsip_gnssid (getub buf 25) (getub buf 0)))
        (if getub buf 22 =? 0 then SAT_HEALTH_OK else SAT_HEALTH_BAD)]>
    (skyview (gpsdata session)).
Proof.
  intros Hi. unfold decode_x5d. cbv zeta.
  replace (getub buf 1 <? TSIP_CHANNELS) with true
    by (symmetry; now apply Z.ltb_lt).
  destruct (PrimFloat.ltb 0 (getbef32 buf 8)); [rewrite resolv_pair|];
    cbn; destruct (getub buf 1 =? 0); cbn;
    match goal with
    | |- context [?a <=? ?b] => destruct (a <=? b)
    end; reflexivity.
Qed.

(** X22. An x5d packet of a channel below TSIP_CHANNELS rewrites the
    entry of its channel in the skyview table and no other; the table
    keeps its length. In the entry, the satellite is used exactly when
    the use byte is not 0, the health is OK exactly when the bad-data
    byte is 0 (it is never kept from before), and gnssid and svid are
    those [tsip_gnssid] gives for the SV type of the packet. *)
Theorem x5d_skyview_entry (E : driver_env) (session : gps_device_t)
    (buf : list Z) :
  let i := Z.to_nat (getub buf 1) in
  let sky := skyview (gpsdata session) in
  let sky' := skyview (gpsdata (snd (decode_x5d E session buf))) in
  getub buf 1 < TSIP_CHANNELS ->
  (i < length sky)%nat ->
  length sky' = length sky /\
  (forall j : nat, j <> i -> sky' !! j = sky !! j) /\
  exists sat : satellite_t,
    sky' !! i = Some sat /\
    PRN sat = getub buf 0 /\
    (gnssid sat, svid sat) = tsip_gnssid (getub buf 25) (getub buf 0) /\
    used sat = negb (getub buf 3 =? 0) /\
    (health sat = SAT_HEALTH_OK <-> getub buf 22 = 0) /\
    (health sat = SAT_HEALTH_BAD <-> getub buf 22 <> 0).
Proof.
  intros i sky sky' Hi Hlen. subst sky'.
  rewrite decode_x5d_skyview by exact Hi. fold i sky.
  split; [apply length_insert|].
  split; [intros j Hj; apply list_lookup_insert_ne; congruence|].
  eexists. split; [apply list_lookup_insert_eq; exact Hlen|].
  cbn [PRN gnssid svid used health]. split; [reflexivity|].
  split; [symmetry; apply surjective_pairing|].
  split; [reflexivity|].
  destruct (getub buf 22 =? 0) eqn:Hb;
    [apply Z.eqb_eq in Hb | apply Z.eqb_neq in Hb];
    unfold SAT_HEALTH_OK, SAT_HEALTH_BAD; split; split; intros H;
    try reflexivity; try assumption; try discriminate H; try contradiction.
Qed.

Lemma x5d_skyview_entry_witness :
  exists sat : satellite_t,
    skyview (gpsdata (snd (decode_x5d env0 session0 (x5d_packet 3))))
      !! 3%nat = Some sat /\
    health sat = SAT_HEALTH_OK.
Proof.
  destruct (x5d_skyview_entry env0 session0 (x5d_packet 3)
              ltac:(vm_compute; reflexivity) ltac:(vm_compute; lia))
    as (_ & _ & sat & Hs & _ & _ & _ & Hok & _).
  exists sat. split; [exact Hs | apply Hok; reflexivity].
Defined.

(** ** Packets x6c and x6d: DOPs, satellites used, status *)

(** The test for a store past the end of an array leaves the rest of
    the session alone. *)
Lemma gpsdata_if_overrun (c : bool) (s : gps_device_t) :
  gpsdata (if c then set_overrun true s else s) = gpsdata s.
Proof. now destruct c. Qed.

Lemma newdata_if_overrun (c : bool) (s : gps_device_t) :
  newdata (if c then set_overrun true s else s) = newdata s.
Proof. now destruct c. Qed.

Lemma driver_tsip_if_overrun (c : bool) (s : gps_device_t) :
  driver_tsip (if c then set_overrun true s else s) = driver_tsip s.
Proof. now destruct c. Qed.

Lemma overrun_if_overrun (c : bool) (s : gps_device_t) :
  overrun (if c then set_overrun true s else s) = c || overrun s.
Proof. now destruct c. Qed.

Lemma store_dops_spec (pd hd vd td : float) (mask : Z)
    (session : gps_device_t) :
  store_dops pd hd vd td mask session =
  (if IN 0.01 pd 89.99 || IN 0.01 hd 89.99 || IN 0.01 vd 89.99
      || IN 0.01 td 89.99
   then Z.lor mask DOP_SET else mask,
   with_gpsdata
     (with_dop
        (fun d =>
           mk_dop (if IN 0.01 pd 89.99 then pd else pdop d)
             (if IN 0.01 hd 89.99 then hd else hdop d)
             (if IN 0.01 vd 89.99 then vd else vdop d)
             (if IN 0.01 td 89.99 then td else tdop d)))
     session).
Proof.
  unfold store_dops.
  destruct session as [c g nd lf ofx dt lx q mb ml w ov].
  destruct g as [sv su sky st d]. destruct d as [p h v t].
  destruct (IN 0.01 pd 89.99), (IN 0.01 hd 89.99), (IN 0.01 vd 89.99),
    (IN 0.01 td 89.99); cbn;
    rewrite <- ?Z.lor_assoc, ?Z.lor_diag; reflexivity.
Qed.

(** The store loop of x6c and x6d, entry by entry. *)
Lemma fill_sats_used_lookup (buf : list Z) (base : Z) (n : nat) :
  forall (k : nat) (sats : list Z) (j : nat),
  fill_sats_used buf base (Z.of_nat k) n sats !! j =
  if decide ((k <= j < k + n)%nat /\ (j < length sats)%nat)
  then Some (getsb buf (base + Z.of_nat j))
  else sats !! j.
Proof.
  induction n as [|n IH]; intros k sats j; cbn [fill_sats_used].
  - destruct (decide _); [lia | reflexivity].
  - replace (Z.of_nat k + 1) with (Z.of_nat (S k)) by lia.
    rewrite IH, length_insert, Nat2Z.id, list_lookup_insert.
    repeat destruct (decide _); try reflexivity; try lia.
    destruct a as [-> _]. reflexivity.
Qed.

Lemma fill_sats_used_length (buf : list Z) (base : Z) (n : nat) :
  forall (i : Z) (sats : list Z),
  length (fill_sats_used buf base i n sats) = length sats.
Proof.
  induction n as [|n IH]; intros i sats; cbn [fill_sats_used];
    [reflexivity|].
  now rewrite IH, length_insert.
Qed.

Lemma x6d_count_range (u : Z) :
  0 <= Z.land (Z.shiftr u 4) 0x0f <= 15.
Proof.
  assert (H : Z.land (Z.shiftr u 4) 15 = Z.shiftr u 4 mod 16).
  { change 15 with (Z.ones 4). now rewrite Z.land_ones by lia. }
  rewrite H. pose proof (Z.mod_pos_bound (Z.shiftr u 4) 16). lia.
Qed.

(** X23. A x6d packet long enough for its satellite count stores each
    of its four DOPs exactly when that DOP lies in 0.01..89.99 (a NaN
    does not), and leaves the others as they were; DOP_SET is in the
    mask exactly when one was stored. MODE_SET and USED_IS are always in
    the mask, and no length failure is reported. *)
Theorem x6d_dops_accepted (E : driver_env) (session : gps_device_t)
    (buf : list Z) (len : Z) :
  let count := Z.land (Z.shiftr (getub buf 0) 4) 0x0f in
  let pd := getbef32 buf 1 in
  let hd := getbef32 buf 5 in
  let vd := getbef32 buf 9 in
  let td := getbef32 buf 13 in
  let r := decode_x6d E session buf len in
  let d0 := dop (gpsdata session) in
  let d := dop (gpsdata (snd r)) in
  17 + count <= len ->
  pdop d = (if IN 0.01 pd 89.99 then pd else pdop d0) /\
  hdop d = (if IN 0.01 hd 89.99 then hd else hdop d0) /\
  vdop d = (if IN 0.01 vd 89.99 then vd else vdop d0) /\
  tdop d = (if IN 0.01 td 89.99 then td else tdop d0) /\
  mask_has (fst (fst r)) DOP_SET =
    (IN 0.01 pd 89.99 || IN 0.01 hd 89.99 || IN 0.01 vd 89.99
     || IN 0.01 td 89.99) /\
  mask_has (fst (fst r)) MODE_SET = true /\
  mask_has (fst (fst r)) USED_IS = true /\
  snd (fst r) = 0 /\
  IN 0.01 nan 89.99 = false.
Proof.
  intros count pd hd vd td r d0 d Hlen. subst d r d0.
  split; [|split; [|split; [|split; [|split; [|split; [|split; [|split]]]]]]];
    [| | | | | | | |vm_compute; reflexivity];
    unfold decode_x6d; cbv zeta; fold count pd hd vd td;
    (replace (len <? 17 + count) with false
       by (symmetry; apply Z.ltb_ge; lia));
    rewrite store_dops_spec; clearbody pd hd vd td count;
    set (b1 := IN 0.01 pd 89.99); set (b2 := IN 0.01 hd 89.99);
    set (b3 := IN 0.01 vd 89.99); set (b4 := IN 0.01 td 89.99);
    clearbody b1 b2 b3 b4;
    cbn [fst snd gpsdata with_gpsdata with_newdata with_tsip GPSD_LOG
           with_context dop with_dop set_satellites_used pdop hdop vdop
           tdop];
    rewrite ?gpsdata_if_overrun;
    cbn [fst snd gpsdata with_gpsdata with_newdata with_tsip GPSD_LOG
           with_context dop with_dop set_satellites_used pdop hdop vdop
           tdop];
    try (match goal with
         | |- context [if ?c then with_newdata _ _ else _] => destruct c
         end; reflexivity);
    try (match goal with
         | |- context [STATUS_UNK <? ?x] => destruct (STATUS_UNK <? x)
         end;
         destruct b1, b2, b3, b4; vm_compute; reflexivity).
  reflexivity.
Qed.

Lemma x6d_dops_accepted_witness :
  let buf := [0x04; 0x3f; 0x80; 0; 0; 0x7f; 0xc0; 0; 0] ++ replicate 8 0 in
  let d := dop (gpsdata (snd (decode_x6d env0 session0 buf 17))) in
  pdop d = 1%float /\ hdop d = hdop (dop (gpsdata session0)).
Proof.
  intros buf d.
  destruct (x6d_dops_accepted env0 session0 buf 17
              ltac:(vm_compute; discriminate)) as (Hp & Hh & _).
  split; [exact Hp | exact Hh].
Defined.

Lemma decode_x6d_long (E : driver_env) (session : gps_device_t)
    (buf : list Z) (len : Z) :
  let count := Z.land (Z.shiftr (getub buf 0) 4) 0x0f in
  let r := decode_x6d E session buf len in
  17 + count <= len ->
  sats_used (driver_tsip (snd r)) =
    fill_sats_used buf 17 0 (Z.to_nat count)
      (replicate (Z.to_nat (MAXCHANNELS E)) 0) /\
  satellites_used (gpsdata (snd r)) = count /\
  newdata (snd r) =
    (let f := fix_dimension (Z.land (getub buf 0) 7) (newdata session) in
     if (count <=? 0) && isfinite (longitude (oldfix session))
     then set_status STATUS_DR f else f) /\
  mask_has (fst (fst r)) STATUS_SET =
    (STATUS_UNK <? status (newdata (snd r))).
Proof.
  intros count r Hlen. subst r.
  unfold decode_x6d. cbv zeta. fold count.
  replace (len <? 17 + count) with false by (symmetry; apply Z.ltb_ge; lia).
  rewrite store_dops_spec. clearbody count.
  set (any := _ || _ || _ || _). clearbody any.
  cbn [fst snd gpsdata newdata driver_tsip with_gpsdata with_newdata
         with_tsip GPSD_LOG with_context oldfix].
  rewrite driver_tsip_if_overrun, gpsdata_if_overrun, !newdata_if_overrun.
  cbn [fst snd gpsdata newdata driver_tsip with_gpsdata with_newdata
         with_tsip GPSD_LOG with_context oldfix].
  destruct ((count <=? 0) && isfinite (longitude (oldfix session)));
    cbn [fst snd gpsdata newdata driver_tsip with_gpsdata with_newdata
           with_tsip GPSD_LOG with_context oldfix sats_used set_sats_used
           satellites_used set_satellites_used status set_status];
    (split; [reflexivity|]); (split; [reflexivity|]);
    (split; [reflexivity|]);
    try match goal with
        | |- context [STATUS_UNK <? ?x] => destruct (STATUS_UNK <? x)
        end;
    destruct any; vm_compute; reflexivity.
Qed.

(** X24. A x6d packet long enough for its satellite count, which is the
    upper four bits of its first byte and so at most 15, leaves that
    count as the number of satellites used and a list of MAXCHANNELS
    entries: entry j below the count is byte 17 + j of the packet read
    as a signed byte, every other entry is 0. *)
Theorem x6d_sats_used (E : driver_env) (session : gps_device_t)
    (buf : list Z) (len : Z) :
  let count := Z.land (Z.shiftr (getub buf 0) 4) 0x0f in
  let r := decode_x6d E session buf len in
  let sats := sats_used (driver_tsip (snd r)) in
  17 + count <= len ->
  count <= MAXCHANNELS E ->
  0 <= count <= 15 /\
  satellites_used (gpsdata (snd r)) = count /\
  Z.of_nat (length sats) = MAXCHANNELS E /\
  (forall j : Z, 0 <= j < count ->
     sats !! Z.to_nat j = Some (getsb buf (17 + j)) /\
     -128 <= getsb buf (17 + j) < 128) /\
  (forall j : Z, count <= j < MAXCHANNELS E -> sats !! Z.to_nat j = Some 0).
Proof.
  intros count r sats Hlen Hmax. subst sats r.
  destruct (decode_x6d_long E session buf len Hlen) as (Hs & Hu & _).
  cbv zeta in Hs, Hu. fold count in Hs, Hu.
  pose proof (x6d_count_range (getub buf 0)) as Hc. fold count in Hc.
  rewrite Hs.
  split; [exact Hc|]. split; [exact Hu|]. split; [|split].
  - rewrite fill_sats_used_length, length_replicate. lia.
  - intros j Hj. split.
    + change 0 with (Z.of_nat 0) at 1.
      rewrite fill_sats_used_lookup, length_replicate, Z2Nat.id by lia.
      destruct (decide _); [reflexivity | lia].
    + unfold getsb. cbv zeta.
      pose proof (getub_range buf (17 + j)) as Hr.
      destruct (128 <=? getub buf (17 + j)) eqn:Hb;
        [apply Z.leb_le in Hb | apply Z.leb_gt in Hb]; lia.
  - intros j Hj. change 0 with (Z.of_nat 0) at 1.
    rewrite fill_sats_used_lookup.
    destruct (decide _); [lia|].
    apply lookup_replicate_2. lia.
Qed.

Lemma x6d_sats_used_witness :
  let buf := [0x24] ++ replicate 16 0 ++ [7; 0x85] in
  let sats := sats_used (driver_tsip (snd (decode_x6d env0 session0 buf 19))) in
  sats !! Z.to_nat 0 = Some 7 /\ sats !! Z.to_nat 1 = Some (-123) /\
  sats !! Z.to_nat 2 = Some 0.
Proof.
  intros buf sats.
  destruct (x6d_sats_used env0 session0 buf 19
              ltac:(vm_compute; discriminate) ltac:(vm_compute; discriminate))
    as (_ & _ & _ & Hlow & Hhigh).
  split; [|split].
  - apply (Hlow 0). vm_compute. split; congruence.
  - apply (Hlow 1). vm_compute. split; congruence.
  - apply (Hhigh 2). vm_compute. split; congruence.
Defined.

Lemma fix_dimension_status (dim : Z) (f : gps_fix_t) :
  status (fix_dimension dim f) =
  (if (dim =? 1) || (dim =? 5) then STATUS_TIME
   else if dim =? 6 then STATUS_DGPS else status f) /\
  mode (fix_dimension dim f) =
  (if (dim =? 1) || (dim =? 4) || (dim =? 5) || (dim =? 6) then MODE_3D
   else if dim =? 3 then MODE_2D else MODE_NO_FIX).
Proof.
  unfold fix_dimension.
  destruct dim as [|p|p]; [split; reflexivity | | split; reflexivity].
  do 3 (try destruct p as [p|p|]); split; reflexivity.
Qed.

(** X25. The status and mode a x6d packet leaves, when it is long enough
    for its satellite count. The mode depends on the dimension (the low
    three bits) alone: 3D for 1, 4, 5 and 6, 2D for 3, no fix otherwise.
    With no satellite in the packet and a finite longitude in the old
    fix the status is dead reckoning, whatever the dimension; otherwise
    it is TIME for dimension 1 and 5, DGPS for 6, and unchanged for the
    rest. STATUS_SET is in the mask exactly when the status left is above
    unknown. *)
Theorem x6d_status_mode (E : driver_env) (session : gps_device_t)
    (buf : list Z) (len : Z) :
  let count := Z.land (Z.shiftr (getub buf 0) 4) 0x0f in
  let dim := Z.land (getub buf 0) 7 in
  let r := decode_x6d E session buf len in
  let f := newdata (snd r) in
  17 + count <= len ->
  mode f =
    (if (dim =? 1) || (dim =? 4) || (dim =? 5) || (dim =? 6) then MODE_3D
     else if dim =? 3 then MODE_2D else MODE_NO_FIX) /\
  (count = 0 -> isfinite (longitude (oldfix session)) = true ->
   status f = STATUS_DR) /\
  (count <> 0 \/ isfinite (longitude (oldfix session)) = false ->
   status f =
     (if (dim =? 1) || (dim =? 5) then STATUS_TIME
      else if dim =? 6 then STATUS_DGPS else status (newdata session))) /\
  (mask_has (fst (fst r)) STATUS_SET = true <-> STATUS_UNK < status f).
Proof.
  intros count dim r f Hlen. subst f r.
  destruct (decode_x6d_long E session buf len Hlen) as (_ & _ & Hn & Hm).
  cbv zeta in Hn, Hm. fold count dim in Hn, Hm.
  pose proof (x6d_count_range (getub buf 0)) as Hc. fold count in Hc.
  destruct (fix_dimension_status dim (newdata session)) as (Hst & Hmd).
  rewrite Hm, Z.ltb_lt, Hn.
  split; [|split; [|split; [|reflexivity]]].
  - destruct ((count <=? 0) && isfinite (longitude (oldfix session)));
      [cbn [mode set_status]|]; exact Hmd.
  - intros H0 Hfin. rewrite H0, Hfin. reflexivity.
  - intros H.
    replace ((count <=? 0) && isfinite (longitude (oldfix session)))
      with false; [exact Hst|].
    symmetry. apply andb_false_iff.
    destruct H as [H | H]; [left; apply Z.leb_gt; lia | right; exact H].
Qed.

Lemma x6d_status_mode_witness :
  let buf := [0x04] ++ replicate 16 0 in
  let f := newdata (snd (decode_x6d env0 session0 buf 17)) in
  status f = STATUS_DR /\ mode f = MODE_3D.
Proof.
  intros buf f.
  destruct (x6d_status_mode env0 session0 buf 17
              ltac:(vm_compute; discriminate)) as (Hm & Hdr & _).
  split; [apply Hdr; reflexivity | exact Hm].
Defined.

(** ** The superpacket dispatchers *)

(** X26. The dispatcher of the superpackets takes an x8f-20 payload of
    exactly 56 or 64 bytes and no other: any other length, also one
    above 56, is answered with the length failure 56 and the session is
    not touched. As the list of satellites used is read until the
    payload ends, at most 12 PRNs are stored from a payload of 56 bytes
    and 16 from one of 64, whatever the satellite count says. *)
Theorem x8f_20_exact_length (E : driver_env) (session : gps_device_t)
    (buf : list Z) (len now : Z) :
  getub buf 0 = 0x20 ->
  let r := decode_x8f E session buf len now in
  (len <> 56 -> len <> 64 -> r = (0, 56, session)) /\
  (len = 56 \/ len = 64 ->
   r = (fst (decode_x8f_20 E session buf len), 0,
        snd (decode_x8f_20 E session buf len)) /\
   forall j : Z,
     (len - 31) / 2 <= j < MAXCHANNELS E ->
     sats_used (driver_tsip (snd r)) !! Z.to_nat j = Some 0).
Proof.
  intros Hsub r. subst r. unfold decode_x8f. rewrite Hsub.
  split.
  - intros H56 H64. apply Z.eqb_neq in H56, H64. now rewrite H56, H64.
  - intros Hlen.
    assert (Hc : negb (len =? 56) && negb (len =? 64) = false)
      by (destruct Hlen as [-> | ->]; reflexivity).
    rewrite Hc.
    destruct (decode_x8f_20 E session buf len) as [mask s] eqn:Hd.
    cbn [fst snd]. split; [reflexivity|].
    intros j Hj.
    replace s with (snd (decode_x8f_20 E session buf len)) by now rewrite Hd.
    rewrite decode_x8f_20_sats_used.
    assert (H12 : 12 <= j) by (destruct Hlen as [-> | ->];
                               change ((56 - 31) / 2) with 12 in Hj;
                               change ((64 - 31) / 2) with 16 in Hj; lia).
    destruct (MAXCHANNELS E <? getub buf 28);
      [apply lookup_replicate_2; lia|].
    change 0 with (Z.of_nat 0) at 1.
    rewrite x8f_20_sats_lookup, Z2Nat.id by lia.
    destruct (decide _) as [(_ & _ & Hl)|_].
    + destruct Hlen as [-> | ->];
        [change ((56 - 31) / 2) with 12 in Hj
        |change ((64 - 31) / 2) with 16 in Hj]; lia.
    + apply lookup_replicate_2. lia.
Qed.

Lemma x8f_20_exact_length_witness :
  decode_x8f env0 session0 (x8f_20_packet 1000 0 0 4 18 100 ++ [0]) 57 0
  = (0, 56, session0).
Proof.
  apply (proj1 (x8f_20_exact_length env0 session0
                  (x8f_20_packet 1000 0 0 4 18 100 ++ [0]) 57 0
                  ltac:(reflexivity))); lia.
Defined.

Lemma decode_x6c_long (E : driver_env) (session : gps_device_t)
    (buf : list Z) (len : Z) :
  let count := getub buf 17 in
  let fixdm := getub buf 0 in
  let r := decode_x6c E session buf len in
  18 + count <= len ->
  snd (fst r) = 0 /\
  sats_used (driver_tsip (snd r)) =
    fill_sats_used buf 18 0 (Z.to_nat count)
      (replicate (Z.to_nat (MAXCHANNELS E)) 0) /\
  satellites_used (gpsdata (snd r)) = count /\
  newdata (snd r) =
    (let f := fix_dimension (Z.land fixdm 7) (newdata session) in
     if Z.land fixdm 8 =? 8 then
       set_status (if negb (count =? 0) then STATUS_TIME else STATUS_DR) f
     else f) /\
  mask_has (fst (fst r)) STATUS_SET =
    (STATUS_UNK <? status (newdata (snd r))) /\
  overrun (snd r) = (MAXCHANNELS E <? count) || overrun session.
Proof.
  intros count fixdm r Hlen. subst r.
  unfold decode_x6c. cbv zeta. fold count fixdm.
  rewrite store_dops_spec.
  replace (len <? 18 + count) with false by (symmetry; apply Z.ltb_ge; lia).
  clearbody count fixdm.
  set (any := _ || _ || _ || _). clearbody any.
  cbn [fst snd gpsdata newdata driver_tsip overrun with_gpsdata with_newdata
         with_tsip GPSD_LOG with_context oldfix].
  rewrite driver_tsip_if_overrun, gpsdata_if_overrun, !newdata_if_overrun,
    overrun_if_overrun.
  cbn [fst snd gpsdata newdata driver_tsip overrun with_gpsdata with_newdata
         with_tsip GPSD_LOG with_context oldfix].
  destruct (Z.land fixdm 8 =? 8); [destruct (negb (count =? 0))|];
    cbn [fst snd gpsdata newdata driver_tsip overrun with_gpsdata
           with_newdata with_tsip GPSD_LOG with_context oldfix sats_used
           set_sats_used satellites_used set_satellites_used status
           set_status];
    (split; [reflexivity|]); (split; [reflexivity|]);
    (split; [reflexivity|]); (split; [reflexivity|]);
    (split; [|reflexivity]);
    try match goal with
        | |- context [STATUS_UNK <? ?x] => destruct (STATUS_UNK <? x)
        end;
    destruct any; vm_compute; reflexivity.
Qed.

(** X27. What a x6c packet leaves when it is long enough for its
    satellite count. The loop that stores the satellites used has no
    bound of its own: a count above MAXCHANNELS (the count is a byte, up
    to 255) stores past the end of the array. For a count that does not
    exceed MAXCHANNELS nothing is stored out of bounds and no length
    failure is reported; with bit 3 of the first byte set (manual mode)
    the status is TIME when the packet has satellites and dead reckoning
    when it has none, whatever the dimension and whatever the old fix;
    with the bit clear it is the status of the dimension. STATUS_SET is
    in the mask exactly when the status left is above unknown. Entry j of
    the list of satellites used is byte 18 + j read as a signed byte for
    j below the count, and 0 from the count on. *)
Theorem x6c_status_and_sats (E : driver_env) (session : gps_device_t)
    (buf : list Z) (len : Z) :
  let count := getub buf 17 in
  let fixdm := getub buf 0 in
  let dim := Z.land fixdm 7 in
  let r := decode_x6c E session buf len in
  let f := newdata (snd r) in
  let sats := sats_used (driver_tsip (snd r)) in
  18 + count <= len ->
  (MAXCHANNELS E < count -> overrun (snd r) = true) /\
  (count <= MAXCHANNELS E ->
   overrun (snd r) = overrun session /\
   snd (fst r) = 0 /\
   (Z.land fixdm 8 = 8 ->
    status f = (if count =? 0 then STATUS_DR else STATUS_TIME)) /\
   (Z.land fixdm 8 <> 8 ->
    status f =
      (if (dim =? 1) || (dim =? 5) then STATUS_TIME
       else if dim =? 6 then STATUS_DGPS else status (newdata session))) /\
   (mask_has (fst (fst r)) STATUS_SET = true <-> STATUS_UNK < status f) /\
   satellites_used (gpsdata (snd r)) = count /\
   (forall j : Z, 0 <= j < count ->
      sats !! Z.to_nat j = Some (getsb buf (18 + j))) /\
   (forall j : Z, count <= j < MAXCHANNELS E ->
      sats !! Z.to_nat j = Some 0)).
Proof.
  intros count fixdm dim r f sats Hlen. subst sats f r.
  destruct (decode_x6c_long E session buf len Hlen)
    as (Hb & Hs & Hu & Hn & Hm & Ho).
  cbv zeta in Hs, Hu, Hn, Hm, Ho.
  fold count fixdm dim in Hs, Hu, Hn, Hm, Ho.
  pose proof (getub_range buf 17) as Hc. fold count in Hc.
  destruct (fix_dimension_status dim (newdata session)) as (Hst & _).
  split.
  { intros Hmax. rewrite Ho.
    now replace (MAXCHANNELS E <? count) with true
      by (symmetry; apply Z.ltb_lt; exact Hmax). }
  intros Hmax.
  rewrite Hm, Z.ltb_lt, Hn, Hs, Ho.
  replace (MAXCHANNELS E <? count) with false
    by (symmetry; apply Z.ltb_ge; exact Hmax).
  split; [reflexivity|].
  split; [exact Hb|].
  split; [|split; [|split; [reflexivity|split; [exact Hu|split]]]].
  - intros H8. apply Z.eqb_eq in H8. rewrite H8. cbn [status set_status].
    now destruct (count =? 0).
  - intros H8. apply Z.eqb_neq in H8. rewrite H8. exact Hst.
  - intros j Hj. change 0 with (Z.of_nat 0) at 1.
    rewrite fill_sats_used_lookup, length_replicate, Z2Nat.id by lia.
    destruct (decide _); [reflexivity | lia].
  - intros j Hj. change 0 with (Z.of_nat 0) at 1.
    rewrite fill_sats_used_lookup.
    destruct (decide _); [lia|].
    apply lookup_replicate_2. lia.
Qed.

Lemma x6c_status_and_sats_witness :
  let buf := [0x0c] ++ replicate 16 0 ++ [1; 0x85] in
  let r := decode_x6c env0 session0 buf 19 in
  overrun (snd r) = false /\
  status (newdata (snd r)) = STATUS_TIME /\
  sats_used (driver_tsip (snd r)) !! Z.to_nat 0 = Some (-123) /\
  overrun
    (snd (decode_x6c env0 session0 (replicate 17 0 ++ replicate 256 255)
            273)) = true.
Proof.
  intros buf r.
  destruct (x6c_status_and_sats env0 session0 buf 19
              ltac:(vm_compute; discriminate))
    as (_ & Hin).
  destruct Hin as (Ho & _ & Hman & _ & _ & _ & Hlow & _);
    [vm_compute; discriminate|].
  split; [exact Ho|].
  split; [apply Hman; reflexivity|].
  split; [apply (Hlow 0); vm_compute; split; congruence|].
  apply (proj1 (x6c_status_and_sats env0 session0
                  (replicate 17 0 ++ replicate 256 255) 273
                  ltac:(vm_compute; discriminate))).
  vm_compute. reflexivity.
Defined.

(** X28. Every x1c packet that does not reach a decoder, because its
    sub-code is neither x81 nor x83 or because it is shorter than the
    minimum of its sub-code, still sends the request for the stored
    production parameters (8e-42): one frame 10 8e 42 10 03 goes out on
    a writable device, and the mask is empty. *)
Theorem x1c_requests_production (E : driver_env) (session : gps_device_t)
    (buf : list Z) (len : Z) :
  readonly (context session) = false ->
  2 <= sizeof_msgbuf E / 2 ->
  (getub buf 0 <> 0x81 /\ getub buf 0 <> 0x83) \/
  (getub buf 0 = 0x81 /\ len < 10) \/ (getub buf 0 = 0x83 /\ len < 13) ->
  let r := decode_x1c E session buf len in
  fst (fst r) = 0 /\
  wire (snd r) = wire session ++ [[0x10; 0x8e; 0x42; 0x10; 0x03]] /\
  msgbuf (snd r) = [0x10; 0x8e; 0x42; 0x10; 0x03].
Proof.
  intros Hro Hsz Hcase r. subst r. unfold decode_x1c. cbv zeta.
  assert (Hw : forall s : gps_device_t,
            readonly (context s) = false ->
            wire (snd (tsip_write1 E s (Some [0x8e; 0x42]) 2)) =
              wire s ++ [[0x10; 0x8e; 0x42; 0x10; 0x03]] /\
            msgbuf (snd (tsip_write1 E s (Some [0x8e; 0x42]) 2)) =
              [0x10; 0x8e; 0x42; 0x10; 0x03]).
  { intros s Hs. unfold tsip_write1. rewrite Hs.
    replace (sizeof_msgbuf E / 2 <? 2) with false
      by (symmetry; apply Z.ltb_ge; lia).
    cbn.
    repeat match goal with
           | |- context [if ?c then _ else _] => destruct c
           end; split; reflexivity. }
  assert (Hfin : forall (m b : Z) (s : gps_device_t),
            m = 0 -> readonly (context s) = false -> wire s = wire session ->
            let r := (m, b, snd (tsip_write1 E s (Some [0x8e; 0x42]) 2)) in
            fst (fst r) = 0 /\
            wire (snd r) = wire session ++ [[0x10; 0x8e; 0x42; 0x10; 0x03]] /\
            msgbuf (snd r) = [0x10; 0x8e; 0x42; 0x10; 0x03]).
  { intros m b s -> Hs Hws. cbn [fst snd]. rewrite <- Hws.
    split; [reflexivity | now apply Hw]. }
  destruct Hcase as [[H81 H83] | [[H81 Hlen] | [H83 Hlen]]].
  - destruct (getub buf 0) as [|p|p] eqn:Hu;
      try (apply Hfin; [reflexivity | exact Hro | reflexivity]).
    revert H81 H83. switch_cases; intros H81 H83;
      try congruence;
      (apply Hfin; [reflexivity | exact Hro | reflexivity]).
  - rewrite H81. unfold tsip_case.
    replace (len <? 10) with true by (symmetry; apply Z.ltb_lt; lia).
    apply Hfin; [reflexivity | exact Hro | reflexivity].
  - rewrite H83. unfold tsip_case.
    replace (len <? 13) with true by (symmetry; apply Z.ltb_lt; lia).
    apply Hfin; [reflexivity | exact Hro | reflexivity].
Qed.

Lemma x1c_requests_production_witness :
  wire (snd (decode_x1c env0 session0 [0x81; 0; 0] 3)) =
  [[0x10; 0x8e; 0x42; 0x10; 0x03]].
Proof.
  apply (x1c_requests_production env0 session0 [0x81; 0; 0] 3
           ltac:(reflexivity) ltac:(vm_compute; discriminate)).
  right. left. split; [reflexivity | lia].
Defined.
